(** * GIA agentic research pipeline: citation accuracy gate, literature
      request deduplication and the autonomous runner

    A shallow embedding of

    - [src/citations/accuracy_gate.py]  (the citation accuracy gate),
    - [src/llm/edison_client.py]        (the request de-duplication of
                                         [EdisonClient.search_literature],
                                         the BibTeX export and the citations
                                         read from the text of an answer),
    - [scripts/gia_autonomous_runner.py] ([execute_phase],
                                         [run_autonomous_pipeline] and their
                                         helpers),
    - [scripts/run_citation_accuracy_gate.py] and [src/pipeline/defaults.py]
      (the callers that build the gate's configuration),

    followed by the properties proved about them.

    Conventions of the embedding.
    - Python [str] is [string]; the texts are taken to be ASCII, so
      [lower], [upper], [isdigit], [strip] and the regular-expression classes
      [\d], [\w], [\s], [\b] are their ASCII versions.
    - Python [set] of strings is [gset string]; [dict] with string keys is
      [gmap string _]; decoded JSON objects are association lists.
    - An exception is the name of its class. A function that can raise
      returns [PyExc.raising]: the exception, or the value. An [except]
      clause catches the classes it lists and their subclasses
      ([PyExc.caught_by]); what it does not catch goes on to the caller.
    - Python [float]. [Verifier] is [verify_claim] on binary64 floats, each
      operation rounded as Python rounds it ([Binary64], over [SpecFloat]):
      the scores and the verdict of a claim are proved there. In
      [AccuracyGate], which holds the whole gate, the scores are the exact
      rationals ([Q]) that the floats approximate; a verdict can differ from
      Python's when a score meets a threshold within a rounding error. The
      clock readings of the literature client are rationals as well.
    - Every regular expression of the source is written as a term of [Regex.re]
      and run by one backtracking matcher that follows the order in which
      Python's [re] explores alternatives. *)

From Stdlib Require Import QArith Qminmax ZArith Lqa Lia Bool.
From Stdlib Require Import Strings.String Strings.Ascii.
From Stdlib Require DecimalString SpecFloat.
From stdpp Require Import gmap strings list sorting.

Local Open Scope string_scope.

(* ===================================================================== *)
(** ** Python string primitives (ASCII)                                   *)
(* ===================================================================== *)

Module PyStr.

Definition code (c : ascii) : nat := nat_of_ascii c.

Definition between (lo hi : nat) (c : ascii) : bool :=
  (lo <=? code c)%nat && (code c <=? hi)%nat.

Definition is_digit : ascii -> bool := between 48 57.
Definition is_upper : ascii -> bool := between 65 90.
Definition is_lower : ascii -> bool := between 97 122.
Definition is_alpha (c : ascii) : bool := is_upper c || is_lower c.
Definition is_alnum (c : ascii) : bool := is_alpha c || is_digit c.

(** [\w]: letters, digits and the underscore. *)
Definition is_word (c : ascii) : bool := is_alnum c || (code c =? 95)%nat.

(** [str.isspace] on one character: TAB..CR, FS..US and the blank. *)
Definition is_space (c : ascii) : bool :=
  between 9 13 c || between 28 31 c || (code c =? 32)%nat.

Definition lower_char (c : ascii) : ascii :=
  if is_upper c then ascii_of_nat (code c + 32) else c.

Definition upper_char (c : ascii) : ascii :=
  if is_lower c then ascii_of_nat (code c - 32) else c.

Definition chars : string -> list ascii := list_ascii_of_string.
Definition str : list ascii -> string := string_of_list_ascii.

(** [s.lower()] and [s.upper()]. *)
Definition lower (s : string) : string := str (map lower_char (chars s)).
Definition upper (s : string) : string := str (map upper_char (chars s)).

Fixpoint lstrip_chars (l : list ascii) : list ascii :=
  match l with
  | c :: tl => if is_space c then lstrip_chars tl else l
  | [] => []
  end.

(** [s.strip()]. *)
Definition strip (s : string) : string :=
  str (rev (lstrip_chars (rev (lstrip_chars (chars s))))).

(** Truth value of a string: non-empty. *)
Definition nonempty (s : string) : bool :=
  match s with EmptyString => false | String _ _ => true end.

(** [s.isdigit()]: at least one character, all of them digits. *)
Definition isdigit (s : string) : bool :=
  nonempty s && forallb is_digit (chars s).

(** [len(s)]. *)
Definition len (s : string) : nat := String.length s.

(** [int(s)] for a string of digits. *)
Definition int_of_digits (s : string) : Z :=
  fold_left (fun acc c => (10 * acc + Z.of_nat (code c - 48))%Z) (chars s) 0%Z.

(** [s.endswith(suffix)]. *)
Definition endswith (s suffix : string) : bool :=
  let n := String.length s in
  let k := String.length suffix in
  (k <=? n)%nat && String.eqb (substring (n - k) k s) suffix.

(** [s.startswith(p)]. *)
Definition startswith (s p : string) : bool := String.prefix p s.

(** [needle in s]. *)
Fixpoint contains (needle s : string) : bool :=
  String.prefix needle s ||
  match s with
  | EmptyString => false
  | String _ tl => contains needle tl
  end.

(** [s[:n]]. *)
Definition take_prefix (n : nat) (s : string) : string := substring 0 n s.

(** [sep.join(parts)]. *)
Fixpoint join (sep : string) (parts : list string) : string :=
  match parts with
  | [] => ""
  | [p] => p
  | p :: tl => p ++ sep ++ join sep tl
  end.

(** [str(n)] for an integer. *)
Definition str_of_Z (n : Z) : string :=
  DecimalString.NilZero.string_of_int (Z.to_int n).

End PyStr.

(* ===================================================================== *)
(** ** Regular expressions with Python's backtracking order              *)
(* ===================================================================== *)

Module Regex.

Inductive re : Type :=
| Eps                                   (* the empty pattern *)
| Chr (p : ascii -> bool)               (* one character of a class *)
| Seq (a b : re)                        (* ab *)
| Alt (a b : re)                        (* a|b, a tried first *)
| Star (greedy : bool) (a : re)         (* a* or a*? *)
| WordB                                 (* \b *)
| Eos                                   (* $ *)
| Grp (a : re).                         (* capturing group 1 *)

(** A position in the subject: the character before it, its index, the
    characters from it on, and the span captured by group 1 so far. *)
Record pos : Type := Pos {
  before : option ascii;
  idx : nat;
  rest : list ascii;
  grp : option (nat * nat);
}.

Definition word_before (st : pos) : bool :=
  match before st with Some c => PyStr.is_word c | None => false end.

Definition word_after (st : pos) : bool :=
  match rest st with c :: _ => PyStr.is_word c | [] => false end.

Definition newline : ascii := ascii_of_nat 10.

(** [$]: at the end, or just before a final line feed. *)
Definition at_eos (st : pos) : bool :=
  match rest st with
  | [] => true
  | [c] => Ascii.eqb c newline
  | _ => false
  end.

Definition advance (c : ascii) (tl : list ascii) (st : pos) : pos :=
  {| before := Some c; idx := S (idx st); rest := tl; grp := grp st |}.

(** [run r st k]: match [r] at [st], then continue with [k]; the first
    success in Python's exploration order is returned. *)
Fixpoint run {A : Type} (r : re) (st : pos) (k : pos -> option A) : option A :=
  match r with
  | Eps => k st
  | Chr p =>
      match rest st with
      | c :: tl => if p c then k (advance c tl st) else None
      | [] => None
      end
  | Seq a b => run a st (fun st' => run b st' k)
  | Alt a b =>
      match run a st k with
      | Some x => Some x
      | None => run b st k
      end
  | Star greedy a =>
      (fix loop (fuel : nat) (st : pos) {struct fuel} : option A :=
         match fuel with
         | O => k st
         | S fuel' =>
             let again :=
               run a st (fun st' =>
                 if (length (rest st') <? length (rest st))%nat
                 then loop fuel' st' else None) in
             if greedy then
               match again with Some x => Some x | None => k st end
             else
               match k st with Some x => Some x | None => again end
         end) (S (length (rest st))) st
  | WordB => if xorb (word_before st) (word_after st) then k st else None
  | Eos => if at_eos st then k st else None
  | Grp a =>
      run a st (fun st' =>
        k {| before := before st'; idx := idx st'; rest := rest st';
             grp := Some (idx st, idx st') |})
  end.

(** Derived forms. *)
Definition Opt (a : re) : re := Alt a Eps.            (* a?  *)
Definition Plus (greedy : bool) (a : re) : re := Seq a (Star greedy a).
Fixpoint AtLeast (n : nat) (a : re) : re :=           (* a{n,} *)
  match n with
  | O => Star true a
  | S m => Seq a (AtLeast m a)
  end.

Definition is_char (x : ascii) : ascii -> bool := Ascii.eqb x.

(** A literal, matched as under [re.IGNORECASE]. *)
Fixpoint lit_ci_chars (l : list ascii) : re :=
  match l with
  | [] => Eps
  | x :: tl =>
      Seq (Chr (fun c => Ascii.eqb (PyStr.lower_char c) (PyStr.lower_char x)))
          (lit_ci_chars tl)
  end.
Definition lit_ci (s : string) : re := lit_ci_chars (PyStr.chars s).

(** [.]: any character but a line feed. *)
Definition Dot : re := Chr (fun c => negb (Ascii.eqb c newline)).

Definition start_pos (b : option ascii) (i : nat) (l : list ascii) : pos :=
  {| before := b; idx := i; rest := l; grp := None |}.

(** End index of the match of [r] starting at this position, if any. *)
Definition match_end (r : re) (b : option ascii) (i : nat) (l : list ascii)
  : option nat :=
  run r (start_pos b i l) (fun st => Some (idx st)).

(** [re.findall(r, text)] for a pattern without groups: the matched
    substrings, left to right, not overlapping. [skip] counts the characters
    of the last match still to be passed over. *)
Fixpoint findall_from (r : re) (b : option ascii) (i : nat)
    (l : list ascii) (skip : nat) : list string :=
  match l with
  | [] => []
  | c :: tl =>
      match skip with
      | S s => findall_from r (Some c) (S i) tl s
      | O =>
          match match_end r b i l with
          | Some e =>
              PyStr.str (take (e - i) l)
                :: findall_from r (Some c) (S i) tl (e - i - 1)
          | None => findall_from r (Some c) (S i) tl 0
          end
      end
  end.

Definition findall (r : re) (text : string) : list string :=
  findall_from r None 0 (PyStr.chars text) 0.

(** [re.search(r, text)]: the span of group 1 in the leftmost match. *)
Fixpoint search_from (r : re) (b : option ascii) (i : nat) (l : list ascii)
  : option (option (nat * nat)) :=
  match run r (start_pos b i l) (fun st => Some (grp st)) with
  | Some g => Some g
  | None =>
      match l with
      | [] => None
      | c :: tl => search_from r (Some c) (S i) tl
      end
  end.

(** [m = re.search(r, text); m.group(1)] when [m] is a match. *)
Definition search_group1 (r : re) (text : string) : option string :=
  match search_from r None 0 (PyStr.chars text) with
  | Some (Some (s, e)) => Some (substring s (e - s) text)
  | Some None => Some ""
  | None => None
  end.

End Regex.

(* ===================================================================== *)
(** ** Decoded JSON values                                                *)
(* ===================================================================== *)

Module Json.

#[local] Set Warnings "-register-all".

(** What [json.load] returns: [None], [bool], [int], [str], [list], [dict].
    Numbers are integers; a decoded object is its list of bindings. *)
Inductive json : Type :=
| JNull
| JBool (b : bool)
| JInt (n : Z)
| JStr (s : string)
| JList (l : list json)
| JDict (kv : list (string * json)).

(** [d.get(key)] on a decoded object ([None] when absent). *)
Fixpoint assoc (key : string) (kv : list (string * json)) : json :=
  match kv with
  | [] => JNull
  | (k, v) :: tl => if String.eqb k key then v else assoc key tl
  end.

Definition get (key : string) (d : json) : json :=
  match d with
  | JDict kv => assoc key kv
  | _ => JNull
  end.

(** [isinstance(x, dict)], [isinstance(x, list)], [isinstance(x, str)]. *)
Definition is_dict (x : json) : bool :=
  match x with JDict _ => true | _ => false end.
Definition is_list (x : json) : bool :=
  match x with JList _ => true | _ => false end.
Definition is_str (x : json) : bool :=
  match x with JStr _ => true | _ => false end.

(** Truth value of a decoded value. *)
Definition truthy (x : json) : bool :=
  match x with
  | JNull => false
  | JBool b => b
  | JInt n => negb (n =? 0)%Z
  | JStr s => PyStr.nonempty s
  | JList l => match l with [] => false | _ => true end
  | JDict kv => match kv with [] => false | _ => true end
  end.

(** [x or ""]. *)
Definition or_empty (x : json) : json := if truthy x then x else JStr "".

Definition apostrophe : ascii := ascii_of_nat 39.
Definition double_quote : ascii := ascii_of_nat 34.
Definition backslash : ascii := ascii_of_nat 92.

Definition hex_digit (n : nat) : ascii :=
  ascii_of_nat (if (n <? 10)%nat then 48 + n else 87 + n).

(** One character of [repr(s)], inside the quotes [quote]. *)
Definition repr_char (quote c : ascii) : list ascii :=
  let n := PyStr.code c in
  if Ascii.eqb c quote || Ascii.eqb c backslash then [backslash; c]
  else if (n =? 9)%nat then [backslash; "t"%char]
  else if (n =? 10)%nat then [backslash; "n"%char]
  else if (n =? 13)%nat then [backslash; "r"%char]
  else if (n <? 32)%nat || (n =? 127)%nat
       then [backslash; "x"%char; hex_digit (n / 16); hex_digit (n mod 16)]
  else [c].

(** [repr(s)] for a string: between apostrophes, or between double quotes
    when [s] holds an apostrophe and no double quote; the quote, the
    backslash and the control characters are escaped. *)
Definition repr_str (s : string) : string :=
  let l := PyStr.chars s in
  let quote :=
    if existsb (Ascii.eqb apostrophe) l
       && negb (existsb (Ascii.eqb double_quote) l)
    then double_quote else apostrophe in
  PyStr.str (quote :: flat_map (repr_char quote) l ++ [quote]).

(** [repr(x)]. *)
Fixpoint py_repr (x : json) : string :=
  match x with
  | JNull => "None"
  | JBool true => "True"
  | JBool false => "False"
  | JInt n => PyStr.str_of_Z n
  | JStr s => repr_str s
  | JList l => "[" ++ PyStr.join ", " (map py_repr l) ++ "]"
  | JDict kv =>
      "{" ++ PyStr.join ", "
               (map (fun p => repr_str (fst p) ++ ": " ++ py_repr (snd p)) kv)
          ++ "}"
  end.

(** [str(x)]. *)
Definition py_str (x : json) : string :=
  match x with
  | JStr s => s
  | _ => py_repr x
  end.

(** [[str(x) for x in l if isinstance(x, str) and x.strip()]]. *)
Fixpoint nonblank_strings (l : list json) : list string :=
  match l with
  | [] => []
  | JStr s :: tl =>
      if PyStr.nonempty (PyStr.strip s) then s :: nonblank_strings tl
      else nonblank_strings tl
  | _ :: tl => nonblank_strings tl
  end.

End Json.


(* ===================================================================== *)
(** ** Python exceptions                                                  *)
(* ===================================================================== *)

Module PyExc.

(** A computation that returns a value, or raises an exception, which is
    named by its class. *)
Definition raising (A : Type) : Type := string + A.

Definition bind {A B : Type} (m : raising A) (f : A -> raising B) : raising B :=
  match m with inl exc => inl exc | inr a => f a end.

(** [for x in l: s = body(s, x)]: the loop ends at the first exception. *)
Definition for_each {S X : Type} (l : list X) (s : S)
    (body : S -> X -> raising S) : raising S :=
  foldl (fun acc x => bind acc (fun s => body s x)) (inr s) l.

(** The built-in classes under [OSError] and under [ValueError], themselves
    included; [json.JSONDecodeError] is a subclass of [ValueError]. *)
Definition OSError_classes : list string :=
  [ "OSError"; "BlockingIOError"; "ChildProcessError"; "ConnectionError";
    "BrokenPipeError"; "ConnectionAbortedError"; "ConnectionRefusedError";
    "ConnectionResetError"; "FileExistsError"; "FileNotFoundError";
    "InterruptedError"; "IsADirectoryError"; "NotADirectoryError";
    "PermissionError"; "ProcessLookupError"; "TimeoutError" ].

Definition UnicodeError_classes : list string :=
  [ "UnicodeError"; "UnicodeDecodeError"; "UnicodeEncodeError";
    "UnicodeTranslateError" ].

Definition ValueError_classes : list string :=
  ("ValueError" :: "JSONDecodeError" :: UnicodeError_classes)%list.

(** The classes [cls] stands for in an [except] clause: [cls] and its
    subclasses. A class without subclasses here stands for itself. *)
Definition subclasses (cls : string) : list string :=
  if String.eqb cls "OSError" then OSError_classes
  else if String.eqb cls "ValueError" then ValueError_classes
  else if String.eqb cls "UnicodeError" then UnicodeError_classes
  else if String.eqb cls "ConnectionError"
  then [ "ConnectionError"; "BrokenPipeError"; "ConnectionAbortedError";
         "ConnectionRefusedError"; "ConnectionResetError" ]
  else [cls].

(** [isinstance(e, cls)] for an exception [e] of class [exc]. *)
Definition isinstance (exc cls : string) : bool :=
  existsb (String.eqb exc) (subclasses cls).

(** [except (cls1, cls2, ...)] catches an exception of class [exc]. *)
Definition caught_by (classes : list string) (exc : string) : bool :=
  existsb (isinstance exc) classes.

End PyExc.
(* ===================================================================== *)
(** ** src/citations/accuracy_gate.py                                     *)
(* ===================================================================== *)

Module AccuracyGate.
Import Json PyExc.

Inductive OnFailureAction : Type := OnBlock | OnDowngrade.

Definition _STOPWORDS : gset string :=
  list_to_set
    [ "a"; "an"; "and"; "are"; "as"; "at"; "be"; "by"; "for"; "from";
      "has"; "have"; "in"; "is"; "it"; "its"; "of"; "on"; "or"; "that";
      "the"; "this"; "to"; "was"; "were"; "with" ].

Record CitationAccuracyGateConfig : Type := Config {
  enabled : bool;
  on_failure : OnFailureAction;
  min_alignment_score : Q;
  min_keyword_overlap : Q;
  enable_entity_overlap : bool;
  min_entity_overlap : Q;
  enable_numeric_consistency : bool;
  max_evidence_items_per_claim : nat;
}.

(** [CitationAccuracyGateConfig()]: the dataclass defaults. *)
Definition default_config : CitationAccuracyGateConfig :=
  {| enabled := false;
     on_failure := OnBlock;
     min_alignment_score := 18 # 100;
     min_keyword_overlap := 6 # 100;
     enable_entity_overlap := false;
     min_entity_overlap := 20 # 100;
     enable_numeric_consistency := false;
     max_evidence_items_per_claim := 5 |}.

(** *** Tokenisers *)

(** [[A-Za-z0-9]+] *)
Definition re_token : Regex.re := Regex.Plus true (Regex.Chr PyStr.is_alnum).

(** [\b(?:[A-Z][a-zA-Z]{2,}|[A-Z]{2,})\b] *)
Definition re_entity : Regex.re :=
  Regex.Seq Regex.WordB
    (Regex.Seq
       (Regex.Alt
          (Regex.Seq (Regex.Chr PyStr.is_upper)
                     (Regex.AtLeast 2 (Regex.Chr PyStr.is_alpha)))
          (Regex.AtLeast 2 (Regex.Chr PyStr.is_upper)))
       Regex.WordB).

(** [\b\d+(?:\.\d+)?%?\b] *)
Definition re_number : Regex.re :=
  Regex.Seq Regex.WordB
    (Regex.Seq (Regex.Plus true (Regex.Chr PyStr.is_digit))
       (Regex.Seq
          (Regex.Opt (Regex.Seq (Regex.Chr (Regex.is_char "."))
                                (Regex.Plus true (Regex.Chr PyStr.is_digit))))
          (Regex.Seq (Regex.Opt (Regex.Chr (Regex.is_char "%")))
                     Regex.WordB))).

(** The body of the loop of [_tokenize]: which raw tokens are kept. *)
Definition keep_token (raw : string) : bool :=
  if (PyStr.len raw <? 3)%nat then false
  else if PyStr.isdigit raw then false
  else if bool_decide (raw ∈ _STOPWORDS) then false
  else true.

Definition _tokenize (text : string) : gset string :=
  list_to_set (filter (fun raw => keep_token raw = true)
                      (Regex.findall re_token (PyStr.lower text))).

Definition _extract_named_entities (text : string) : gset string :=
  list_to_set (map PyStr.lower (Regex.findall re_entity text)).

Definition _extract_numbers (text : string) : gset string :=
  list_to_set (Regex.findall re_number text).

(** The body of the loop of [_filter_year_like_numbers]: [true] when [n] is
    added to [out]. *)
Definition keeps_number (n : string) : bool :=
  if PyStr.endswith n "%" then true
  else if PyStr.isdigit n && (PyStr.len n =? 4)%nat then
    let iv := PyStr.int_of_digits n in
    if (1900 <=? iv)%Z && (iv <=? 2100)%Z then false else true
  else true.

Definition _filter_year_like_numbers (nums : gset string) : gset string :=
  filter (fun n => keeps_number n = true) nums.

(** *** Scores *)

(** [x < y] on scores and thresholds. *)
Definition Qltb (x y : Q) : bool := negb (Qle_bool y x).

(** Python's [min(a, b)] and [max(a, b)]: the first argument wins a tie. *)
Definition py_min (a b : Q) : Q := if Qltb b a then b else a.
Definition py_max (a b : Q) : Q := if Qltb a b then b else a.

(** [not s] for a set. *)
Definition set_is_empty (s : gset string) : bool := (size s =? 0)%nat.

Definition _jaccard (a b : gset string) : Q :=
  if set_is_empty a && set_is_empty b then 1
  else if set_is_empty a || set_is_empty b then 0
  else
    let inter := size (a ∩ b) in
    let union := size (a ∪ b) in
    if (union =? 0)%nat then 0 else Z.of_nat inter # Pos.of_nat union.

(** [round(x, 6)]: the nearest multiple of 10^-6, ties to the even one. *)
Definition round6 (x : Q) : Q :=
  let n := (Qnum x * 1000000)%Z in
  let d := Zpos (Qden x) in
  let q := (n / d)%Z in
  let r := (n mod d)%Z in
  let up := if (2 * r <? d)%Z then false
            else if (d <? 2 * r)%Z then true
            else Z.odd q in
  (if up then q + 1 else q)%Z # 1000000.

(** *** Reports *)

Record report : Type := Report {
  r_claim_id : string;
  r_citation_keys : list json;
  r_evidence_ids : list string;
  r_evidence_ids_used : list string;
  r_checked : bool;
  r_ok : bool;
  r_reasons : list string;
  r_alignment_score : Q;
  r_keyword_overlap : Q;
  r_entity_overlap : Q;
  r_numeric_ok : bool;
}.

(** [str(claim.get("claim_id") or "").strip()] and the like. *)
Definition str_field (key : string) (d : json) : string :=
  PyStr.strip (py_str (or_empty (get key d))).

(** [[str(x) for x in v if isinstance(x, str) and x.strip()]] when [v] is a
    list, [[]] otherwise. *)
Definition string_list_field (key : string) (d : json) : list string :=
  match get key d with
  | JList l => nonblank_strings l
  | _ => []
  end.

(** The loop of [verify_claim] over the evidence items: the ids used and the
    excerpts and contexts collected, in order. *)
Fixpoint collect_evidence (items : list json) : list string * list string :=
  match items with
  | [] => ([], [])
  | item :: tl =>
      let '(used, combined) := collect_evidence tl in
      let used1 :=
        match get "evidence_id" item with
        | JStr ev_id =>
            if PyStr.nonempty (PyStr.strip ev_id)
            then [PyStr.strip ev_id] else []
        | _ => []
        end in
      let excerpt1 :=
        match get "excerpt" item with
        | JStr e => if PyStr.nonempty (PyStr.strip e) then [e] else []
        | _ => []
        end in
      let context1 :=
        match get "context" item with
        | JStr c => if PyStr.nonempty (PyStr.strip c) then [c] else []
        | _ => []
        end in
      ((used1 ++ used)%list, (excerpt1 ++ context1 ++ combined)%list)
  end.

Definition newline_string : string := String Regex.newline EmptyString.

(** The local variables of [verify_claim] once the checks have run. *)
Record scoring : Type := Scoring {
  keyword_overlap : Q;
  entity_overlap : Q;
  numeric_ok : bool;
  alignment_score : Q;      (* before [round] *)
  claim_ok : bool;
  reasons : list string;
}.

(** [if cond: ok = False; reasons.append(reason)] *)
Definition fail_if (cond : bool) (reason : string)
    (st : bool * list string) : bool * list string :=
  if cond then (false, (snd st ++ [reason])%list) else st.

Definition score_claim (cfg : CitationAccuracyGateConfig)
    (statement evidence_text : string) : scoring :=
  let claim_tokens := _tokenize statement in
  let evidence_tokens := _tokenize evidence_text in
  let keyword_overlap : Q := _jaccard claim_tokens evidence_tokens in
  let entity_overlap : Q :=
    if enable_entity_overlap cfg
    then _jaccard (_extract_named_entities statement)
                  (_extract_named_entities evidence_text)
    else 0%Q in
  let numeric_ok :=
    if enable_numeric_consistency cfg then
      let claim_nums := _filter_year_like_numbers (_extract_numbers statement) in
      let evidence_nums :=
        _filter_year_like_numbers (_extract_numbers evidence_text) in
      if negb (set_is_empty claim_nums)
         && negb (bool_decide (claim_nums ⊆ evidence_nums))
      then false else true
    else true in
  let alignment_score : Q := keyword_overlap in
  let alignment_score : Q :=
    if enable_entity_overlap cfg
    then py_min 1%Q (alignment_score + (20 # 100) * entity_overlap)%Q
    else alignment_score in
  let alignment_score : Q :=
    if enable_numeric_consistency cfg && negb numeric_ok
    then py_max 0%Q (alignment_score * (50 # 100))%Q
    else alignment_score in
  let st := (true, []) in
  let st := fail_if (Qltb keyword_overlap (min_keyword_overlap cfg))
                    "keyword_overlap_below_threshold" st in
  let st := fail_if (enable_entity_overlap cfg
                     && Qltb entity_overlap (min_entity_overlap cfg))
                    "entity_overlap_below_threshold" st in
  let st := fail_if (enable_numeric_consistency cfg && negb numeric_ok)
                    "numeric_mismatch" st in
  let st := fail_if (Qltb alignment_score (min_alignment_score cfg))
                    "alignment_score_below_threshold" st in
  {| keyword_overlap := keyword_overlap;
     entity_overlap := entity_overlap;
     numeric_ok := numeric_ok;
     alignment_score := alignment_score;
     claim_ok := fst st;
     reasons := snd st |}.

(** The statement and the evidence text that [verify_claim] compares. *)
Definition claim_statement (claim : json) : string := str_field "statement" claim.

Definition evidence_text_of (cfg : CitationAccuracyGateConfig)
    (evidence_items : list json) : string :=
  PyStr.join newline_string
    (snd (collect_evidence (take (max_evidence_items_per_claim cfg) evidence_items))).

(** [CitationAccuracyVerifier(cfg).verify_claim(claim, evidence_items)] *)
Definition verify_claim (cfg : CitationAccuracyGateConfig)
    (claim : json) (evidence_items : list json) : report :=
  let claim_id := str_field "claim_id" claim in
  let statement := claim_statement claim in
  let evidence_ids_list := string_list_field "evidence_ids" claim in
  let citation_keys_list := string_list_field "citation_keys" claim in
  let used_ids :=
    fst (collect_evidence (take (max_evidence_items_per_claim cfg) evidence_items)) in
  let evidence_text := evidence_text_of cfg evidence_items in
  let s := score_claim cfg statement evidence_text in
  {| r_claim_id := claim_id;
     r_citation_keys := map JStr citation_keys_list;
     r_evidence_ids := evidence_ids_list;
     r_evidence_ids_used := used_ids;
     r_checked := true;
     r_ok := claim_ok s;
     r_reasons := reasons s;
     r_alignment_score := round6 (alignment_score s);
     r_keyword_overlap := round6 (keyword_overlap s);
     r_entity_overlap := round6 (entity_overlap s);
     r_numeric_ok := numeric_ok s |}.

(** *** The project folder and the trace span *)

(** What a path under the project folder holds: a directory; a file on
    which [open] or [json.load] raises, with the class of the exception
    ([PermissionError], [UnicodeDecodeError], [JSONDecodeError] for text
    that is not JSON, but also [RecursionError] for brackets nested too
    deep or [ValueError] for an integer literal beyond the digit limit); or
    a file holding a JSON document. *)
Inductive file : Type :=
| Dir
| Corrupt (err : string)
| Data (payload : json).

(** A value of a span attribute. *)
Inductive attr : Type :=
| AStr (s : string)
| ABool (b : bool)
| AInt (n : nat)
| AFloat (q : Q).

(** The state the gate runs in: the files under the (validated) project
    folder, by their path relative to it, and the attribute dictionaries
    handed so far to [safe_set_current_span_attributes], oldest first. *)
Record world : Type := World {
  w_folder : gmap string file;
  w_span_calls : list (list (string * attr));
}.

Definition M (A : Type) : Type := world -> A * world.

#[export] Instance M_ret : MRet M := fun A x w => (x, w).
#[export] Instance M_bind : MBind M :=
  fun A B f m w => let '(x, w') := m w in f x w'.

(** The folder that [validate_project_folder(project_folder)] returns;
    [src/utils/validation.py] is not among the sources, and the embedding
    starts from a folder it accepted. *)
Definition validated_project_folder : M (gmap string file) :=
  fun w => (w_folder w, w).

(** [safe_set_current_span_attributes(attrs)]: the helper is imported from
    [src/tracing.py], whose body is not among the sources; a call is recorded
    with the dictionary it is handed. *)
Definition safe_set_current_span_attributes (attrs : list (string * attr))
  : M unit :=
  fun w => (tt, {| w_folder := w_folder w;
                   w_span_calls := (w_span_calls w ++ [attrs])%list |}).

(** [path.exists()]: an entry of its own, or a directory implied by an entry
    below it. *)
Definition path_exists (pf : gmap string file) (p : string) : bool :=
  bool_decide (is_Some (pf !! p))
  || existsb (fun k => PyStr.startswith k (p ++ "/")) (map fst (map_to_list pf)).

(** [path.is_file()] *)
Definition path_is_file (pf : gmap string file) (p : string) : bool :=
  match pf !! p with
  | Some (Corrupt _) | Some (Data _) => true
  | _ => false
  end.

(** The classes of [except (OSError, json.JSONDecodeError,
    UnicodeDecodeError)] in [_load_json_list]. *)
Definition load_errors : list string :=
  [ "OSError"; "JSONDecodeError"; "UnicodeDecodeError" ].

(** [_load_json_list(path)]: an exception that the [except] clause does not
    list goes through to the caller. *)
Definition _load_json_list (pf : gmap string file) (path : string)
  : raising (list json * option string) :=
  if negb (path_exists pf path) then inr ([], None)
  else
    match pf !! path with
    | Some (Data (JList payload)) => inr (payload, None)
    | Some (Data _) => inr ([], Some "not_a_list")
    | Some (Corrupt err) =>
        if caught_by load_errors err then inr ([], Some err) else inl err
    | Some Dir | None => inr ([], Some "IsADirectoryError")
    end.

(** The directory [d] when [key] is [sources/d/evidence.json]. *)
Definition evidence_source (key : string) : option string :=
  let pre := "sources/" in
  let post := "/evidence.json" in
  if PyStr.startswith key pre && PyStr.endswith key post
     && (PyStr.len pre + PyStr.len post <? PyStr.len key)%nat
  then
    let d := substring (PyStr.len pre)
               (PyStr.len key - PyStr.len pre - PyStr.len post) key in
    if PyStr.contains "/" d then None else Some d
  else None.

Definition evidence_path (d : string) : string :=
  "sources/" ++ d ++ "/evidence.json".

(** The order of Python strings (by code point). *)
Definition str_le (a b : string) : Prop := String.leb a b = true.

#[export] Instance str_le_dec : RelDecision str_le :=
  fun a b => decide (String.leb a b = true).

(** [sorted(sources_dir.glob("*/evidence.json"))]: paths compare by their
    components, that is, by the source directory. *)
Definition _iter_evidence_files (pf : gmap string file) : list string :=
  if negb (path_exists pf "sources") then []
  else
    map evidence_path
      (merge_sort str_le
         (omap evidence_source (map fst (map_to_list pf)))).

Section Validators.

(** [is_valid_claim_record] and [is_valid_evidence_item] come from
    [src/utils/schema_validation.py], which is not among the sources. *)
Variable is_valid_claim_record : json -> bool.
Variable is_valid_evidence_item : json -> bool.

(** The inner loop of [_load_evidence_map] over the items of one file. *)
Definition add_evidence_item (st : gmap string json * nat) (item : json)
  : gmap string json * nat :=
  let '(by_id, invalid) := st in
  if negb (is_dict item) || negb (is_valid_evidence_item item)
  then (by_id, S invalid)
  else
    match get "evidence_id" item with
    | JStr evidence_id =>
        if PyStr.nonempty (PyStr.strip evidence_id)
        then (<[PyStr.strip evidence_id := item]> by_id, invalid)
        else (by_id, invalid)
    | _ => (by_id, invalid)
    end.

(** The outer loop of [_load_evidence_map] over the evidence files. *)
Definition add_evidence_file (pf : gmap string file)
    (st : gmap string json * nat * nat) (evidence_path : string)
  : raising (gmap string json * nat * nat) :=
  let '(by_id, invalid, scanned) := st in
  if negb (path_is_file pf evidence_path) then inr st
  else
    let scanned := S scanned in
    bind (_load_json_list pf evidence_path) (fun '(payload, err) =>
    match err with
    | Some _ => inr (by_id, invalid, scanned)
    | None =>
        let '(by_id, invalid) := foldl add_evidence_item (by_id, invalid) payload in
        inr (by_id, invalid, scanned)
    end).

(** Returns [(by_evidence_id, invalid_items, evidence_files_scanned)], or
    raises what the load of an evidence file raises. *)
Definition _load_evidence_map (pf : gmap string file)
  : raising (gmap string json * nat * nat) :=
  for_each (_iter_evidence_files pf) (∅, 0%nat, 0%nat) (add_evidence_file pf).

(** The loop of [_load_source_backed_claims]. *)
Definition add_claim_item (st : list json * nat) (item : json)
  : list json * nat :=
  let '(claims, invalid) := st in
  if negb (is_dict item) || negb (is_valid_claim_record item)
  then (claims, S invalid)
  else if negb (String.eqb (py_str (get "kind" item)) "source_backed")
  then (claims, invalid)
  else ((claims ++ [item])%list, invalid).

Definition claims_path : string := "claims/claims.json".

(** Returns [(claims, invalid, claims_path.exists(), err)], or raises what
    the load of the claims file raises. *)
Definition _load_source_backed_claims (pf : gmap string file)
  : raising (list json * nat * bool * option string) :=
  bind (_load_json_list pf claims_path) (fun '(payload, err) =>
  let '(claims, invalid) := foldl add_claim_item ([], 0%nat) payload in
  inr (claims, invalid, path_exists pf claims_path, err)).

(** *** The gate *)

Inductive Action : Type := Pass | Block | Downgrade | Disabled.

Record gate_result : Type := GateResult {
  res_ok : bool;
  res_enabled : bool;
  res_action : Action;
  res_reports : list report;
  checked_claims_total : nat;
  failed_claims_total : nat;
  skipped_missing_evidence_total : nat;
  claims_file_present : bool;
  claims_read_error : option string;
  claims_invalid_items : nat;
  evidence_invalid_items : nat;
  evidence_files_scanned : nat;
}.

(** The report of a claim that is skipped, with its one reason. *)
Definition skipped_report (claim : json) (evidence_ids_list : list string)
    (evidence_items : list json) (reason : string) : report :=
  {| r_claim_id := str_field "claim_id" claim;
     r_citation_keys :=
       match get "citation_keys" claim with JList l => l | _ => [] end;
     r_evidence_ids := evidence_ids_list;
     r_evidence_ids_used :=
       omap (fun i => match get "evidence_id" i with
                      | JStr s => Some s
                      | _ => None
                      end) evidence_items;
     r_checked := false;
     r_ok := true;
     r_reasons := [reason];
     r_alignment_score := 0;
     r_keyword_overlap := 0;
     r_entity_overlap := 0;
     r_numeric_ok := true |}.

(** The loop over [evidence_ids_list]: the items found and [missing_any]. *)
Fixpoint resolve_evidence (evidence_map : gmap string json)
    (evidence_ids_list : list string) : list json * bool :=
  match evidence_ids_list with
  | [] => ([], false)
  | ev_id :: tl =>
      let '(items, missing_any) := resolve_evidence evidence_map tl in
      match evidence_map !! ev_id with
      | None => (items, true)
      | Some item => (item :: items, missing_any)
      end
  end.

(** The counters and reports kept by the loop over the claims. *)
Record tally : Type := Tally {
  t_reports : list report;
  t_checked : nat;
  t_failed : nat;
  t_skipped_missing : nat;
}.

Definition skip (acc : tally) (rep : report) : tally :=
  {| t_reports := (t_reports acc ++ [rep])%list;
     t_checked := t_checked acc;
     t_failed := t_failed acc;
     t_skipped_missing := S (t_skipped_missing acc) |}.

(** One iteration of the loop over the claims. *)
Definition check_claim (cfg : CitationAccuracyGateConfig)
    (evidence_map : gmap string json) (acc : tally) (claim : json) : tally :=
  let evidence_ids_list := string_list_field "evidence_ids" claim in
  match evidence_ids_list with
  | [] => skip acc (skipped_report claim [] [] "missing_evidence_ids")
  | _ =>
      let '(evidence_items, missing_any) :=
        resolve_evidence evidence_map evidence_ids_list in
      if missing_any || match evidence_items with [] => true | _ => false end
      then skip acc (skipped_report claim evidence_ids_list evidence_items
                                    "evidence_ids_unresolved")
      else
        let rep := verify_claim cfg claim evidence_items in
        {| t_reports := (t_reports acc ++ [rep])%list;
           t_checked := S (t_checked acc);
           t_failed := if r_ok rep then t_failed acc else S (t_failed acc);
           t_skipped_missing := t_skipped_missing acc |}
  end.

Definition empty_tally : tally :=
  {| t_reports := []; t_checked := 0; t_failed := 0; t_skipped_missing := 0 |}.

(** [check_citation_accuracy_gate(project_folder=..., config=...)]: the
    result, or the exception that one of the two loaders lets through; the
    span attributes are set only on the way to a [return]. *)
Definition check_citation_accuracy_gate
    (config : option CitationAccuracyGateConfig) : M (raising gate_result) :=
  let cfg := match config with Some c => c | None => default_config end in
  pf ← validated_project_folder;
  if negb (enabled cfg) then
    let result :=
      {| res_ok := true;
         res_enabled := false;
         res_action := Disabled;
         res_reports := [];
         checked_claims_total := 0;
         failed_claims_total := 0;
         skipped_missing_evidence_total := 0;
         claims_file_present := path_exists pf claims_path;
         claims_read_error := None;
         claims_invalid_items := 0;
         evidence_invalid_items := 0;
         evidence_files_scanned := 0 |} in
    safe_set_current_span_attributes
      [ ("gate.name", AStr "citation_accuracy");
        ("gate.enabled", ABool false);
        ("gate.ok", ABool true);
        ("gate.action", AStr "disabled") ];;
    mret (inr result)
  else
    match _load_source_backed_claims pf with
    | inl exc => mret (inl exc)
    | inr (claims, claims_invalid, claims_file_present, claims_read_error) =>
    match _load_evidence_map pf with
    | inl exc => mret (inl exc)
    | inr (evidence_map, evidence_invalid, evidence_files_scanned) =>
    let acc := foldl (check_claim cfg evidence_map) empty_tally claims in
    let has_problem := (0 <? t_failed acc)%nat in
    let '(action, ok) :=
      if has_problem then
        match on_failure cfg with
        | OnBlock => (Block, false)
        | OnDowngrade => (Downgrade, true)
        end
      else (Pass, true) in
    let result :=
      {| res_ok := ok;
         res_enabled := true;
         res_action := action;
         res_reports := t_reports acc;
         checked_claims_total := t_checked acc;
         failed_claims_total := t_failed acc;
         skipped_missing_evidence_total := t_skipped_missing acc;
         claims_file_present := claims_file_present;
         claims_read_error := claims_read_error;
         claims_invalid_items := claims_invalid;
         evidence_invalid_items := evidence_invalid;
         evidence_files_scanned := evidence_files_scanned |} in
    safe_set_current_span_attributes
      [ ("gate.name", AStr "citation_accuracy");
        ("gate.enabled", ABool true);
        ("gate.ok", ABool ok);
        ("gate.action",
         AStr match action with
              | Pass => "pass" | Block => "block"
              | Downgrade => "downgrade" | Disabled => "disabled"
              end);
        ("citation_accuracy.checked_claims_total", AInt (t_checked acc));
        ("citation_accuracy.failed_claims_total", AInt (t_failed acc));
        ("citation_accuracy.skipped_missing_evidence_total",
         AInt (t_skipped_missing acc));
        ("citation_accuracy.min_alignment_score",
         AFloat (min_alignment_score cfg));
        ("citation_accuracy.min_keyword_overlap",
         AFloat (min_keyword_overlap cfg));
        ("citation_accuracy.enable_entity_overlap",
         ABool (enable_entity_overlap cfg));
        ("citation_accuracy.enable_numeric_consistency",
         ABool (enable_numeric_consistency cfg)) ];;
    mret (inr result)
    end
    end.

(** What a call of [enforce_citation_accuracy_gate] comes to: the result it
    returns, the [CitationAccuracyGateError] it raises for a result that
    blocks, or an exception of the evaluation itself, which it lets
    through. *)
Inductive enforced : Type :=
| Enforced (result : gate_result)
| GateError (result : gate_result)
| Propagated (exc : string).

Definition enforce_citation_accuracy_gate
    (config : option CitationAccuracyGateConfig) : M enforced :=
  outcome ← check_citation_accuracy_gate config;
  match outcome with
  | inl exc => mret (Propagated exc)
  | inr result =>
      match res_enabled result, res_action result with
      | true, Block => mret (GateError result)
      | _, _ => mret (Enforced result)
      end
  end.

End Validators.

End AccuracyGate.


(* ===================================================================== *)
(** ** Python's [float]                                                    *)
(* ===================================================================== *)

(** A Python [float] is an IEEE 754 binary64 number: 53 bits of mantissa,
    every operation rounded to the nearest float, ties to the even one. The
    operations are those of [SpecFloat] at that format. *)
Module Binary64.
Import SpecFloat.

Definition prec : Z := 53.
Definition emax : Z := 1024.

Definition float : Type := spec_float.

(** The literals [0.0], [1.0], [0.20] and [0.50]. *)
Definition zero : float := S754_zero false.
Definition one : float := S754_finite false 4503599627370496 (-52).
Definition lit_0_20 : float := S754_finite false 7205759403792794 (-55).
Definition lit_0_50 : float := S754_finite false 4503599627370496 (-53).

(** An integer as the operand of a division: its exact value. *)
Definition exact_int (n : Z) : float :=
  match n with
  | Z0 => S754_zero false
  | Zpos p => S754_finite false p 0
  | Zneg p => S754_finite true p 0
  end.

(** [n / m] for two [int], [m] not 0: the quotient, rounded once. *)
Definition truediv (n m : Z) : float :=
  SFdiv prec emax (exact_int n) (exact_int m).

(** [x + y] and [x * y]. *)
Definition add : float -> float -> float := SFadd prec emax.
Definition mul : float -> float -> float := SFmul prec emax.

(** [x < y] and [x > y]: both false when one of them is not a number. *)
Definition ltb : float -> float -> bool := SFltb.
Definition gtb (x y : float) : bool :=
  match SFcompare x y with Some Gt => true | _ => false end.

(** [min(a, b)] keeps [a] unless [b < a]; [max(a, b)] keeps [a] unless
    [b > a]. *)
Definition py_min (a b : float) : float := if ltb b a then b else a.
Definition py_max (a b : float) : float := if gtb b a then b else a.

(** The integer nearest to [n / d], the even one at a tie ([d] positive). *)
Definition half_even_div (n d : Z) : Z :=
  let q := (n / d)%Z in
  let r := (n mod d)%Z in
  if (2 * r <? d)%Z then q
  else if (d <? 2 * r)%Z then (q + 1)%Z
  else if Z.even q then q else (q + 1)%Z.

(** [round(x, 6)]: the exact value of [x] is rounded to 6 decimals, ties to
    the even digit, and the float nearest to that decimal is returned; an
    infinity, a zero and a value that is not a number are returned as they
    are. *)
Definition round6 (x : float) : float :=
  match x with
  | S754_finite s m e =>
      let d := half_even_div (Zpos m * 1000000 * 2 ^ Z.max e 0)
                             (2 ^ Z.max (- e) 0) in
      let r := truediv d 1000000 in
      if s then SFopp r else r
  | _ => x
  end.

End Binary64.

(* ===================================================================== *)
(** ** [CitationAccuracyVerifier.verify_claim] on Python's floats          *)
(* ===================================================================== *)

(** [verify_claim] once more, this time with the scores and the thresholds
    as the binary64 floats that Python computes with; the tokenisers and the
    loop over the evidence items are those of [AccuracyGate]. *)
Module Verifier.
Import Json Binary64.

Record CitationAccuracyGateConfig : Type := Config {
  enabled : bool;
  on_failure : AccuracyGate.OnFailureAction;
  min_alignment_score : float;
  min_keyword_overlap : float;
  enable_entity_overlap : bool;
  min_entity_overlap : float;
  enable_numeric_consistency : bool;
  max_evidence_items_per_claim : Z;
}.

(** [CitationAccuracyGateConfig()]: the dataclass defaults, [0.18], [0.06]
    and [0.20] being the floats nearest to these decimals. *)
Definition default_config : CitationAccuracyGateConfig :=
  {| enabled := false;
     on_failure := AccuracyGate.OnBlock;
     min_alignment_score := truediv 18 100;
     min_keyword_overlap := truediv 6 100;
     enable_entity_overlap := false;
     min_entity_overlap := truediv 20 100;
     enable_numeric_consistency := false;
     max_evidence_items_per_claim := 5 |}.

Definition _jaccard (a b : gset string) : float :=
  if AccuracyGate.set_is_empty a && AccuracyGate.set_is_empty b then one
  else if AccuracyGate.set_is_empty a || AccuracyGate.set_is_empty b then zero
  else
    let inter := size (a ∩ b) in
    let union := size (a ∪ b) in
    if (union =? 0)%nat then zero
    else truediv (Z.of_nat inter) (Z.of_nat union).

(** [items[:n]]: a negative [n] counts from the end. *)
Definition slice_to {A : Type} (n : Z) (items : list A) : list A :=
  if (0 <=? n)%Z then take (Z.to_nat n) items
  else take (length items - Z.to_nat (- n)) items.

Record report : Type := Report {
  r_claim_id : string;
  r_citation_keys : list string;
  r_evidence_ids : list string;
  r_evidence_ids_used : list string;
  r_checked : bool;
  r_ok : bool;
  r_reasons : list string;
  r_alignment_score : float;
  r_keyword_overlap : float;
  r_entity_overlap : float;
  r_numeric_ok : bool;
}.

(** [CitationAccuracyVerifier(cfg).verify_claim(claim, evidence_items)] *)
Definition verify_claim (cfg : CitationAccuracyGateConfig)
    (claim : json) (evidence_items : list json) : report :=
  let claim_id := AccuracyGate.str_field "claim_id" claim in
  let statement := AccuracyGate.str_field "statement" claim in
  let evidence_ids_list := AccuracyGate.string_list_field "evidence_ids" claim in
  let citation_keys_list := AccuracyGate.string_list_field "citation_keys" claim in
  let '(used_ids, combined) :=
    AccuracyGate.collect_evidence
      (slice_to (max_evidence_items_per_claim cfg) evidence_items) in
  let evidence_text := PyStr.join AccuracyGate.newline_string combined in
  let claim_tokens := AccuracyGate._tokenize statement in
  let evidence_tokens := AccuracyGate._tokenize evidence_text in
  let keyword_overlap := _jaccard claim_tokens evidence_tokens in
  let entity_overlap :=
    if enable_entity_overlap cfg
    then _jaccard (AccuracyGate._extract_named_entities statement)
                  (AccuracyGate._extract_named_entities evidence_text)
    else zero in
  let numeric_ok :=
    if enable_numeric_consistency cfg then
      let claim_nums :=
        AccuracyGate._filter_year_like_numbers
          (AccuracyGate._extract_numbers statement) in
      let evidence_nums :=
        AccuracyGate._filter_year_like_numbers
          (AccuracyGate._extract_numbers evidence_text) in
      if negb (AccuracyGate.set_is_empty claim_nums)
         && negb (bool_decide (claim_nums ⊆ evidence_nums))
      then false else true
    else true in
  let alignment_score := keyword_overlap in
  let alignment_score :=
    if enable_entity_overlap cfg
    then py_min one (add alignment_score (mul lit_0_20 entity_overlap))
    else alignment_score in
  let alignment_score :=
    if enable_numeric_consistency cfg && negb numeric_ok
    then py_max zero (mul alignment_score lit_0_50)
    else alignment_score in
  let st := (true, []) in
  let st := AccuracyGate.fail_if
              (ltb keyword_overlap (min_keyword_overlap cfg))
              "keyword_overlap_below_threshold" st in
  let st := AccuracyGate.fail_if
              (enable_entity_overlap cfg
               && ltb entity_overlap (min_entity_overlap cfg))
              "entity_overlap_below_threshold" st in
  let st := AccuracyGate.fail_if
              (enable_numeric_consistency cfg && negb numeric_ok)
              "numeric_mismatch" st in
  let st := AccuracyGate.fail_if
              (ltb alignment_score (min_alignment_score cfg))
              "alignment_score_below_threshold" st in
  {| r_claim_id := claim_id;
     r_citation_keys := citation_keys_list;
     r_evidence_ids := evidence_ids_list;
     r_evidence_ids_used := used_ids;
     r_checked := true;
     r_ok := fst st;
     r_reasons := snd st;
     r_alignment_score := round6 alignment_score;
     r_keyword_overlap := round6 keyword_overlap;
     r_entity_overlap := round6 entity_overlap;
     r_numeric_ok := numeric_ok |}.

End Verifier.

(* ===================================================================== *)
(** ** SHA-256 ([hashlib.sha256(data).hexdigest()], FIPS 180-4)           *)
(* ===================================================================== *)

Module Sha256.
Local Open Scope Z_scope.

Definition w32 (x : Z) : Z := x mod 2 ^ 32.
Definition add32 (x y : Z) : Z := w32 (x + y).
Definition rotr (n x : Z) : Z :=
  Z.lor (Z.shiftr x n) (w32 (Z.shiftl x (32 - n))).
Definition not32 (x : Z) : Z := 2 ^ 32 - 1 - x.

Definition Ch (x y z : Z) : Z := Z.lxor (Z.land x y) (Z.land (not32 x) z).
Definition Maj (x y z : Z) : Z :=
  Z.lxor (Z.lxor (Z.land x y) (Z.land x z)) (Z.land y z).
Definition Sigma0 (x : Z) : Z := Z.lxor (Z.lxor (rotr 2 x) (rotr 13 x)) (rotr 22 x).
Definition Sigma1 (x : Z) : Z := Z.lxor (Z.lxor (rotr 6 x) (rotr 11 x)) (rotr 25 x).
Definition sigma0 (x : Z) : Z := Z.lxor (Z.lxor (rotr 7 x) (rotr 18 x)) (Z.shiftr x 3).
Definition sigma1 (x : Z) : Z := Z.lxor (Z.lxor (rotr 17 x) (rotr 19 x)) (Z.shiftr x 10).

(** The constants are defined as the standard defines them, from the first
    primes: the first 32 bits of the fractional parts of their cube roots
    (the round constants) and of their square roots (the initial hash). *)
Definition is_prime (n : nat) : bool :=
  (1 <? n)%nat
  && forallb (fun d => negb (n mod d =? 0)%nat) (seq 2 (n - 2)).

Definition primes_below (n : nat) : list Z :=
  map Z.of_nat (List.filter is_prime (seq 0 n)).

(** The largest [r] below [2 ^ bits] with [r ^ 3 <= n], found bit by bit. *)
Fixpoint cube_root (bits : nat) (n r : Z) : Z :=
  match bits with
  | O => r
  | S b =>
      let r' := r + 2 ^ Z.of_nat b in
      cube_root b n (if r' * r' * r' <=? n then r' else r)
  end.

Definition frac32_cube_root (p : Z) : Z := w32 (cube_root 40 (p * 2 ^ 96) 0).
Definition frac32_square_root (p : Z) : Z := w32 (Z.sqrt (p * 2 ^ 64)).

Definition K : list Z :=
  Eval vm_compute in map frac32_cube_root (primes_below 312).

Definition H0 : list Z :=
  Eval vm_compute in map frac32_square_root (primes_below 20).

(** Big-endian bytes of [x], [n] of them. *)
Fixpoint be_bytes (n : nat) (x : Z) : list Z :=
  match n with
  | O => []
  | S m => ((x / 256 ^ Z.of_nat m) mod 256) :: be_bytes m x
  end.

(** The message followed by 0x80, zeros up to 56 modulo 64, and its length in
    bits on 8 bytes. *)
Definition pad (msg : list Z) : list Z :=
  let l := Z.of_nat (length msg) in
  let zeros := Z.to_nat ((55 - l) mod 64) in
  (msg ++ [128] ++ repeat 0 zeros ++ be_bytes 8 (8 * l))%list.

Fixpoint be_words (n : nat) (bytes : list Z) : list Z :=
  match n, bytes with
  | S m, b0 :: b1 :: b2 :: b3 :: tl =>
      (((b0 * 256 + b1) * 256 + b2) * 256 + b3) :: be_words m tl
  | _, _ => []
  end.

(** The message schedule, latest word first: [rev_w] holds W[t-1], W[t-2], ... *)
Fixpoint extend (n : nat) (rev_w : list Z) : list Z :=
  match n with
  | O => rev_w
  | S m =>
      let at_ (i : nat) := nth i rev_w 0 in
      let w := add32 (add32 (sigma1 (at_ 1%nat)) (at_ 6%nat))
                     (add32 (sigma0 (at_ 14%nat)) (at_ 15%nat)) in
      extend m (w :: rev_w)
  end.

Definition schedule (block : list Z) : list Z :=
  rev (extend 48 (rev (be_words 16 block))).

Definition round (v : list Z) (kw : Z * Z) : list Z :=
  match v with
  | [a; b; c; d; e; f; g; h] =>
      let t1 := add32 (add32 (add32 h (Sigma1 e)) (add32 (Ch e f g) (fst kw)))
                      (snd kw) in
      let t2 := add32 (Sigma0 a) (Maj a b c) in
      [add32 t1 t2; a; b; c; add32 d t1; e; f; g]
  | _ => v
  end.

Definition compress (h : list Z) (block : list Z) : list Z :=
  zip_with add32 h (fold_left round (combine K (schedule block)) h).

Fixpoint blocks (n : nat) (bytes : list Z) : list (list Z) :=
  match n with
  | O => []
  | S m =>
      match bytes with
      | [] => []
      | _ => firstn 64 bytes :: blocks m (skipn 64 bytes)
      end
  end.

Definition digest (msg : list Z) : list Z :=
  let p := pad msg in
  fold_left compress (blocks (length p) p) H0.

Definition hex_digit (d : Z) : ascii :=
  ascii_of_nat (Z.to_nat (if d <? 10 then 48 + d else 87 + d)).

Fixpoint hex_word (n : nat) (x : Z) : list ascii :=
  match n with
  | O => []
  | S m => hex_digit ((x / 16 ^ Z.of_nat m) mod 16) :: hex_word m x
  end.

(** [hashlib.sha256(s.encode()).hexdigest()] for an ASCII string. *)
Definition hexdigest (s : string) : string :=
  PyStr.str
    (concat (map (hex_word 8)
                 (digest (map (fun c => Z.of_nat (PyStr.code c)) (PyStr.chars s))))).

End Sha256.

(* ===================================================================== *)
(** ** src/llm/edison_client.py: request de-duplication                   *)
(* ===================================================================== *)

Module Edison.
Import AccuracyGate.

Inductive JobStatus : Type := PENDING | PROCESSING | COMPLETED | FAILED | TIMEOUT.

Record LiteratureResult : Type := {
  query : string;
  response : string;
  citations : list string;          (* each citation stands for its record *)
  total_papers_searched : nat;
  processing_time : Q;
  job_id : option string;
  status : JobStatus;
  error : option string;
}.

(** [LiteratureResult(query=query, status=JobStatus.FAILED, error=...,
    processing_time=...)], the other fields at their defaults. *)
Definition failed_result (query : string) (err : string) (processing_time : Q)
  : LiteratureResult :=
  {| query := query; response := ""; citations := [];
     total_papers_searched := 0; processing_time := processing_time;
     job_id := None; status := FAILED; error := Some err |}.

(** The client: whether the official client was built, and the error of its
    construction if any. *)
Record EdisonClient : Type := {
  _client : bool;
  _init_error : option string;
}.

(** [f"{x:.1f}"]: one decimal, the nearest, ties to even. *)
Definition fmt_1f (x : Q) : string :=
  let n := (Qnum x * 10)%Z in
  let d := Zpos (Qden x) in
  let q := (n / d)%Z in
  let r := (n mod d)%Z in
  let up := if (2 * r <? d)%Z then false
            else if (d <? 2 * r)%Z then true
            else Z.odd q in
  let t := (if up then q + 1 else q)%Z in
  let a := Z.abs t in
  (if Qltb x 0 then "-" else "")
    ++ PyStr.str_of_Z (a / 10) ++ "." ++ PyStr.str_of_Z (a mod 10).

(** [full_query]: the query, with the context appended when there is one. *)
Definition full_query_of (query : string) (context : option string) : string :=
  match context with
  | Some c =>
      if PyStr.nonempty c
      then query ++ AccuracyGate.newline_string ++ AccuracyGate.newline_string
                 ++ "Context:" ++ AccuracyGate.newline_string ++ c
      else query
  | None => query
  end.

(** [hashlib.sha256(full_query.encode()).hexdigest()[:16]] *)
Definition query_hash_of (full_query : string) : string :=
  PyStr.take_prefix 16 (Sha256.hexdigest full_query).

(** The dedup window of the source, in seconds. *)
Definition window : Q := 1800.

(** Deleting the [expired] entries: those with [current_time - t > 1800]. *)
Definition reap (current_time : Q) (active : gmap string Q) : gmap string Q :=
  filter (fun kv => Qltb window (current_time - snd kv) = false) active.

Definition duplicate_error (elapsed : Q) : string :=
  "Duplicate request blocked. A similar query was submitted "
    ++ fmt_1f elapsed ++ "s ago.".

(** What the first part of [search_literature] decides: an early return, or
    the submission of [full_query] under [query_hash]. *)
Inductive entry : Type :=
| Returned (result : LiteratureResult)
| Submitted (query_hash full_query : string).

(** [search_literature] up to the end of its first locked block:
    [_active_requests] before and after, [current_time] read under the lock. *)
Definition search_literature_enter (self : EdisonClient)
    (query : string) (context : option string) (current_time : Q)
    (_active_requests : gmap string Q) : entry * gmap string Q :=
  if negb (_client self) then
    (Returned (failed_result query
                 (match _init_error self with
                  | Some e => if PyStr.nonempty e then e
                              else "Edison API client not configured"
                  | None => "Edison API client not configured"
                  end) 0),
     _active_requests)
  else
    let full_query := full_query_of query context in
    let query_hash := query_hash_of full_query in
    let _active_requests := reap current_time _active_requests in
    match _active_requests !! query_hash with
    | Some t =>
        let elapsed := (current_time - t)%Q in
        (Returned (failed_result query (duplicate_error elapsed) 0),
         _active_requests)
    | None =>
        (Submitted query_hash full_query,
         <[query_hash := current_time]> _active_requests)
    end.

(** What the provider call comes to: a response (its answer, its parsed
    citations, its id), or an exception with its message. *)
Inductive reply : Type :=
| Answer (answer : string) (cites : list string) (id : option string)
| Failure (message : string).

(** The [try] block once the provider call has returned, [elapsed] being
    [time.time() - start_time]. *)
Definition search_literature_result (query : string) (r : reply) (elapsed : Q)
  : LiteratureResult :=
  match r with
  | Answer answer cites id =>
      {| query := query; response := answer; citations := cites;
         total_papers_searched := length cites; processing_time := elapsed;
         job_id := id; status := COMPLETED; error := None |}
  | Failure message => failed_result query message elapsed
  end.

(** The [finally] block: the second locked block, at time [now]. *)
Definition search_literature_leave (query_hash : string) (now : Q)
    (_active_requests : gmap string Q) : gmap string Q :=
  match _active_requests !! query_hash with
  | Some _ => <[query_hash := now]> _active_requests
  | None => _active_requests
  end.

(** The locked blocks of the calls of one process, in the order in which they
    take the lock: a call entering, or the call that submitted [query_hash]
    leaving. *)
Inductive event : Type :=
| Enter (query : string) (context : option string) (current_time : Q)
| Leave (query_hash : string) (now : Q).

Definition time_of (e : event) : Q :=
  match e with Enter _ _ t => t | Leave _ t => t end.

(** One locked block: what an entering call gets, and the map afterwards. *)
Definition step (self : EdisonClient) (_active_requests : gmap string Q)
    (e : event) : option entry * gmap string Q :=
  match e with
  | Enter query context current_time =>
      let '(r, m) :=
        search_literature_enter self query context current_time _active_requests in
      (Some r, m)
  | Leave query_hash now =>
      (None, search_literature_leave query_hash now _active_requests)
  end.

(** [_active_requests] after the locked blocks [events], from [m]. *)
Definition replay (self : EdisonClient) (m : gmap string Q) (events : list event)
  : gmap string Q :=
  foldl (fun m e => snd (step self m e)) m events.

(** A call that runs with no other call in between: entered at
    [current_time], answered by [r] after [elapsed], left at [end_time]. *)
Definition search_literature (self : EdisonClient)
    (query : string) (context : option string)
    (current_time : Q) (r : reply) (elapsed end_time : Q)
    (_active_requests : gmap string Q) : LiteratureResult * gmap string Q :=
  match search_literature_enter self query context current_time _active_requests with
  | (Returned result, m) => (result, m)
  | (Submitted query_hash _, m) =>
      (search_literature_result query r elapsed,
       search_literature_leave query_hash end_time m)
  end.

End Edison.

(* ===================================================================== *)
(** ** Building the gate's configuration                                  *)
(* ===================================================================== *)

Module GateConfig.
Import Json PyExc AccuracyGate.

#[local] Set Warnings "-register-all".

(** A Python [float]: a finite value (an exact rational, as everywhere in
    this embedding), an infinity, or a NaN. *)
Inductive pyfloat : Type :=
| Finite (q : Q)
| PosInf
| NegInf
| NaN.

(** [x < y] on floats; every comparison with a NaN is false. *)
Definition flt (x y : pyfloat) : bool :=
  match x, y with
  | Finite a, Finite b => Qltb a b
  | Finite _, PosInf => true
  | NegInf, Finite _ => true
  | NegInf, PosInf => true
  | _, _ => false
  end.

(** Python's [min(a, b)] and [max(a, b)] on floats: the second argument is
    taken only when it compares strictly below (above) the first. *)
Definition fmin (a b : pyfloat) : pyfloat := if flt b a then b else a.
Definition fmax (a b : pyfloat) : pyfloat := if flt a b then b else a.

(** The value of a float known to be finite. *)
Definition finite_value (x : pyfloat) : Q :=
  match x with Finite q => q | _ => 0 end.

(** The values of a pipeline context: what a YAML or JSON configuration, or
    Python code, may put in it. *)
Inductive value : Type :=
| VNone
| VBool (b : bool)
| VInt (n : Z)
| VFloat (x : pyfloat)
| VStr (s : string)
| VList (l : list value)
| VDict (kv : list (string * value)).

(** [d.get(key)]: [None] stands for a missing key. *)
Fixpoint dict_get (key : string) (kv : list (string * value)) : option value :=
  match kv with
  | [] => None
  | (k, v) :: tl => if String.eqb k key then Some v else dict_get key tl
  end.

(** [d.get(key, default)] *)
Definition get_or (key : string) (default : value) (kv : list (string * value))
  : value :=
  match dict_get key kv with Some v => v | None => default end.

(** [bool(x)] *)
Definition truth (x : value) : bool :=
  match x with
  | VNone => false
  | VBool b => b
  | VInt n => negb (n =? 0)%Z
  | VFloat (Finite q) => negb (Qeq_bool q 0)
  | VFloat _ => true
  | VStr s => PyStr.nonempty s
  | VList l => match l with [] => false | _ => true end
  | VDict kv => match kv with [] => false | _ => true end
  end.

(** What a call of the builtin [float] or [int] comes to: a value, a
    [TypeError] or [ValueError] (the two that [from_context] catches), or
    another exception, by its name. *)
Inductive conversion (A : Type) : Type :=
| Converted (a : A)
| Refused
| Raised (exc : string).
Arguments Converted {A} a.
Arguments Refused {A}.
Arguments Raised {A} exc.

(** [CitationAccuracyGateConfig.on_failure] from the value in the context. *)
Definition on_failure_of (v : value) : OnFailureAction :=
  match v with
  | VStr s => if String.eqb s "downgrade" then OnDowngrade else OnBlock
  | _ => OnBlock
  end.

Section Builtins.

(** The builtins [float] and [int] on a value of the context. *)
Variable py_float : value -> conversion pyfloat.
Variable py_int : value -> conversion Z.

Definition _as_float (val : value) (default : pyfloat) : raising pyfloat :=
  match py_float val with
  | Converted x => inr x
  | Refused => inr default
  | Raised exc => inl exc
  end.

Definition _as_int (val : value) (default : Z) : raising Z :=
  match py_int val with
  | Converted n => inr n
  | Refused => inr default
  | Raised exc => inl exc
  end.

(** [min(1.0, max(0.0, x))] *)
Definition clamp_unit (x : pyfloat) : pyfloat :=
  fmin (Finite 1) (fmax (Finite 0) x).

(** [CitationAccuracyGateConfig.from_context(context)] *)
Definition from_context (context : list (string * value))
  : raising CitationAccuracyGateConfig :=
  match dict_get "citation_accuracy_gate" context with
  | Some (VDict raw) =>
      let enabled := truth (get_or "enabled" (VBool false) raw) in
      let on_failure := on_failure_of (get_or "on_failure" (VStr "block") raw) in
      bind (_as_float (get_or "min_alignment_score"
                         (VFloat (Finite (min_alignment_score default_config))) raw)
                      (Finite (min_alignment_score default_config)))
        (fun min_alignment_score_ =>
      bind (_as_float (get_or "min_keyword_overlap"
                         (VFloat (Finite (min_keyword_overlap default_config))) raw)
                      (Finite (min_keyword_overlap default_config)))
        (fun min_keyword_overlap_ =>
      let enable_entity_overlap_ :=
        truth (get_or "enable_entity_overlap"
                 (VBool (enable_entity_overlap default_config)) raw) in
      bind (_as_float (get_or "min_entity_overlap"
                         (VFloat (Finite (min_entity_overlap default_config))) raw)
                      (Finite (min_entity_overlap default_config)))
        (fun min_entity_overlap_ =>
      let enable_numeric_consistency_ :=
        truth (get_or "enable_numeric_consistency"
                 (VBool (enable_numeric_consistency default_config)) raw) in
      bind (_as_int (get_or "max_evidence_items_per_claim"
                       (VInt (Z.of_nat (max_evidence_items_per_claim default_config)))
                       raw)
                    (Z.of_nat (max_evidence_items_per_claim default_config)))
        (fun max_evidence_items_per_claim_ =>
      let max_evidence_items_per_claim_ :=
        if (max_evidence_items_per_claim_ <? 1)%Z then 1%Z
        else max_evidence_items_per_claim_ in
      inr {| enabled := enabled;
             on_failure := on_failure;
             min_alignment_score := finite_value (clamp_unit min_alignment_score_);
             min_keyword_overlap := finite_value (clamp_unit min_keyword_overlap_);
             enable_entity_overlap := enable_entity_overlap_;
             min_entity_overlap := finite_value (clamp_unit min_entity_overlap_);
             enable_numeric_consistency := enable_numeric_consistency_;
             max_evidence_items_per_claim :=
               Z.to_nat max_evidence_items_per_claim_ |}))))
  | _ => inr default_config
  end.

End Builtins.

(** [default_gate_config(mode)] of [src/pipeline/defaults.py] *)
Definition default_gate_config (mode : string) : list (string * value) :=
  let on_failure := if String.eqb mode "block" then "block" else "downgrade" in
  let enabled := negb (String.eqb mode "skip") in
  [ ("evidence_gate",
     VDict [ ("enabled", VBool enabled); ("require_evidence", VBool enabled);
             ("min_items_per_source", VInt 1); ("on_failure", VStr on_failure) ]);
    ("citation_gate",
     VDict [ ("enabled", VBool enabled); ("on_missing", VStr on_failure);
             ("on_unverified", VStr on_failure) ]);
    ("computation_gate",
     VDict [ ("enabled", VBool enabled); ("on_missing_metrics", VStr on_failure) ]);
    ("claim_evidence_gate",
     VDict [ ("enabled", VBool enabled); ("on_failure", VStr on_failure) ]);
    ("literature_gate",
     VDict [ ("enabled", VBool enabled); ("on_failure", VStr on_failure) ]);
    ("analysis_gate",
     VDict [ ("enabled", VBool enabled); ("on_failure", VStr on_failure) ]);
    ("citation_accuracy_gate",
     VDict [ ("enabled", VBool enabled); ("on_failure", VStr on_failure) ]) ].

(** *** scripts/run_citation_accuracy_gate.py *)

(** The namespace that [argparse] returns: [--on-failure] is one of its two
    choices, the thresholds are floats and the maximum an integer. *)
Record arguments : Type := {
  arg_project_folder : string;
  arg_enabled : bool;
  arg_on_failure : OnFailureAction;
  arg_min_alignment_score : pyfloat;
  arg_min_keyword_overlap : pyfloat;
  arg_enable_entity_overlap : bool;
  arg_min_entity_overlap : pyfloat;
  arg_enable_numeric_consistency : bool;
  arg_max_evidence_items_per_claim : Z;
}.

(** [max(0.0, min(1.0, x))], the clamp of the script. *)
Definition clamp_unit_cli (x : pyfloat) : pyfloat :=
  fmax (Finite 0) (fmin (Finite 1) x).

(** Python's [max(1, n)] on integers. *)
Definition at_least_one (n : Z) : Z := if (1 <? n)%Z then n else 1%Z.

(** The configuration that [main] builds from its arguments. *)
Definition cli_config (args : arguments) : CitationAccuracyGateConfig :=
  {| enabled := arg_enabled args;
     on_failure := arg_on_failure args;
     min_alignment_score :=
       finite_value (clamp_unit_cli (arg_min_alignment_score args));
     min_keyword_overlap :=
       finite_value (clamp_unit_cli (arg_min_keyword_overlap args));
     enable_entity_overlap := arg_enable_entity_overlap args;
     min_entity_overlap :=
       finite_value (clamp_unit_cli (arg_min_entity_overlap args));
     enable_numeric_consistency := arg_enable_numeric_consistency args;
     max_evidence_items_per_claim :=
       Z.to_nat (at_least_one (arg_max_evidence_items_per_claim args)) |}.

Section Script.
Variable is_valid_claim_record : json -> bool.
Variable is_valid_evidence_item : json -> bool.

(** [main()]: the exit code it returns, or the exception that
    [except CitationAccuracyGateError] does not catch; what it prints is
    not modelled. *)
Definition main (args : arguments) : M (raising Z) :=
  outcome ← enforce_citation_accuracy_gate is_valid_claim_record
              is_valid_evidence_item (Some (cli_config args));
  match outcome with
  | GateError _ => mret (inr 2%Z)
  | Enforced _ => mret (inr 0%Z)
  | Propagated exc => mret (inl exc)
  end.

End Script.

End GateConfig.

(* ===================================================================== *)
(** ** The runner's helpers: child environment and post-run evaluation    *)
(* ===================================================================== *)

Module RunnerHelpers.
Import Json PyExc AccuracyGate GateConfig.

(** *** [_build_subprocess_env] *)

Definition base_allowlist : list string :=
  [ "PATH"; "HOME"; "LANG"; "LC_ALL"; "LC_CTYPE"; "TMPDIR"; "TEMP"; "TMP";
    "SSL_CERT_FILE"; "SSL_CERT_DIR"; "REQUESTS_CA_BUNDLE"; "CURL_CA_BUNDLE";
    "ANTHROPIC_API_KEY"; "EDISON_API_KEY"; "OPENAI_API_KEY" ].

(** The environment handed to the child of a phase, from [os.environ]. *)
Definition _build_subprocess_env (os_environ : gmap string string)
  : gmap string string :=
  let env :=
    foldl (fun (env : gmap string string) key =>
             match os_environ !! key with
             | Some value => <[key := value]> env
             | None => env
             end) ∅ base_allowlist in
  let env := <["PYTHONDONTWRITEBYTECODE" := "1"]> env in
  let env := <["PYTHONNOUSERSITE" := "1"]> env in
  env.

(** *** [count_evidence_items] *)

(** The classes of [except (OSError, json.JSONDecodeError)] in
    [count_evidence_items]. *)
Definition count_errors : list string := [ "OSError"; "JSONDecodeError" ].

(** One iteration of the loop over [sources/*/evidence.json]: an exception
    of [read_text] or [json.loads] that the [except] clause does not list
    ([UnicodeDecodeError], [RecursionError], a plain [ValueError]) goes
    through. *)
Definition count_evidence_file (pf : gmap string file) (total : nat)
    (evidence_file : string) : raising nat :=
  match pf !! evidence_file with
  | Some (Data (JList data)) => inr (total + length data)
  | Some (Corrupt err) =>
      if caught_by count_errors err then inr total else inl err
  | _ => inr total
  end.

(** [count_evidence_items(project_folder)]; the files are visited in the
    order of the gate's [_iter_evidence_files] ([glob] gives them in the
    order of the directory, which decides only which exception is raised
    when several files raise one). *)
Definition count_evidence_items (pf : gmap string file) : raising nat :=
  if negb (path_exists pf "sources") then inr 0
  else for_each (_iter_evidence_files pf) 0 (count_evidence_file pf).

(** *** [get_readiness_score] *)

(** A report that [get_readiness_score] looks for: not there; there, but
    [read_text] or [json.loads] raises an exception of class [exc]; or the
    decoded document. *)
Inductive report_file : Type :=
| Absent
| Unreadable (exc : string)
| Parsed (data : value).

(** The classes of [except (OSError, json.JSONDecodeError, TypeError,
    ValueError)] in [get_readiness_score]. *)
Definition readiness_errors : list string :=
  [ "OSError"; "JSONDecodeError"; "TypeError"; "ValueError" ].

(** What one of the three attempts comes to: [return float(score)], falling
    through to the next attempt, or an exception that no clause catches. *)
Inductive attempt : Type :=
| Found (score : pyfloat)
| NotFound
| Crash (exc : string).

Section Float.
Variable py_float : value -> conversion pyfloat.

(** [if score is not None: return float(score)] inside the [try]. *)
Definition return_float (score : option value) (otherwise : attempt) : attempt :=
  match score with
  | None | Some VNone => otherwise
  | Some score =>
      match py_float score with
      | Converted x => Found x
      | Refused => NotFound
      | Raised exc =>
          if caught_by readiness_errors exc then NotFound else Crash exc
      end
  end.

(** [score = data.get("readiness", {}).get("overall_score")] and the return. *)
Definition report_score (data : value) : attempt :=
  match data with
  | VDict kv =>
      match get_or "readiness" (VDict []) kv with
      | VDict readiness => return_float (dict_get "overall_score" readiness) NotFound
      | _ => Crash "AttributeError"
      end
  | _ => Crash "AttributeError"
  end.

(** The loop over [data.get("phase_results", {}).items()]. *)
Fixpoint scan_phase_results (items : list (string * value)) : attempt :=
  match items with
  | [] => NotFound
  | (_, VDict phase_data) :: tl =>
      match get_or "agents" (VDict []) phase_data with
      | VDict agents =>
          match get_or "readiness_assessment" (VDict []) agents with
          | VDict ra =>
              match get_or "structured_data" (VDict []) ra with
              | VDict structured_data =>
                  return_float (dict_get "overall_score" structured_data)
                               (scan_phase_results tl)
              | _ => Crash "AttributeError"
              end
          | _ => scan_phase_results tl
          end
      | _ => Crash "AttributeError"
      end
  | _ :: tl => scan_phase_results tl
  end.

Definition context_score (data : value) : attempt :=
  match data with
  | VDict kv =>
      match get_or "phase_results" (VDict []) kv with
      | VDict phase_results => scan_phase_results phase_results
      | _ => Crash "AttributeError"
      end
  | _ => Crash "AttributeError"
  end.

(** One [if path.exists(): try: ... except (...): pass] block. *)
Definition try_report (f : report_file) (score_of : value -> attempt) : attempt :=
  match f with
  | Parsed data => score_of data
  | Absent => NotFound
  | Unreadable exc =>
      if caught_by readiness_errors exc then NotFound else Crash exc
  end.

(** [get_readiness_score(project_folder)], from the states of
    [readiness_report.json], [assessment_report.json] and
    [full_pipeline_context.json]. *)
Definition get_readiness_score
    (readiness_report assessment_report full_pipeline_context : report_file)
  : raising pyfloat :=
  match try_report readiness_report report_score with
  | Found x => inr x
  | Crash exc => inl exc
  | NotFound =>
      match try_report assessment_report report_score with
      | Found x => inr x
      | Crash exc => inl exc
      | NotFound =>
          match try_report full_pipeline_context context_score with
          | Found x => inr x
          | Crash exc => inl exc
          | NotFound => inr (Finite 0)
          end
      end
  end.

End Float.

End RunnerHelpers.

(* ===================================================================== *)
(** ** scripts/gia_autonomous_runner.py                                   *)
(* ===================================================================== *)

Module Runner.
Import Regex PyExc.

(** Phase definitions: (script_name, phase_id, description, is_critical) *)
Definition PIPELINE_PHASES : list (string * string * string * bool) :=
  [ ("run_workflow.py", "phase_1", "Research Workflow (Intake)", true);
    ("run_literature_workflow.py", "phase_2", "Literature Workflow", false);
    ("run_gap_resolution.py", "phase_3", "Gap Resolution Workflow", false);
    ("run_writing_review_stage.py", "phase_4", "Writing Review Stage", false);
    ("run_paper_assembly.py", "phase_5a", "Paper Assembly", false);
    ("run_paper_compile.py", "phase_5b", "Paper Compilation", false) ].

Definition DEFAULT_PHASE_TIMEOUT : Z := 3600.

Record PhaseResult : Type := {
  phase_id : string;
  phase_name : string;
  success : bool;
  exit_code : Z;
  execution_time : Q;
  degraded : bool;
  degradation_reasons : list string;
  error_count : nat;
  warning_count : nat;
  critical_count : nat;
}.

Record PipelineResult : Type := {
  run_id : string;
  project_folder : string;
  started_at : string;
  finished_at : string;
  total_execution_time : Q;
  overall_success : bool;
  phases : list PhaseResult;
  evidence_items_count : nat;
  readiness_score : GateConfig.pyfloat;
  degradation_summary : list string;
}.

(** *** DualLogger *)

(** The counters of the logger, the degradation reasons it holds, and the
    records it has appended to the remedy file, as (phase_id, reason). The
    text of the log file is not modelled. *)
Record DualLogger : Type := {
  log_error_count : nat;
  log_warning_count : nat;
  log_critical_count : nat;
  log_degradation_reasons : list string;
  remedy_records : list (string * string);
}.

Definition new_logger : DualLogger :=
  {| log_error_count := 0; log_warning_count := 0; log_critical_count := 0;
     log_degradation_reasons := []; remedy_records := [] |}.

(** The class of the two quote characters: the double quote (code 34) and
    the single quote (code 39). *)
Definition quote (c : ascii) : bool :=
  (PyStr.code c =? 34)%nat || (PyStr.code c =? 39)%nat.

(** [reason_code["\']?\s*[:=]\s*["\']?([a-zA-Z0-9_-]+)] *)
Definition re_reason_code : re :=
  Seq (lit_ci "reason_code")
    (Seq (Opt (Chr quote))
       (Seq (Star true (Chr PyStr.is_space))
          (Seq (Chr (fun c => Ascii.eqb c ":" || Ascii.eqb c "="))
             (Seq (Star true (Chr PyStr.is_space))
                (Seq (Opt (Chr quote))
                   (Grp (Plus true
                           (Chr (fun c => PyStr.is_alnum c
                                          || Ascii.eqb c "_"
                                          || Ascii.eqb c "-"))))))))).

(** [:\s*(.+?)(?:\.|$)], the tail shared by the two other patterns. *)
Definition re_reason_tail : re :=
  Seq (Chr (is_char ":"))
    (Seq (Star true (Chr PyStr.is_space))
       (Seq (Grp (Plus false Dot))
            (Alt (Chr (is_char ".")) Eos))).

(** [degradation.*?:\s*(.+?)(?:\.|$)] *)
Definition re_degradation : re :=
  Seq (lit_ci "degradation") (Seq (Star false Dot) re_reason_tail).

(** [degraded.*?(?:due to|because|reason):\s*(.+?)(?:\.|$)] *)
Definition re_degraded : re :=
  Seq (lit_ci "degraded")
    (Seq (Star false Dot)
       (Seq (Alt (lit_ci "due to") (Alt (lit_ci "because") (lit_ci "reason")))
            re_reason_tail)).

Definition _extract_degradation_reason (line : string) : string :=
  let fix first (patterns : list re) : string :=
    match patterns with
    | [] => PyStr.take_prefix 100 (PyStr.strip line)
    | p :: tl =>
        match search_group1 p line with
        | Some g => PyStr.strip g
        | None => first tl
        end
    end in
  first [re_reason_code; re_degradation; re_degraded].

Definition process_output_line (phase_id : string) (self : DualLogger)
    (line : string) : DualLogger :=
  let upper_line := PyStr.upper line in
  let bump (kw : string) (n : nat) : nat :=
    if PyStr.contains kw upper_line then S n else n in
  let degr :=
    PyStr.contains "DEGRADATION" upper_line || PyStr.contains "DEGRADED" upper_line in
  let reason := _extract_degradation_reason line in
  let noted := degr && PyStr.nonempty reason in
  let tagged : string := "[" ++ phase_id ++ "] " ++ reason in
  {| log_error_count := bump "ERROR" (log_error_count self);
     log_warning_count := bump "WARNING" (log_warning_count self);
     log_critical_count := bump "CRITICAL" (log_critical_count self);
     log_degradation_reasons :=
       if noted
       then (log_degradation_reasons self ++ [tagged])%list
       else log_degradation_reasons self;
     remedy_records :=
       if noted then (remedy_records self ++ [(phase_id, reason)])%list
       else remedy_records self |}.

Definition reset_counts (self : DualLogger) : DualLogger :=
  {| log_error_count := 0; log_warning_count := 0; log_critical_count := 0;
     log_degradation_reasons := log_degradation_reasons self;
     remedy_records := remedy_records self |}.

(** [logger.degradation_reasons = []] *)
Definition clear_reasons (self : DualLogger) : DualLogger :=
  {| log_error_count := log_error_count self;
     log_warning_count := log_warning_count self;
     log_critical_count := log_critical_count self;
     log_degradation_reasons := [];
     remedy_records := remedy_records self |}.

(** [stream_subprocess_output]: every line of the child goes through
    [process_output_line]. *)
Definition stream_subprocess_output (lines : list string) (logger : DualLogger)
    (phase_id : string) : DualLogger :=
  foldl (process_output_line phase_id) logger lines.

(** *** The project folder and the phase children *)

(** What the runner itself reads or writes back: the run report it dumps, or
    any other file. *)
Inductive content : Type :=
| RunResultJson (r : PipelineResult)
| OtherFile (text : string).

(** What launching the script of a phase comes to.
    - [ScriptMissing]: [script_path.exists()] is false;
    - [Raised]: an exception other than a timeout, at launch ([lines] empty,
      no file touched) or while the output is streamed;
    - [TimedOut]: [process.wait] raised [TimeoutExpired];
    - [Exited]: the child ended with [code].
    [lines] are the output lines the logger processed, [elapsed] the time
    measured, [files] what the child did to the project folder. *)
Record child : Type := {
  lines : list string;
  elapsed : Q;
  files : gmap string content -> gmap string content;
}.

Inductive launch : Type :=
| ScriptMissing
| Raised (c : child)
| TimedOut (c : child)
| Exited (c : child) (code : Z).

(** [PhaseResult(phase_id, phase_name, success=False, exit_code=-1,
    execution_time, error_count=1)]: the other fields at their defaults. *)
Definition failed_phase (phase_id phase_name : string) (execution_time : Q)
  : PhaseResult :=
  {| phase_id := phase_id; phase_name := phase_name; success := false;
     exit_code := (-1)%Z; execution_time := execution_time;
     degraded := false; degradation_reasons := [];
     error_count := 1; warning_count := 0; critical_count := 0 |}.

Definition execute_phase (outcome : launch) (phase_id phase_name : string)
    (logger : DualLogger) (folder : gmap string content)
  : PhaseResult * DualLogger * gmap string content :=
  match outcome with
  | ScriptMissing => (failed_phase phase_id phase_name 0, logger, folder)
  | Exited c exit_code =>
      let logger := reset_counts logger in
      let logger := stream_subprocess_output (lines c) logger phase_id in
      let execution_time := elapsed c in
      let error_count := log_error_count logger in
      let warning_count := log_warning_count logger in
      let critical_count := log_critical_count logger in
      let success := (exit_code =? 0)%Z in
      let degraded :=
        (0 <? length (log_degradation_reasons logger))%nat
        || (negb success && (0 <? error_count)%nat) in
      let result :=
        {| phase_id := phase_id; phase_name := phase_name;
           success := success; exit_code := exit_code;
           execution_time := execution_time; degraded := degraded;
           degradation_reasons := log_degradation_reasons logger;
           error_count := error_count; warning_count := warning_count;
           critical_count := critical_count |} in
      (result, clear_reasons logger, files c folder)
  | TimedOut c | Raised c =>
      let logger := reset_counts logger in
      let logger := stream_subprocess_output (lines c) logger phase_id in
      (failed_phase phase_id phase_name (elapsed c), logger, files c folder)
  end.

(** *** The orchestrator *)

(** What one run meets outside the runner: the clock; whether the project
    folder exists; the pre-flight purge, with the folder it leaves and the
    exception it raises, if any (its deletions catch [OSError], but
    [outputs_dir.iterdir()] and [archive_dir.mkdir] are outside any [try]);
    the outcome of each phase script; how the files that the post-run
    evaluation reads come out of [read_text] and [json.loads], and what the
    builtin [float] does; and whether the final write raises [OSError]. *)
Record environment : Type := {
  clock_run_id : string;
  clock_started_at : string;
  clock_finished_at : string;
  clock_total_time : Q;
  folder_exists : bool;
  run_environment_purge :
    gmap string content -> gmap string content * option string;
  started : string -> launch;
  evidence_files : gmap string content -> gmap string AccuracyGate.file;
  report_at : gmap string content -> string -> RunnerHelpers.report_file;
  py_float : GateConfig.value -> GateConfig.conversion GateConfig.pyfloat;
  write_raises : bool;
}.

(** [count_evidence_items(project_folder)] and
    [get_readiness_score(project_folder)] on the folder of the run. *)
Definition count_evidence_items (env : environment)
    (folder : gmap string content) : raising nat :=
  RunnerHelpers.count_evidence_items (evidence_files env folder).

Definition get_readiness_score (env : environment)
    (folder : gmap string content) : raising GateConfig.pyfloat :=
  RunnerHelpers.get_readiness_score (py_float env)
    (report_at env folder "readiness_report.json")
    (report_at env folder "assessment_report.json")
    (report_at env folder "full_pipeline_context.json").

(** The variables the loop over the phases updates. *)
Record progress : Type := {
  p_phases : list PhaseResult;
  p_degradation_summary : list string;
  p_overall_success : bool;
  p_logger : DualLogger;
  p_folder : gmap string content;
}.

(** The loop [for script_name, phase_id, phase_name, is_critical in ...]. *)
Fixpoint run_phases (env : environment)
    (table : list (string * string * string * bool)) (st : progress) : progress :=
  match table with
  | [] => st
  | (script_name, phase_id, phase_name, is_critical) :: tl =>
      let '(phase_result, logger, folder) :=
        execute_phase (started env script_name) phase_id phase_name
                      (p_logger st) (p_folder st) in
      let phases := (p_phases st ++ [phase_result])%list in
      let summary :=
        (p_degradation_summary st ++ degradation_reasons phase_result)%list in
      if negb (success phase_result) && is_critical then
        {| p_phases := phases; p_degradation_summary := summary;
           p_overall_success := false; p_logger := logger; p_folder := folder |}
      else
        run_phases env tl
          {| p_phases := phases; p_degradation_summary := summary;
             p_overall_success :=
               if negb (success phase_result) && negb (degraded phase_result)
               then false else p_overall_success st;
             p_logger := logger; p_folder := folder |}
  end.

Definition count_where (f : PhaseResult -> bool) (l : list PhaseResult) : nat :=
  length (filter (fun p => f p = true) l).

Definition result_path : string := "autonomous_run_result.json".

(** [run_autonomous_pipeline(project_folder, skip_purge=..., dry_run=...)]:
    the result returned, or the exception that goes through (from the purge
    or from the post-run evaluation, which run outside any [try]), and the
    project folder left behind. *)
Definition run_autonomous_pipeline (env : environment)
    (project_folder_ : string) (skip_purge dry_run : bool)
    (folder : gmap string content)
  : raising PipelineResult * gmap string content :=
  let pipeline_result :=
    {| run_id := clock_run_id env; project_folder := project_folder_;
       started_at := clock_started_at env; finished_at := "";
       total_execution_time := 0; overall_success := true; phases := [];
       evidence_items_count := 0; readiness_score := GateConfig.Finite 0;
       degradation_summary := [] |} in
  if negb (folder_exists env) then
    (inr {| run_id := run_id pipeline_result;
        project_folder := project_folder pipeline_result;
        started_at := started_at pipeline_result;
        finished_at := finished_at pipeline_result;
        total_execution_time := total_execution_time pipeline_result;
        overall_success := false;
        phases := phases pipeline_result;
        evidence_items_count := evidence_items_count pipeline_result;
        readiness_score := readiness_score pipeline_result;
        degradation_summary := degradation_summary pipeline_result |}, folder)
  else
    let '(folder, purge_raised) :=
      if negb skip_purge then run_environment_purge env folder
      else (folder, None) in
    match purge_raised with
    | Some exc => (inl exc, folder)
    | None =>
    if dry_run then
      (inr {| run_id := run_id pipeline_result;
          project_folder := project_folder pipeline_result;
          started_at := started_at pipeline_result;
          finished_at := clock_finished_at env;
          total_execution_time := total_execution_time pipeline_result;
          overall_success := overall_success pipeline_result;
          phases := phases pipeline_result;
          evidence_items_count := evidence_items_count pipeline_result;
          readiness_score := readiness_score pipeline_result;
          degradation_summary := degradation_summary pipeline_result |}, folder)
    else
      let st :=
        run_phases env PIPELINE_PHASES
          {| p_phases := []; p_degradation_summary := [];
             p_overall_success := true; p_logger := new_logger;
             p_folder := folder |} in
      let folder := p_folder st in
      match count_evidence_items env folder with
      | inl exc => (inl exc, folder)
      | inr evidence_items_count_ =>
      match get_readiness_score env folder with
      | inl exc => (inl exc, folder)
      | inr readiness_score_ =>
      let successful_phases := count_where success (p_phases st) in
      let total_phases := length (p_phases st) in
      let degraded_phases := count_where degraded (p_phases st) in
      let overall :=
        if (successful_phases =? total_phases)%nat && (degraded_phases =? 0)%nat
        then true
        else if (0 <? successful_phases)%nat
        then (total_phases / 2 <=? successful_phases)%nat
        else p_overall_success st in
      let pipeline_result :=
        {| run_id := clock_run_id env; project_folder := project_folder_;
           started_at := clock_started_at env;
           finished_at := clock_finished_at env;
           total_execution_time := clock_total_time env;
           overall_success := overall;
           phases := p_phases st;
           evidence_items_count := evidence_items_count_;
           readiness_score := readiness_score_;
           degradation_summary := p_degradation_summary st |} in
      (inr pipeline_result,
       if write_raises env then folder
       else <[result_path := RunResultJson pipeline_result]> folder)
      end
      end
    end.

End Runner.

(* ===================================================================== *)
(** ** src/llm/edison_client.py: citations and their BibTeX               *)
(* ===================================================================== *)

Module Bibliography.

Record Citation : Type := {
  title : string;
  authors : list string;
  year : Z;
  journal : option string;
  doi : option string;
  url : option string;
  abstract : option string;
  relevance_score : option Q;
  paper_id : option string;
  citations : option Z;
}.

(** What a method comes to: a value, an exception by its name, or a string
    with a character beyond code 127, which the strings of this embedding
    do not have. *)
Inductive outcome (A : Type) : Type :=
| Returns (a : A)
| Raises (exc : string)
| LeavesAscii.
Arguments Returns {A} a.
Arguments Raises {A} exc.
Arguments LeavesAscii {A}.

Definition and_then {A B : Type} (m : outcome A) (f : A -> outcome B) : outcome B :=
  match m with
  | Returns a => f a
  | Raises exc => Raises exc
  | LeavesAscii => LeavesAscii
  end.

(** [s.split()]: the maximal runs of characters that are not whitespace;
    [current] holds the run being read, last character first. *)
Fixpoint words_from (l current : list ascii) : list string :=
  match l with
  | [] => match current with [] => [] | _ => [PyStr.str (rev current)] end
  | c :: tl =>
      if PyStr.is_space c then
        match current with
        | [] => words_from tl []
        | _ => PyStr.str (rev current) :: words_from tl []
        end
      else words_from tl (c :: current)
  end.

Definition split (s : string) : list string := words_from (PyStr.chars s) [].

(** Truth value of an optional string: there, and not empty. *)
Definition given (s : option string) : bool :=
  match s with Some x => PyStr.nonempty x | None => false end.

(** [self.authors[0].split()[-1] if self.authors else "Unknown"] *)
Definition first_author_of (self : Citation) : outcome string :=
  match authors self with
  | [] => Returns "Unknown"
  | first :: _ =>
      match last (split first) with
      | Some word => Returns word
      | None => Raises "IndexError"
      end
  end.

(** [f"{first_author}{self.year}"] *)
Definition base_key_of (self : Citation) : outcome string :=
  and_then (first_author_of self)
    (fun first_author => Returns (first_author ++ PyStr.str_of_Z (year self))).

Definition nl : string := AccuracyGate.newline_string.

(** The text that [Citation.to_bibtex] builds once it has its key. *)
Definition bibtex_entry (self : Citation) (key : string) : string :=
  let authors_str := PyStr.join " and " (authors self) in
  let bibtex := "@article{" ++ key ++ "," ++ nl in
  let bibtex := bibtex ++ "  title = {" ++ title self ++ "}," ++ nl in
  let bibtex := bibtex ++ "  author = {" ++ authors_str ++ "}," ++ nl in
  let bibtex := bibtex ++ "  year = {" ++ PyStr.str_of_Z (year self) ++ "}," ++ nl in
  let bibtex :=
    if given (journal self)
    then bibtex ++ "  journal = {" ++ default "" (journal self) ++ "}," ++ nl
    else bibtex in
  let bibtex :=
    if given (doi self)
    then bibtex ++ "  doi = {" ++ default "" (doi self) ++ "}," ++ nl
    else bibtex in
  let bibtex :=
    if given (url self)
    then bibtex ++ "  url = {" ++ default "" (url self) ++ "}," ++ nl
    else bibtex in
  bibtex ++ "}" ++ nl.

(** [Citation.to_bibtex(key)] *)
Definition Citation_to_bibtex (self : Citation) (key : option string)
  : outcome string :=
  and_then (if given key then Returns (default "" key) else base_key_of self)
    (fun key => Returns (bibtex_entry self key)).

(** [chr(suffix)] for an ASCII code point. *)
Definition chr (suffix : nat) : string := String (ascii_of_nat suffix) EmptyString.

(** The loop [while key in used_keys: key = f"{base_key}{chr(suffix)}";
    suffix += 1] once the base key is known to be taken; [room] is the
    number of code points left below 128. *)
Fixpoint next_key (room : nat) (used_keys : gset string) (base_key : string)
    (suffix : nat) : outcome string :=
  match room with
  | O => LeavesAscii
  | S room' =>
      let key := base_key ++ chr suffix in
      if bool_decide (key ∈ used_keys)
      then next_key room' used_keys base_key (S suffix)
      else Returns key
  end.

(** The key given to a citation: its base key, or the first of
    [base_key + "a"], [base_key + "b"], ... that is not used yet. *)
Definition free_key (used_keys : gset string) (base_key : string) : outcome string :=
  if bool_decide (base_key ∈ used_keys)
  then next_key (128 - 97) used_keys base_key 97
  else Returns base_key.

(** One iteration of the loop of [LiteratureResult.to_bibtex]. *)
Definition add_entry (st : outcome (gset string * list string))
    (citation : Citation) : outcome (gset string * list string) :=
  and_then st (fun '(used_keys, bibtex_entries) =>
  and_then (base_key_of citation) (fun base_key =>
  and_then (free_key used_keys base_key) (fun key =>
  and_then (Citation_to_bibtex citation (Some key)) (fun entry =>
  Returns (used_keys ∪ {[ key ]}, (bibtex_entries ++ [entry])%list))))).

(** [LiteratureResult.to_bibtex()], from the citations of the result. *)
Definition to_bibtex (citations_ : list Citation) : outcome string :=
  and_then (foldl add_entry (Returns (∅, [])) citations_)
    (fun '(_, bibtex_entries) => Returns (PyStr.join nl bibtex_entries)).

End Bibliography.

(* ===================================================================== *)
(** ** src/llm/edison_client.py: citations read from an answer's text     *)
(* ===================================================================== *)

Module CitationText.
Import Regex Bibliography.

Definition _MIN_TITLE_LENGTH_FOR_SPLIT : nat := 20.
Definition _TITLE_DEDUP_KEY_LENGTH : nat := 50.

(** *** Patterns *)

(** A literal, matched as written. *)
Fixpoint lit_chars (l : list ascii) : re :=
  match l with
  | [] => Eps
  | x :: tl => Seq (Chr (is_char x)) (lit_chars tl)
  end.
Definition lit (s : string) : re := lit_chars (PyStr.chars s).

Definition ws : re := Chr PyStr.is_space.          (* \s *)
Definition digit : re := Chr PyStr.is_digit.       (* \d *)

(** [[^\s,]] and [[,\s]] *)
Definition not_space_or_comma (c : ascii) : bool :=
  negb (PyStr.is_space c) && negb (Ascii.eqb c ",").
Definition comma_or_space (c : ascii) : bool :=
  Ascii.eqb c "," || PyStr.is_space c.

(** The heading, under [re.IGNORECASE]: an optional group of [#+\s*], then
    [References?\s*\n]. The [(?:^|\n)] before it is in [references_end]. *)
Definition re_references : re :=
  Seq (Opt (Seq (Plus true (Chr (is_char "#"))) (Star true ws)))
    (Seq (lit_ci "Reference")
       (Seq (Opt (lit_ci "s"))
          (Seq (Star true ws) (Chr (is_char newline))))).

(** [\d+\.\s], the lookahead of the pattern that splits the entries. *)
Definition re_entry_number : re :=
  Seq (Plus true digit) (Seq (Chr (is_char ".")) ws).

(** [10\.[^\s,]+] and [https?://[^\s,]+] *)
Definition re_doi_value : re :=
  Seq (lit "10") (Seq (Chr (is_char ".")) (Plus true (Chr not_space_or_comma))).
Definition re_url_value : re :=
  Seq (lit "http")
    (Seq (Opt (Chr (is_char "s")))
       (Seq (lit "://") (Plus true (Chr not_space_or_comma)))).

(** [doi:\s*(10\.[^\s,]+)], under [re.IGNORECASE] *)
Definition re_doi : re :=
  Seq (lit_ci "doi:") (Seq (Star true ws) (Grp re_doi_value)).

(** [URL:\s*(https?://[^\s,]+)] *)
Definition re_url : re :=
  Seq (lit "URL:") (Seq (Star true ws) (Grp re_url_value)).

(** [\b(19|20)\d{2}\b]; the group of the embedding is the whole match, which
    is what the source reads ([group(0)]). *)
Definition re_year : re :=
  Seq WordB
    (Seq (Grp (Seq (Alt (lit "19") (lit "20")) (Seq digit digit))) WordB).

(** [\d+\.\s*\([^)]+\):\s*], the pattern of step 1 without its [^]. *)
Definition re_entry_prefix : re :=
  Seq (Plus true digit)
    (Seq (Chr (is_char "."))
       (Seq (Star true ws)
          (Seq (Chr (is_char "("))
             (Seq (Plus true (Chr (fun c => negb (Ascii.eqb c ")"))))
                (Seq (Chr (is_char ")"))
                   (Seq (Chr (is_char ":")) (Star true ws))))))).

(** [\s*This article has \d+ citations?\.\s*$], under [re.IGNORECASE] *)
Definition re_citation_count : re :=
  Seq (Star true ws)
    (Seq (lit_ci "This article has ")
       (Seq (Plus true digit)
          (Seq (lit_ci " citation")
             (Seq (Opt (lit_ci "s"))
                (Seq (Chr (is_char ".")) (Seq (Star true ws) Eos)))))).

(** [\s*URL:\s*https?://[^\s,]+[,\s]*] *)
Definition re_url_meta : re :=
  Seq (Star true ws)
    (Seq (lit "URL:")
       (Seq (Star true ws)
          (Seq re_url_value (Star true (Chr comma_or_space))))).

(** [\s*doi:\s*10\.[^\s,]+[,\s]*], under [re.IGNORECASE] *)
Definition re_doi_meta : re :=
  Seq (Star true ws)
    (Seq (lit_ci "doi:")
       (Seq (Star true ws)
          (Seq re_doi_value (Star true (Chr comma_or_space))))).

(** [\s+and\s+], under [re.IGNORECASE] *)
Definition re_and : re :=
  Seq (Plus true ws) (Seq (lit_ci "and") (Plus true ws)).

(** *** The functions of [re] and [str] that the method uses *)

(** [re.search(r'(?:^|\n)' + heading, text).end()]: at the start of the
    text the heading may begin at once or after a line feed; further on,
    only after a line feed. *)
Fixpoint references_end_from (b : option ascii) (i : nat) (l : list ascii)
  : option nat :=
  match match_end (Seq (Chr (is_char newline)) re_references) b i l with
  | Some e => Some e
  | None =>
      match l with
      | [] => None
      | c :: tl => references_end_from (Some c) (S i) tl
      end
  end.

Definition references_end (text : string) : option nat :=
  let l := PyStr.chars text in
  match match_end (Alt re_references (Seq (Chr (is_char newline)) re_references))
                  None 0 l with
  | Some e => Some e
  | None =>
      match l with
      | [] => None
      | c :: tl => references_end_from (Some c) 1 tl
      end
  end.

(** [re.split(r'\n(?=\d+\.\s)', s)]: the text is cut at every line feed that
    a numbered line follows; [current] holds the piece being read, last
    character first. *)
Fixpoint split_entries_from (l current : list ascii) : list string :=
  match l with
  | [] => [PyStr.str (rev current)]
  | c :: tl =>
      if Ascii.eqb c newline
         && bool_decide (is_Some (match_end re_entry_number (Some c) 0 tl))
      then PyStr.str (rev current) :: split_entries_from tl []
      else split_entries_from tl (c :: current)
  end.

Definition split_entries (s : string) : list string :=
  split_entries_from (PyStr.chars s) [].

(** [re.sub(r, repl, text)] for a pattern that cannot match the empty
    string, as the four patterns that the source substitutes cannot. [skip]
    counts the characters of the last match still to be passed over. *)
Fixpoint sub_from (r : re) (repl : list ascii) (b : option ascii) (i : nat)
    (l : list ascii) (skip : nat) : list ascii :=
  match l with
  | [] => []
  | c :: tl =>
      match skip with
      | S s => sub_from r repl (Some c) (S i) tl s
      | O =>
          match match_end r b i l with
          | Some e =>
              if (i <? e)%nat
              then (repl ++ sub_from r repl (Some c) (S i) tl (e - i - 1))%list
              else c :: sub_from r repl (Some c) (S i) tl 0
          | None => c :: sub_from r repl (Some c) (S i) tl 0
          end
      end
  end.

Definition sub (r : re) (repl text : string) : string :=
  PyStr.str (sub_from r (PyStr.chars repl) None 0 (PyStr.chars text) 0).

(** [re.sub('^' + r, '', text)]: only a match at the start is removed. *)
Definition sub_at_start (r : re) (text : string) : string :=
  let l := PyStr.chars text in
  match match_end r None 0 l with
  | Some e => PyStr.str (drop e l)
  | None => text
  end.

(** [re.split(r, text)] for a pattern without groups that cannot match the
    empty string. *)
Fixpoint split_re_from (r : re) (b : option ascii) (i : nat) (l : list ascii)
    (skip : nat) (current : list ascii) : list string :=
  match l with
  | [] => [PyStr.str (rev current)]
  | c :: tl =>
      match skip with
      | S s => split_re_from r (Some c) (S i) tl s current
      | O =>
          match match_end r b i l with
          | Some e =>
              if (i <? e)%nat
              then PyStr.str (rev current)
                     :: split_re_from r (Some c) (S i) tl (e - i - 1) []
              else split_re_from r (Some c) (S i) tl 0 (c :: current)
          | None => split_re_from r (Some c) (S i) tl 0 (c :: current)
          end
      end
  end.

Definition split_re (r : re) (text : string) : list string :=
  split_re_from r None 0 (PyStr.chars text) 0 [].

(** [s.rstrip(chars)] *)
Fixpoint lstrip_set (chars l : list ascii) : list ascii :=
  match l with
  | c :: tl => if existsb (Ascii.eqb c) chars then lstrip_set chars tl else l
  | [] => []
  end.

Definition rstrip (s chars : string) : string :=
  PyStr.str (rev (lstrip_set (PyStr.chars chars) (rev (PyStr.chars s)))).

(** [s[0].isdigit()] for a string that is not empty. *)
Definition starts_with_digit (s : string) : bool :=
  match s with String c _ => PyStr.is_digit c | EmptyString => false end.

(** [current.split()[-1] if current.split() else ""], then
    [len(before_period) == 1 and before_period.isupper()]. *)
Definition ends_with_initial (current : string) : bool :=
  match last (split current) with
  | Some (String c EmptyString) => PyStr.is_upper c
  | _ => false
  end.

(** The [while] loop that cuts [cleaned] at every [". "] that does not
    follow an initial, and the [if current.strip()] after it. *)
Fixpoint split_sentences (l : list ascii) (current : string) : list string :=
  match l with
  | [] => if PyStr.nonempty (PyStr.strip current) then [PyStr.strip current] else []
  | c :: tl =>
      match tl with
      | c' :: tl' =>
          if Ascii.eqb c "." && Ascii.eqb c' " " then
            if ends_with_initial current
            then split_sentences tl' (current ++ ". ")
            else PyStr.strip current :: split_sentences tl' ""
          else split_sentences tl (current ++ String c EmptyString)
      | [] => split_sentences tl (current ++ String c EmptyString)
      end
  end.

(** [s.split(". ", maxsplit)] *)
Fixpoint split_period_from (l : list ascii) (maxsplit : nat)
    (current : list ascii) : list string :=
  match l with
  | [] => [PyStr.str (rev current)]
  | c :: tl =>
      match maxsplit, tl with
      | S m, c' :: tl' =>
          if Ascii.eqb c "." && Ascii.eqb c' " "
          then PyStr.str (rev current) :: split_period_from tl' m []
          else split_period_from tl maxsplit (c :: current)
      | _, _ => split_period_from tl maxsplit (c :: current)
      end
  end.

Definition split_period (s : string) (maxsplit : nat) : list string :=
  split_period_from (PyStr.chars s) maxsplit [].

(** [s.split(",")[0]]: what comes before the first comma. *)
Fixpoint before_comma (l : list ascii) : list ascii :=
  match l with
  | [] => []
  | c :: tl => if Ascii.eqb c "," then [] else c :: before_comma tl
  end.

(** What comes after the first comma of [l] (nothing without a comma). *)
Fixpoint after_comma (l : list ascii) : list ascii :=
  match l with
  | [] => []
  | c :: tl => if Ascii.eqb c "," then tl else after_comma tl
  end.

(** [s.rsplit(",", 1)[0]] for a string with a comma: what comes before the
    last comma. *)
Definition before_last_comma (s : string) : string :=
  PyStr.str (rev (after_comma (rev (PyStr.chars s)))).

(** ["," in s] *)
Definition has_comma (s : string) : bool :=
  existsb (Ascii.eqb ",") (PyStr.chars s).

(** *** [_extract_citations_from_text] *)

(** The variables that the loop over the entries updates. *)
Record extraction : Type := {
  found : list Citation;
  seen_dois : gset string;
  seen_titles : gset string;
}.

(** The authors of an entry: the parts of [authors_str] between the words
    [and], stripped, longer than one character. *)
Definition authors_of (authors_str : string) : list string :=
  if PyStr.nonempty authors_str then
    filter (fun and_part =>
              PyStr.nonempty and_part && (1 <? PyStr.len and_part)%nat = true)
           (map PyStr.strip (split_re re_and authors_str))
  else [].

(** Steps 1 to 3: the entry without its number and key, its citation count,
    its URL and its DOI. *)
Definition cleaned_of (entry : string) : string :=
  let cleaned := sub_at_start re_entry_prefix entry in
  let cleaned := sub re_citation_count "" cleaned in
  let cleaned := sub re_url_meta " " cleaned in
  let cleaned := sub re_doi_meta " " cleaned in
  rstrip (PyStr.strip cleaned) ".,".

(** The parts of [cleaned]: the sentences cut by the loop, or, when there
    are fewer than two, the result of [cleaned.split(". ", 2)] if that has
    two at least. *)
Definition parts_of (cleaned : string) : list string :=
  let parts := split_sentences (PyStr.chars cleaned) "" in
  if (length parts <? 2)%nat then
    let simple_parts := split_period cleaned 2 in
    if (2 <=? length simple_parts)%nat then simple_parts else parts
  else parts.

(** One iteration of the loop over the entries. *)
Definition extract_entry (st : extraction) (entry : string) : extraction :=
  let entry := PyStr.strip entry in
  if negb (PyStr.nonempty entry) || negb (starts_with_digit entry) then st
  else
    let doi := option_map (fun g => rstrip g ".,;") (search_group1 re_doi entry) in
    if given doi && bool_decide (PyStr.lower (default "" doi) ∈ seen_dois st)
    then st
    else
      let seen_dois_ :=
        if given doi then seen_dois st ∪ {[ PyStr.lower (default "" doi) ]}
        else seen_dois st in
      let url := option_map (fun g => rstrip g ".,") (search_group1 re_url entry) in
      let year_ :=
        match search_group1 re_year entry with
        | Some g => PyStr.int_of_digits g
        | None => 0%Z
        end in
      let cleaned := cleaned_of entry in
      let skipped :=
        {| found := found st; seen_dois := seen_dois_;
           seen_titles := seen_titles st |} in
      if negb (PyStr.nonempty cleaned) then skipped
      else
        match parts_of cleaned with
        | part0 :: part1 :: rest =>
            let authors_str := PyStr.strip part0 in
            let title_ := PyStr.strip part1 in
            let journal_ :=
              match rest with
              | part2 :: _ =>
                  Some (PyStr.strip (PyStr.str (before_comma (PyStr.chars part2))))
              | [] => None
              end in
            let title_ :=
              if has_comma title_ && negb (given journal_) then
                if (_MIN_TITLE_LENGTH_FOR_SPLIT <? PyStr.len (before_last_comma title_))%nat
                then PyStr.strip (before_last_comma title_)
                else title_
              else title_ in
            let title_key :=
              PyStr.take_prefix _TITLE_DEDUP_KEY_LENGTH (PyStr.lower title_) in
            if negb (given doi) && bool_decide (title_key ∈ seen_titles st)
            then skipped
            else
              let authors_ := authors_of authors_str in
              let citation :=
                {| title := title_;
                   authors := match authors_ with [] => ["Unknown"] | _ => authors_ end;
                   year := year_;
                   journal := journal_;
                   doi := doi;
                   url := url;
                   abstract := None;
                   relevance_score := None;
                   paper_id := None;
                   citations := None |} in
              {| found := (found st ++ [citation])%list;
                 seen_dois := seen_dois_;
                 seen_titles := seen_titles st ∪ {[ title_key ]} |}
        | _ => skipped
        end.

(** [EdisonClient._extract_citations_from_text(text)] *)
Definition _extract_citations_from_text (text : string) : list Citation :=
  match references_end text with
  | None => []
  | Some e =>
      let refs_section := PyStr.str (drop e (PyStr.chars text)) in
      let entries := split_entries refs_section in
      found (foldl extract_entry
               {| found := []; seen_dois := ∅; seen_titles := ∅ |} entries)
  end.

End CitationText.

(* ===================================================================== *)
(** * The properties, in the words of the specification                    *)
(* ===================================================================== *)

Module GateSpec.
Import Json PyExc AccuracyGate.

(** A year-like number: four digits, between 1900 and 2100, no [%] suffix. *)
Definition year_like (n : string) : bool :=
  negb (PyStr.endswith n "%")
  && PyStr.isdigit n && (PyStr.len n =? 4)%nat
  && (1900 <=? PyStr.int_of_digits n)%Z && (PyStr.int_of_digits n <=? 2100)%Z.

(** The numbers of a text that are not year-like. *)
Definition non_year_numbers (text : string) : gset string :=
  filter (fun n => year_like n = false) (_extract_numbers text).

(** The numeric check fails: it is enabled and some non-year number of the
    statement is not among the numbers of the evidence. *)
Definition numeric_check_fails (cfg : CitationAccuracyGateConfig)
    (statement evidence_text : string) : bool :=
  enable_numeric_consistency cfg
  && negb (bool_decide (non_year_numbers statement ⊆ _extract_numbers evidence_text)).

Definition spec_keyword_overlap (statement evidence_text : string) : Q :=
  _jaccard (_tokenize statement) (_tokenize evidence_text).

(** The entity overlap, 0 when it is not enabled. *)
Definition spec_entity_overlap (cfg : CitationAccuracyGateConfig)
    (statement evidence_text : string) : Q :=
  if enable_entity_overlap cfg
  then _jaccard (_extract_named_entities statement)
                (_extract_named_entities evidence_text)
  else 0%Q.

(** The keyword overlap, plus 0.20 times the entity overlap, capped at 1.0,
    when the entity overlap is enabled; halved when the numeric check fails. *)
Definition spec_alignment_score (cfg : CitationAccuracyGateConfig)
    (statement evidence_text : string) : Q :=
  let kw := spec_keyword_overlap statement evidence_text in
  let base :=
    if enable_entity_overlap cfg
    then Qmin 1 (kw + (1 # 5) * spec_entity_overlap cfg statement evidence_text)
    else kw in
  if numeric_check_fails cfg statement evidence_text then (base / 2)%Q else base.

(** The four reasons for which a claim is reported failed. *)
Definition spec_failed (cfg : CitationAccuracyGateConfig)
    (statement evidence_text : string) : Prop :=
  (spec_keyword_overlap statement evidence_text < min_keyword_overlap cfg)%Q
  \/ (enable_entity_overlap cfg = true
      /\ (spec_entity_overlap cfg statement evidence_text < min_entity_overlap cfg)%Q)
  \/ numeric_check_fails cfg statement evidence_text = true
  \/ (spec_alignment_score cfg statement evidence_text < min_alignment_score cfg)%Q.

(** A claim with an evidence id that the evidence map does not hold. *)
Definition unresolved (evidence_map : gmap string json) (claim : json) : bool :=
  existsb (fun ev_id => bool_decide (evidence_map !! ev_id = None))
          (string_list_field "evidence_ids" claim).

(** A claim without a usable evidence id. *)
Definition lacks_ids (claim : json) : bool :=
  match string_list_field "evidence_ids" claim with [] => true | _ => false end.

(** The report of a claim: skipped for want of ids, skipped for an unresolved
    id, or verified against the evidence items its ids resolve to. *)
Definition claim_report (cfg : CitationAccuracyGateConfig)
    (evidence_map : gmap string json) (claim : json) : report :=
  let ids := string_list_field "evidence_ids" claim in
  let items := fst (resolve_evidence evidence_map ids) in
  if lacks_ids claim then skipped_report claim [] [] "missing_evidence_ids"
  else if unresolved evidence_map claim
  then skipped_report claim ids items "evidence_ids_unresolved"
  else verify_claim cfg claim items.

Fixpoint count_reports (f : report -> bool) (l : list report) : nat :=
  match l with
  | [] => 0
  | r :: tl => (if f r then 1 else 0) + count_reports f tl
  end.

(** A report of a checked claim that failed. *)
Definition failed_report (r : report) : bool := r_checked r && negb (r_ok r).

Definition action_name (a : Action) : string :=
  match a with
  | Pass => "pass" | Block => "block"
  | Downgrade => "downgrade" | Disabled => "disabled"
  end.

(** The configuration in force: the one given, or the defaults. *)
Definition effective (config : option CitationAccuracyGateConfig)
  : CitationAccuracyGateConfig :=
  match config with Some c => c | None => default_config end.

(** [claims/claims.json] holds a JSON list. *)
Definition holds_claim_list (pf : gmap string file) : bool :=
  match pf !! claims_path with
  | Some (Data (JList _)) => true
  | _ => false
  end.

(** The path of a gate's report, per the specification. *)
Definition gate_report_path (gate_name : string) : string :=
  "outputs/gates/" ++ gate_name ++ ".json".

(** The source-backed claims and the evidence map that the gate has when
    its loaders return (none when they raise). *)
Definition loaded_claims (is_valid_claim_record : json -> bool)
    (pf : gmap string file) : list json :=
  match _load_source_backed_claims is_valid_claim_record pf with
  | inr (claims, _, _, _) => claims
  | inl _ => []
  end.

Definition loaded_evidence (is_valid_evidence_item : json -> bool)
    (pf : gmap string file) : gmap string json :=
  match _load_evidence_map is_valid_evidence_item pf with
  | inr (by_id, _, _) => by_id
  | inl _ => ∅
  end.

(** Reading the file at [path] raises nothing but what [_load_json_list]
    catches. *)
Definition loads (pf : gmap string file) (path : string) : bool :=
  match pf !! path with
  | Some (Corrupt err) => caught_by load_errors err
  | _ => true
  end.

(** The exception that the loaders of the gate let through: that of the
    claims file, else that of the first evidence file, in the order of
    [_iter_evidence_files], whose reading raises one that is not caught. *)
Definition first_uncaught (pf : gmap string file) (paths : list string)
  : option string :=
  match filter (fun path => loads pf path = false) paths with
  | path :: _ =>
      match pf !! path with Some (Corrupt err) => Some err | _ => None end
  | [] => None
  end.

Definition gate_raises (pf : gmap string file) : option string :=
  first_uncaught pf (claims_path :: _iter_evidence_files pf).

(** The value of an attribute in a dictionary handed to the span. *)
Fixpoint lookup_attr (key : string) (attrs : list (string * attr)) : option attr :=
  match attrs with
  | [] => None
  | (k, v) :: tl => if String.eqb k key then Some v else lookup_attr key tl
  end.

(** The verdict on a number of failed claims. *)
Definition verdict (cfg : CitationAccuracyGateConfig) (failed : nat)
  : Action * bool :=
  if (0 <? failed)%nat then
    match on_failure cfg with
    | OnBlock => (Block, false)
    | OnDowngrade => (Downgrade, true)
    end
  else (Pass, true).

(** The attributes that an enabled evaluation hands to the span. *)
Definition enabled_attributes (cfg : CitationAccuracyGateConfig)
    (reps : list report) : list (string * attr) :=
  let failed := count_reports failed_report reps in
  [ ("gate.name", AStr "citation_accuracy");
    ("gate.enabled", ABool true);
    ("gate.ok", ABool (snd (verdict cfg failed)));
    ("gate.action", AStr (action_name (fst (verdict cfg failed))));
    ("citation_accuracy.checked_claims_total",
     AInt (count_reports r_checked reps));
    ("citation_accuracy.failed_claims_total", AInt failed);
    ("citation_accuracy.skipped_missing_evidence_total",
     AInt (count_reports (fun r => negb (r_checked r)) reps));
    ("citation_accuracy.min_alignment_score", AFloat (min_alignment_score cfg));
    ("citation_accuracy.min_keyword_overlap", AFloat (min_keyword_overlap cfg));
    ("citation_accuracy.enable_entity_overlap",
     ABool (enable_entity_overlap cfg));
    ("citation_accuracy.enable_numeric_consistency",
     ABool (enable_numeric_consistency cfg)) ].

End GateSpec.

Module EdisonSpec.
Import Edison.

(** The fingerprint of a call. *)
Definition fingerprint (query : string) (context : option string) : string :=
  query_hash_of (full_query_of query context).

(** The fingerprints stamped by the locked blocks [events] run from the map
    [m], each with its time: a call that was submitted, or a submitted call
    completing. *)
Fixpoint stamps (self : EdisonClient) (m : gmap string Q) (events : list event)
  : list (string * Q) :=
  match events with
  | [] => []
  | e :: tl =>
      let '(o, m') := step self m e in
      (match e, o with
       | Enter _ _ t, Some (Submitted h _) => [(h, t)]
       | Leave h t, _ => [(h, t)]
       | _, _ => []
       end ++ stamps self m' tl)%list
  end.

(** [l] without one occurrence of [h]. *)
Fixpoint remove_one (h : string) (l : list string) : list string :=
  match l with
  | [] => []
  | x :: tl => if String.eqb x h then tl else x :: remove_one h tl
  end.

(** A history of one process: the times do not decrease, and a call leaves
    only after it was submitted, once. [in_flight] holds the fingerprints of
    the calls submitted and not yet left, [last] the time of the last event. *)
Fixpoint well_formed (self : EdisonClient) (m : gmap string Q)
    (in_flight : list string) (last : Q) (events : list event) : bool :=
  match events with
  | [] => true
  | e :: tl =>
      Qle_bool last (time_of e)
      && let '(o, m') := step self m e in
         match e, o with
         | Enter _ _ _, Some (Submitted h _) =>
             well_formed self m' (h :: in_flight) (time_of e) tl
         | Enter _ _ _, _ => well_formed self m' in_flight (time_of e) tl
         | Leave h _, _ =>
             bool_decide (h ∈ in_flight)
             && well_formed self m' (remove_one h in_flight) (time_of e) tl
         end
  end.

(** The result of a blocked duplicate. *)
Definition blocked_as_duplicate (e : entry) : Prop :=
  exists result msg,
    e = Returned result /\ status result = FAILED /\ error result = Some msg
    /\ PyStr.contains "Duplicate request blocked" msg = true.

(** The claim as the specification words it: after any history, a call whose
    fingerprint was submitted or completed less than 1800 s before is blocked
    as a duplicate. *)
Definition blocks_within_window_of_any_stamp (self : EdisonClient) : Prop :=
  forall (events : list event) (query : string) (context : option string)
         (now t : Q),
    well_formed self ∅ [] 0 (events ++ [Enter query context now])%list = true ->
    (fingerprint query context, t) ∈ stamps self ∅ events ->
    (now - t < window)%Q ->
    blocked_as_duplicate
      (fst (search_literature_enter self query context now
              (replay self ∅ events))).

(** The jobs in flight, each with its fingerprint and submission time,
    without the first one for [h] that leaves at [now] within the window of
    its submission; [None] when there is none. *)
Fixpoint take_job (h : string) (now : Q) (jobs : list (string * Q))
  : option (list (string * Q)) :=
  match jobs with
  | [] => None
  | (h', t0) :: tl =>
      if String.eqb h' h && Qle_bool (now - t0) window then Some tl
      else option_map (cons (h', t0)) (take_job h now tl)
  end.

(** A history in which no job outlives the window: the times do not decrease
    and every call that leaves was submitted at most 1800 s before. *)
Fixpoint bounded_history (self : EdisonClient) (m : gmap string Q)
    (jobs : list (string * Q)) (last : Q) (events : list event) : bool :=
  match events with
  | [] => true
  | e :: tl =>
      Qle_bool last (time_of e)
      && let '(o, m') := step self m e in
         match e, o with
         | Enter _ _ t, Some (Submitted h _) =>
             bounded_history self m' ((h, t) :: jobs) t tl
         | Enter _ _ t, _ => bounded_history self m' jobs t tl
         | Leave h t, _ =>
             match take_job h t jobs with
             | Some jobs' => bounded_history self m' jobs' t tl
             | None => false
             end
         end
  end.

(** What a bounded history keeps true of the map [m], the jobs in flight, the
    time [last] of the last event and the stamps [past] made so far: an entry
    is the latest stamp of its fingerprint; a stamped fingerprint without an
    entry was stamped more than the window ago; a job in flight was stamped
    at its submission; no stamp is later than [last]. *)
Definition history_invariant (m : gmap string Q) (jobs : list (string * Q))
    (last : Q) (past : list (string * Q)) : Prop :=
  (forall h t t', m !! h = Some t -> (h, t') ∈ past -> (t' <= t)%Q)
  /\ (forall h t', m !! h = None -> (h, t') ∈ past -> (window < last - t')%Q)
  /\ (forall h t0, (h, t0) ∈ jobs -> (h, t0) ∈ past)
  /\ (forall h t', (h, t') ∈ past -> (t' <= last)%Q).

End EdisonSpec.

Module RunnerSpec.
Import Runner.

(** The degradation reason that one line of output adds, if any. *)
Definition noted_reason (phase_id line : string) : option string :=
  let upper_line := PyStr.upper line in
  if (PyStr.contains "DEGRADATION" upper_line || PyStr.contains "DEGRADED" upper_line)
     && PyStr.nonempty (_extract_degradation_reason line)
  then Some ("[" ++ phase_id ++ "] " ++ _extract_degradation_reason line)
  else None.

(** The degradation reasons observed in the output of a child. *)
Definition observed_reasons (phase_id : string) (output : list string)
  : list string :=
  omap (noted_reason phase_id) output.

(** The folder once the phases have run: what the children left. *)
Definition folder_after_phases (env : environment) (skip_purge : bool)
    (folder : gmap string content) : gmap string content :=
  p_folder
    (run_phases env PIPELINE_PHASES
       {| p_phases := []; p_degradation_summary := [];
          p_overall_success := true; p_logger := new_logger;
          p_folder := if negb skip_purge
                      then fst (run_environment_purge env folder)
                      else folder |}).

(** A report that gives [get_readiness_score] no score and stops nothing:
    it is not there, or reading it raises an exception of a class that the
    [except] clause lists. *)
Definition passed_over (f : RunnerHelpers.report_file) : Prop :=
  f = RunnerHelpers.Absent
  \/ exists exc, f = RunnerHelpers.Unreadable exc
                 /\ PyExc.caught_by RunnerHelpers.readiness_errors exc = true.

(** The path of the degradation summary, per the specification. *)
Definition degradation_summary_path : string := "outputs/degradation_summary.json".

End RunnerSpec.

Module GateMoreSpec.
Import Json AccuracyGate GateSpec.

(** An item of [claims/claims.json] that the gate reports on: an object that
    passes [is_valid_claim_record] and whose kind is [source_backed]. *)
Definition usable_claim (is_valid_claim_record : json -> bool) (item : json) : bool :=
  is_dict item && is_valid_claim_record item
  && String.eqb (py_str (get "kind" item)) "source_backed".

(** An item counted in [claims_invalid_items]. *)
Definition invalid_claim (is_valid_claim_record : json -> bool) (item : json) : bool :=
  negb (is_dict item) || negb (is_valid_claim_record item).

(** What every entry of an evidence map satisfies: the item is a valid
    object and its key is its own [evidence_id], stripped and not empty. *)
Definition keyed_by_stripped_id (is_valid_evidence_item : json -> bool)
    (by_id : gmap string json) : Prop :=
  forall k item, by_id !! k = Some item ->
    is_dict item = true /\ is_valid_evidence_item item = true
    /\ PyStr.nonempty k = true
    /\ exists e, get "evidence_id" item = JStr e /\ PyStr.strip e = k.

(** The key under which an item of an evidence file is filed, if it is: its
    stripped [evidence_id], for a valid object whose id is a string that is
    not blank. *)
Definition evidence_key (is_valid_evidence_item : json -> bool) (item : json)
  : option string :=
  if is_dict item && is_valid_evidence_item item then
    match get "evidence_id" item with
    | JStr e => if PyStr.nonempty (PyStr.strip e) then Some (PyStr.strip e) else None
    | _ => None
    end
  else None.

(** The items of the evidence files that hold a JSON list, file after file
    in the order of [_iter_evidence_files]. *)
Definition evidence_items (pf : gmap string file) : list json :=
  concat (map (fun path => match pf !! path with
                           | Some (Data (JList payload)) => payload
                           | _ => []
                           end) (_iter_evidence_files pf)).

(** Two configurations that differ at most in their thresholds, those of
    [lax] being no higher than those of [strict]. *)
Definition no_stricter (lax strict : CitationAccuracyGateConfig) : Prop :=
  enable_entity_overlap lax = enable_entity_overlap strict
  /\ enable_numeric_consistency lax = enable_numeric_consistency strict
  /\ max_evidence_items_per_claim lax = max_evidence_items_per_claim strict
  /\ (min_keyword_overlap lax <= min_keyword_overlap strict)%Q
  /\ (min_entity_overlap lax <= min_entity_overlap strict)%Q
  /\ (min_alignment_score lax <= min_alignment_score strict)%Q.

End GateMoreSpec.

Module CitationTextSpec.
Import Regex Bibliography CitationText.

(** The DOI by which a citation is de-duplicated: its DOI in lower case,
    when it has one that is not empty. *)
Definition doi_key (c : Citation) : option string :=
  if given (doi c) then Some (PyStr.lower (default "" (doi c))) else None.

(** The key by which a citation without DOI is de-duplicated. *)
Definition title_key_of (c : Citation) : string :=
  PyStr.take_prefix _TITLE_DEDUP_KEY_LENGTH (PyStr.lower (title c)).

(** The DOI that the loop reads in a stripped entry. *)
Definition entry_doi (entry : string) : option string :=
  option_map (fun g => rstrip g ".,;") (search_group1 re_doi entry).

(** A stripped entry that the loop goes into: not empty, a digit first. *)
Definition numbered (entry : string) : bool :=
  PyStr.nonempty entry && starts_with_digit entry.

(** The citation that a stripped entry gives when nothing of it was seen
    before, if it can be parsed. *)
Definition entry_citation (entry : string) : option Citation :=
  let cleaned := cleaned_of entry in
  if negb (PyStr.nonempty cleaned) then None
  else
    match parts_of cleaned with
    | part0 :: part1 :: rest =>
        let journal_ :=
          match rest with
          | part2 :: _ =>
              Some (PyStr.strip (PyStr.str (before_comma (PyStr.chars part2))))
          | [] => None
          end in
        let title_ := PyStr.strip part1 in
        let title_ :=
          if has_comma title_ && negb (given journal_) then
            if (_MIN_TITLE_LENGTH_FOR_SPLIT <? PyStr.len (before_last_comma title_))%nat
            then PyStr.strip (before_last_comma title_)
            else title_
          else title_ in
        Some {| title := title_;
                authors := match authors_of (PyStr.strip part0) with
                           | [] => ["Unknown"]
                           | _ => authors_of (PyStr.strip part0)
                           end;
                year := match search_group1 re_year entry with
                        | Some g => PyStr.int_of_digits g
                        | None => 0%Z
                        end;
                journal := journal_;
                doi := entry_doi entry;
                url := option_map (fun g => rstrip g ".,") (search_group1 re_url entry);
                abstract := None; relevance_score := None;
                paper_id := None; citations := None |}
    | _ => None
    end.

(** The DOIs seen once an entry with the DOI [d] has been gone into. *)
Definition mark_doi (d : option string) (seen : gset string) : gset string :=
  if given d then seen ∪ {[ PyStr.lower (default "" d) ]} else seen.

(** One iteration of the loop, by cases: the entry is passed over; its DOI
    was seen; it cannot be parsed, or its title was seen and it has no DOI;
    or its citation is added. *)
Definition extract_entry_by_cases (st : extraction) (entry : string) : extraction :=
  let entry := PyStr.strip entry in
  if negb (numbered entry) then st
  else if given (entry_doi entry)
          && bool_decide (PyStr.lower (default "" (entry_doi entry)) ∈ seen_dois st)
  then st
  else
    let skipped :=
      {| found := found st; seen_dois := mark_doi (entry_doi entry) (seen_dois st);
         seen_titles := seen_titles st |} in
    match entry_citation entry with
    | None => skipped
    | Some c =>
        if negb (given (entry_doi entry))
           && bool_decide (title_key_of c ∈ seen_titles st)
        then skipped
        else {| found := (found st ++ [c])%list;
                seen_dois := mark_doi (entry_doi entry) (seen_dois st);
                seen_titles := seen_titles st ∪ {[ title_key_of c ]} |}
    end.

(** The entries that [_extract_citations_from_text] loops over. *)
Definition entries_of (text : string) : list string :=
  match references_end text with
  | None => []
  | Some e => split_entries (PyStr.str (drop e (PyStr.chars text)))
  end.

Definition nothing_seen : extraction :=
  {| found := []; seen_dois := ∅; seen_titles := ∅ |}.

(** What the loop keeps true of its variables: the DOIs of the citations
    found are distinct and all seen; their title keys are seen; a citation
    without DOI has a title key that no citation before it has; every
    citation has a first author with a last word. *)
Definition extraction_invariant (st : extraction) : Prop :=
  NoDup (omap doi_key (found st))
  /\ (forall c k, c ∈ found st -> doi_key c = Some k -> k ∈ seen_dois st)
  /\ (forall c, c ∈ found st -> title_key_of c ∈ seen_titles st)
  /\ (forall i j ci cj,
        i < j -> found st !! i = Some ci -> found st !! j = Some cj ->
        given (doi cj) = false -> title_key_of ci <> title_key_of cj)
  /\ (forall c, c ∈ found st ->
        authors c <> [] /\ exists word, first_author_of c = Returns word).

End CitationTextSpec.


(** The scoring of a claim, in the words of the specification. The three
    extractions ([_tokenize] for the keywords, [_extract_named_entities] for
    the entities, [_extract_numbers] for the numbers) are taken from the
    code; what is compared, the overlaps, the composite score and the
    verdict are written again here, without the functions of [Verifier]. *)
Module VerifierSpec.
Import Json Binary64.









(** The composite score: the keyword overlap, plus 0.20 times the entity
    overlap, capped at 1.0, when the entity overlap is enabled; halved when
    the enabled numeric check fails. *)
Definition composite_score (entity halved : bool) (kw ent : float) : float :=
  let base := if entity then py_min one (add kw (mul lit_0_20 ent)) else kw in
  if halved then mul base lit_0_50 else base.



(** One keyword of three shared, and one entity of three. *)
Definition claim_alpha_beta : json :=
  JDict [ ("claim_id", JStr "c1");
          ("statement", JStr "Alpha Beta");
          ("evidence_ids", JList [JStr "e1"]) ].

Definition evidence_alpha_gamma : list json :=
  [ JDict [ ("evidence_id", JStr "e1"); ("excerpt", JStr "Alpha Gamma") ] ].

(** Entity overlap enabled and the score asked to reach 0.4. *)
Definition cfg_two_fifths : Verifier.CitationAccuracyGateConfig :=
  {| Verifier.enabled := true;
     Verifier.on_failure := AccuracyGate.OnBlock;
     Verifier.min_alignment_score := truediv 4 10;
     Verifier.min_keyword_overlap := truediv 6 100;
     Verifier.enable_entity_overlap := true;
     Verifier.min_entity_overlap := truediv 20 100;
     Verifier.enable_numeric_consistency := false;
     Verifier.max_evidence_items_per_claim := 5 |}.

End VerifierSpec.
(* ===================================================================== *)
(** * Concrete inputs                                                     *)
(* ===================================================================== *)

Module Inputs.
Import Json AccuracyGate GateSpec Edison Runner.

(** Stand-in for the absent schema validators: every record is accepted. *)
Definition accept_all (_ : json) : bool := true.

Definition cfg_pass : CitationAccuracyGateConfig :=
  {| enabled := true; on_failure := OnBlock;
     min_alignment_score := 10 # 100; min_keyword_overlap := 5 # 100;
     enable_entity_overlap := false; min_entity_overlap := 20 # 100;
     enable_numeric_consistency := true; max_evidence_items_per_claim := 5 |}.

Definition cfg_downgrade : CitationAccuracyGateConfig :=
  {| enabled := true; on_failure := OnDowngrade;
     min_alignment_score := 25 # 100; min_keyword_overlap := 15 # 100;
     enable_entity_overlap := false; min_entity_overlap := 20 # 100;
     enable_numeric_consistency := true; max_evidence_items_per_claim := 5 |}.

Definition cfg_block : CitationAccuracyGateConfig :=
  {| enabled := true; on_failure := OnBlock;
     min_alignment_score := 25 # 100; min_keyword_overlap := 15 # 100;
     enable_entity_overlap := false; min_entity_overlap := 20 # 100;
     enable_numeric_consistency := true; max_evidence_items_per_claim := 5 |}.

Definition source_backed (claim_id statement : string) (ids : list string) : json :=
  JDict [ ("schema_version", JStr "1.0"); ("claim_id", JStr claim_id);
          ("kind", JStr "source_backed"); ("statement", JStr statement);
          ("citation_keys", JList [JStr "smith2020"]);
          ("evidence_ids", JList (map JStr ids)) ].

Definition evidence_item (evidence_id excerpt : string) : json :=
  JDict [ ("schema_version", JStr "1.0"); ("evidence_id", JStr evidence_id);
          ("source_id", JStr "source1"); ("kind", JStr "quote");
          ("excerpt", JStr excerpt) ].

Definition project (claims : list json) (items : list json) : world :=
  {| w_folder := {[ "claims/claims.json" := Data (JList claims);
                    "sources/source1/evidence.json" := Data (JList items) ]};
     w_span_calls := [] |}.

(** The three end-to-end scenarios of the specification. *)
Definition aligned_project : world :=
  project [source_backed "c1" "The inflation rate increased in 2020 to 5 percent." ["ev1"]]
          [evidence_item "ev1" "In 2020, the inflation rate increased to 5 percent."].

Definition misaligned_project : world :=
  project [source_backed "c1" "Inflation decreased to 1 percent in 2020." ["ev1"]]
          [evidence_item "ev1" "GDP increased to 5 percent in 2020."].

(** A claim whose only evidence id is not in any evidence file. *)
Definition unresolved_project : world :=
  project [source_backed "c1" "Some statement." ["missing"]] [].

(** A project whose claims file is not valid JSON. *)
Definition corrupt_claims_project : world :=
  {| w_folder := {[ "claims/claims.json" := Corrupt "JSONDecodeError" ]};
     w_span_calls := [] |}.

(** A project whose claims file is malformed JSON of another kind: a
    hundred thousand opening brackets, on which [json.load] raises
    [RecursionError]. *)
Definition deeply_nested_claims_project : world :=
  {| w_folder := {[ "claims/claims.json" := Corrupt "RecursionError" ]};
     w_span_calls := [] |}.

(** A statement with a percentage that looks like a year, and an evidence
    text without any number. *)
Definition percent_statement : string := "Margins grew 2020% overall.".
Definition plain_evidence : string := "Margins grew overall.".

(** A client whose construction succeeded. *)
Definition ready_client : EdisonClient :=
  {| _client := true; _init_error := None |}.

(** A job for "Q" that outlives the window, a call for "R" in between, and
    the completion of the job. *)
Definition long_job_history : list event :=
  [ Enter "Q" None 0;
    Enter "R" None 1860;
    Leave (EdisonSpec.fingerprint "Q" None) 3000 ].

(** A child that prints nothing and touches no file. *)
Definition silent : child :=
  {| lines := []; elapsed := 1; files := fun folder => folder |}.

Definition an_environment (started : string -> launch) : environment :=
  {| clock_run_id := "20250101_000000";
     clock_started_at := "2025-01-01T00:00:00+00:00";
     clock_finished_at := "2025-01-01T00:10:00+00:00";
     clock_total_time := 600;
     folder_exists := true;
     run_environment_purge := fun folder => (folder, None);
     started := started;
     evidence_files := fun _ => ∅;
     report_at := fun _ _ => RunnerHelpers.Absent;
     py_float := fun _ => GateConfig.Refused;
     write_raises := false |}.

(** Every phase exits with 0 but the literature workflow, which exits with 1
    without a word. *)
Definition one_phase_fails : environment :=
  an_environment (fun script_name =>
    if String.eqb script_name "run_literature_workflow.py"
    then Exited silent 1 else Exited silent 0).

(** The script of the critical first phase is not there. *)
Definition intake_script_missing : environment :=
  an_environment (fun script_name =>
    if String.eqb script_name "run_workflow.py"
    then ScriptMissing else Exited silent 0).

(** Every phase exits with 0. *)
Definition all_phases_succeed : environment :=
  an_environment (fun _ => Exited silent 0).

(** Every phase exits with 0, and [readiness_report.json] holds the JSON
    list [[1]]. *)
Definition report_is_a_list : environment :=
  {| clock_run_id := "20250101_000000";
     clock_started_at := "2025-01-01T00:00:00+00:00";
     clock_finished_at := "2025-01-01T00:10:00+00:00";
     clock_total_time := 600;
     folder_exists := true;
     run_environment_purge := fun folder => (folder, None);
     started := fun _ => Exited silent 0;
     evidence_files := fun _ => ∅;
     report_at := fun _ path =>
       if String.eqb path "readiness_report.json"
       then RunnerHelpers.Parsed (GateConfig.VList [GateConfig.VInt 1])
       else RunnerHelpers.Absent;
     py_float := fun _ => GateConfig.Refused;
     write_raises := false |}.

End Inputs.

Module MoreInputs.
Import Json AccuracyGate GateSpec GateConfig Bibliography Inputs.

(** A claim that cites its evidence with a blank before the id, and the
    evidence item filed with a blank after it. *)
Definition padded_claim : json := source_backed "c1" "Rates rose." [" ev1"].

Definition padded_project : world :=
  project [padded_claim] [evidence_item "ev1 " "Rates rose."].

(** Two sources that file an item under the same id, the second with a
    blank after it. *)
Definition twice_filed_project : world :=
  {| w_folder :=
       {[ "claims/claims.json" := Data (JList []);
          "sources/a/evidence.json" := Data (JList [evidence_item "ev1" "First."]);
          "sources/b/evidence.json"
            := Data (JList [evidence_item "ev1 " "Second."]) ]};
     w_span_calls := [] |}.

(** A claims file with a source-backed claim, an entry that is not an
    object, and a claim of another kind. *)
Definition mixed_claims : list json :=
  [ source_backed "c1" "Rates rose." ["ev1"];
    JStr "note";
    JDict [ ("claim_id", JStr "c2"); ("kind", JStr "computed") ] ].

Definition mixed_project : world :=
  project mixed_claims [evidence_item "ev1" "Rates rose."].

(** Stand-ins for the builtins [float] and [int]: numbers are converted,
    anything else is refused. *)
Definition float_of_number (v : value) : conversion pyfloat :=
  match v with
  | VFloat x => Converted x
  | VInt n => Converted (Finite (inject_Z n))
  | VBool b => Converted (Finite (if b then 1 else 0))
  | _ => Refused
  end.

Definition int_of_number (v : value) : conversion Z :=
  match v with
  | VInt n => Converted n
  | VBool b => Converted (if b then 1 else 0)%Z
  | _ => Refused
  end.

(** Two citations with the same first author and year. *)
Definition smith : Citation :=
  {| title := "Dual-class premia"; authors := ["Jane Smith"; "Li Wei"];
     year := 2020; journal := Some "Journal of Finance"; doi := None;
     url := None; abstract := None; relevance_score := None;
     paper_id := None; citations := None |}.

Definition two_smiths : list Citation := [smith; smith].

(** An answer that ends with a References section in the provider's
    format: the same paper twice, under two page ranges and with its DOI in
    two letter cases, and a paper without DOI. *)
Definition sample_answer : string :=
"The premium varies over time (broussard2019 pages 10-12).

References

1. (broussard2019timevariationofdualclass pages 10-12): John Paul Broussard
   and Mika Vaihekoski. Time-variation of dual-class premia. Capital Markets:
   Asset Pricing & Valuation eJournal, Feb 2019. URL: https://doi.org/10.2139/ssrn.3342202,
   doi:10.2139/ssrn.3342202. This article has 3 citations.

2. (broussard2019timevariationofdualclass pages 1-3): John Paul Broussard
   and Mika Vaihekoski. Time-variation of dual-class premia. Capital Markets:
   Asset Pricing & Valuation eJournal, Feb 2019. URL: https://doi.org/10.2139/ssrn.3342202,
   doi:10.2139/SSRN.3342202. This article has 3 citations.

3. (smith2020 pages 1-2): John P. Smith and A. B. Jones. Voting rights and firm value. Journal of Finance, 2020.
".

(** An entry that holds a DOI and nothing that can be parsed, and a later,
    well-formed entry with the same DOI in another letter case. *)
Definition unparsed_entry : string :=
  "1. (a): doi:10.5/x. This article has 12 citations.".
Definition later_entry : string := "2. (b): Foo Bar. Baz qux. doi:10.5/X".

End MoreInputs.

(* ===================================================================== *)
(** * Properties of the citation accuracy gate *)
(* ===================================================================== *)

Module GateFacts.
Import Json PyExc AccuracyGate GateSpec Inputs.

Lemma Qltb_lt (x y : Q) : Qltb x y = true <-> (x < y)%Q.
Proof.
  unfold Qltb. rewrite negb_true_iff. split.
  - intros H. apply Qnot_le_lt. intros Hle.
    apply Qle_bool_iff in Hle. congruence.
  - intros H. destruct (Qle_bool y x) eqn:E; [|reflexivity].
    apply Qle_bool_iff in E. exfalso. apply (Qlt_not_le _ _ H E).
Qed.

Lemma Qltb_ge (x y : Q) : Qltb x y = false <-> (y <= x)%Q.
Proof.
  unfold Qltb. rewrite negb_false_iff. apply Qle_bool_iff.
Qed.

Lemma set_is_empty_spec (s : gset string) : set_is_empty s = true <-> s = ∅.
Proof.
  unfold set_is_empty. rewrite Nat.eqb_eq. rewrite size_empty_iff.
  split; intros H; [by apply leibniz_equiv | by rewrite H].
Qed.

Lemma jaccard_bounds (a b : gset string) : (0 <= _jaccard a b <= 1)%Q.
Proof.
  unfold _jaccard.
  destruct (set_is_empty a && set_is_empty b); [split; discriminate|].
  destruct (set_is_empty a || set_is_empty b); [split; discriminate|].
  destruct (size (a ∪ b) =? 0)%nat eqn:E; [split; discriminate|].
  apply Nat.eqb_neq in E.
  assert (Hle : size (a ∩ b) <= size (a ∪ b)).
  { apply subseteq_size. intros x Hx.
    apply elem_of_intersection in Hx as [Hx _]. by apply elem_of_union_l. }
  unfold Qle; simpl. split.
  - lia.
  - rewrite Z.mul_1_r, Z.mul_1_l. rewrite <- positive_nat_Z.
    rewrite Nat2Pos.id by exact E. lia.
Qed.

Lemma py_min_Qmin (a b : Q) : (py_min a b == Qmin a b)%Q.
Proof.
  unfold py_min. destruct (Qltb b a) eqn:E.
  - apply Qltb_lt in E. symmetry. apply Q.min_r. lra.
  - apply Qltb_ge in E. symmetry. apply Q.min_l. exact E.
Qed.

Lemma py_max_nonneg (x : Q) : (0 <= x)%Q -> (py_max 0 x == x)%Q.
Proof.
  intros H. unfold py_max. destruct (Qltb 0 x) eqn:E; [reflexivity|].
  apply Qltb_ge in E. lra.
Qed.


Lemma keeps_number_year_like (n : string) : keeps_number n = negb (year_like n).
Proof.
  unfold keeps_number, year_like.
  destruct (PyStr.endswith n "%"); [reflexivity|]. simpl.
  destruct (PyStr.isdigit n); [|reflexivity]. simpl.
  destruct (PyStr.len n =? 4)%nat; [|reflexivity]. simpl.
  destruct ((1900 <=? PyStr.int_of_digits n)%Z); [|reflexivity]. simpl.
  destruct ((PyStr.int_of_digits n <=? 2100)%Z); reflexivity.
Qed.

Lemma filter_year_like_elem (nums : gset string) (n : string) :
  n ∈ _filter_year_like_numbers nums <-> n ∈ nums /\ year_like n = false.
Proof.
  unfold _filter_year_like_numbers. rewrite elem_of_filter.
  rewrite keeps_number_year_like, negb_true_iff. tauto.
Qed.

Lemma filter_year_like_spec (text : string) :
  _filter_year_like_numbers (_extract_numbers text) = non_year_numbers text.
Proof.
  apply set_eq. intros n. rewrite filter_year_like_elem.
  unfold non_year_numbers. rewrite elem_of_filter. tauto.
Qed.

(** The code's test (the claim's numbers are not empty and not all among the
    filtered numbers of the evidence) is the specification's. *)
Lemma numeric_ok_spec (cfg : CitationAccuracyGateConfig) (st ev : string) :
  numeric_ok (score_claim cfg st ev) = negb (numeric_check_fails cfg st ev).
Proof.
  unfold score_claim, numeric_check_fails. cbn [numeric_ok].
  destruct (enable_numeric_consistency cfg); [|reflexivity]. cbn [andb].
  rewrite !filter_year_like_spec.
  destruct (set_is_empty (non_year_numbers st)) eqn:E.
  - apply set_is_empty_spec in E. rewrite E. cbn.
    rewrite bool_decide_eq_true_2 by apply empty_subseteq. reflexivity.
  - cbn [negb andb].
    assert (Hiff : non_year_numbers st ⊆ non_year_numbers ev
                   <-> non_year_numbers st ⊆ _extract_numbers ev).
    { unfold non_year_numbers. split; intros Hsub n Hn.
      - specialize (Hsub n Hn). apply elem_of_filter in Hsub. tauto.
      - apply elem_of_filter. split; [|exact (Hsub n Hn)].
        apply elem_of_filter in Hn. tauto. }
    destruct (bool_decide (non_year_numbers st ⊆ non_year_numbers ev)) eqn:B.
    + apply bool_decide_eq_true_1 in B. apply Hiff in B.
      rewrite bool_decide_eq_true_2 by exact B. reflexivity.
    + apply bool_decide_eq_false_1 in B.
      rewrite bool_decide_eq_false_2; [reflexivity|]. intros H. apply B, Hiff, H.
Qed.

(** In the words of the claim: some non-year number of the statement does not
    appear among the numbers of the evidence. *)
Lemma numeric_check_fails_iff (cfg : CitationAccuracyGateConfig) (st ev : string) :
  numeric_check_fails cfg st ev = true <->
  enable_numeric_consistency cfg = true
  /\ exists n, n ∈ _extract_numbers st /\ year_like n = false
               /\ n ∉ _extract_numbers ev.
Proof.
  unfold numeric_check_fails. rewrite andb_true_iff, negb_true_iff.
  rewrite bool_decide_eq_false. split.
  - intros [He Hn]. split; [exact He|].
    destruct (set_choose_or_empty (non_year_numbers st ∖ _extract_numbers ev))
      as [[n Hin]|Hemp].
    + exists n. unfold non_year_numbers in Hin.
      rewrite elem_of_difference, elem_of_filter in Hin. tauto.
    + exfalso. apply Hn. intros n Hin.
      destruct (decide (n ∈ _extract_numbers ev)) as [|Hnot]; [done|].
      exfalso. apply (not_elem_of_empty (C:=gset string) n).
      rewrite <- Hemp. apply elem_of_difference. split; assumption.
  - intros [He (n & H1 & H2 & H3)]. split; [exact He|].
    intros Hsub. apply H3, Hsub. unfold non_year_numbers.
    rewrite elem_of_filter. tauto.
Qed.

Lemma keyword_overlap_spec (cfg : CitationAccuracyGateConfig) (st ev : string) :
  keyword_overlap (score_claim cfg st ev) = spec_keyword_overlap st ev.
Proof. reflexivity. Qed.

Lemma entity_overlap_spec (cfg : CitationAccuracyGateConfig) (st ev : string) :
  entity_overlap (score_claim cfg st ev) = spec_entity_overlap cfg st ev.
Proof. reflexivity. Qed.

Lemma spec_entity_overlap_nonneg (cfg : CitationAccuracyGateConfig) (st ev : string) :
  (0 <= spec_entity_overlap cfg st ev)%Q.
Proof.
  unfold spec_entity_overlap. destruct (enable_entity_overlap cfg).
  - apply jaccard_bounds.
  - discriminate.
Qed.

Lemma alignment_score_spec (cfg : CitationAccuracyGateConfig) (st ev : string) :
  (alignment_score (score_claim cfg st ev) == spec_alignment_score cfg st ev)%Q.
Proof.
  pose proof (numeric_ok_spec cfg st ev) as Hnum.
  pose proof (jaccard_bounds (_tokenize st) (_tokenize ev)) as Hkw.
  pose proof (spec_entity_overlap_nonneg cfg st ev) as Hent.
  unfold score_claim in *. cbn [alignment_score numeric_ok] in *.
  unfold spec_alignment_score.
  fold (spec_keyword_overlap st ev) in *.
  fold (spec_entity_overlap cfg st ev) in *.
  set (kw := spec_keyword_overlap st ev) in *.
  set (ent := spec_entity_overlap cfg st ev) in *.
  set (nok := if enable_numeric_consistency cfg then _ else true) in *.
  rewrite Hnum.
  assert (Hfail : enable_numeric_consistency cfg
                  && negb (negb (numeric_check_fails cfg st ev))
                  = numeric_check_fails cfg st ev).
  { rewrite negb_involutive. unfold numeric_check_fails.
    destruct (enable_numeric_consistency cfg); reflexivity. }
  rewrite Hfail. clear Hfail Hnum nok.
  assert (Hbase : forall base : Q, (0 <= base)%Q ->
            ((if numeric_check_fails cfg st ev
              then py_max 0 (base * (50 # 100)) else base)
             == (if numeric_check_fails cfg st ev then base / 2 else base))%Q).
  { intros base Hb. destruct (numeric_check_fails cfg st ev); [|reflexivity].
    rewrite py_max_nonneg by lra. field. }
  destruct (enable_entity_overlap cfg).
  - rewrite Hbase.
    + destruct (numeric_check_fails cfg st ev).
      * rewrite py_min_Qmin.
        assert ((kw + (20 # 100) * ent == kw + (1 # 5) * ent)%Q) as -> by lra.
        reflexivity.
      * rewrite py_min_Qmin.
        assert ((kw + (20 # 100) * ent == kw + (1 # 5) * ent)%Q) as -> by lra.
        reflexivity.
    + rewrite py_min_Qmin. apply Q.min_glb; lra.
  - apply Hbase. lra.
Qed.


Lemma fail_if_fst (cond : bool) (reason : string) (st : bool * list string) :
  fst (fail_if cond reason st) = fst st && negb cond.
Proof. unfold fail_if. destruct cond, st as [[] ?]; reflexivity. Qed.

Lemma claim_ok_spec (cfg : CitationAccuracyGateConfig) (st ev : string) :
  claim_ok (score_claim cfg st ev) = false <-> spec_failed cfg st ev.
Proof.
  pose proof (alignment_score_spec cfg st ev) as Hal.
  pose proof (numeric_ok_spec cfg st ev) as Hnum.
  unfold spec_failed.
  unfold score_claim in *. cbn [claim_ok alignment_score numeric_ok] in *.
  fold (spec_keyword_overlap st ev) in *.
  fold (spec_entity_overlap cfg st ev) in *.
  set (nok := if enable_numeric_consistency cfg then _ else true) in *.
  set (al := if enable_numeric_consistency cfg && negb nok then _ else _) in *.
  rewrite !fail_if_fst. cbn [fst].
  rewrite <- Hal. rewrite <- !Qltb_lt. rewrite Hnum.
  assert (Hfail : enable_numeric_consistency cfg
                  && negb (negb (numeric_check_fails cfg st ev))
                  = numeric_check_fails cfg st ev).
  { rewrite negb_involutive. unfold numeric_check_fails.
    destruct (enable_numeric_consistency cfg); reflexivity. }
  rewrite Hfail.
  destruct (Qltb (spec_keyword_overlap st ev) (min_keyword_overlap cfg)),
           (enable_entity_overlap cfg),
           (Qltb (spec_entity_overlap cfg st ev) (min_entity_overlap cfg)),
           (numeric_check_fails cfg st ev),
           (Qltb al (min_alignment_score cfg)); cbn; intuition congruence.
Qed.


(** *** The loop over the claims *)

Lemma resolve_missing (emap : gmap string json) (ids : list string) :
  snd (resolve_evidence emap ids)
  = existsb (fun ev_id => bool_decide (emap !! ev_id = None)) ids.
Proof.
  induction ids as [|i tl IH]; [reflexivity|]. cbn [resolve_evidence existsb].
  destruct (resolve_evidence emap tl) as [items missing]. cbn [snd] in IH.
  destruct (emap !! i) eqn:E; cbn [snd].
  - rewrite bool_decide_eq_false_2 by congruence. exact IH.
  - rewrite bool_decide_eq_true_2 by reflexivity. reflexivity.
Qed.

Lemma resolve_length (emap : gmap string json) (ids : list string) :
  snd (resolve_evidence emap ids) = false ->
  length (fst (resolve_evidence emap ids)) = length ids.
Proof.
  induction ids as [|i tl IH]; [reflexivity|]. cbn [resolve_evidence].
  destruct (resolve_evidence emap tl) as [items missing]. cbn [fst snd] in *.
  destruct (emap !! i); cbn [fst snd]; intros H; [|discriminate].
  cbn [length]. f_equal. apply IH, H.
Qed.

Lemma unresolved_iff (emap : gmap string json) (claim : json) :
  unresolved emap claim = true <->
  exists ev_id, ev_id ∈ string_list_field "evidence_ids" claim
                /\ emap !! ev_id = None.
Proof.
  unfold unresolved. rewrite existsb_exists. split.
  - intros (x & Hin & Hx). exists x. split; [by apply list_elem_of_In|].
    by apply bool_decide_eq_true_1 in Hx.
  - intros (x & Hin & Hx). exists x. split; [by apply list_elem_of_In|].
    by apply bool_decide_eq_true_2.
Qed.

(** One iteration appends the report of the claim and moves one counter. *)
Lemma check_claim_report (cfg : CitationAccuracyGateConfig)
    (emap : gmap string json) (acc : tally) (claim : json) :
  check_claim cfg emap acc claim =
  let rep := claim_report cfg emap claim in
  {| t_reports := t_reports acc ++ [rep];
     t_checked := t_checked acc + (if r_checked rep then 1 else 0);
     t_failed := t_failed acc + (if failed_report rep then 1 else 0);
     t_skipped_missing :=
       t_skipped_missing acc + (if r_checked rep then 0 else 1) |}.
Proof.
  unfold check_claim, claim_report, lacks_ids, unresolved.
  destruct (string_list_field "evidence_ids" claim) as [|i tl] eqn:Hids.
  - cbn. unfold skip. f_equal; lia.
  - rewrite <- resolve_missing.
    pose proof (resolve_length emap (i :: tl)) as Hlen.
    destruct (resolve_evidence emap (i :: tl)) as [items missing].
    cbn [fst snd] in *. destruct missing.
    + cbn. unfold skip. f_equal; lia.
    + specialize (Hlen eq_refl). destruct items as [|it items]; [discriminate|].
      cbn [orb]. cbv zeta. unfold failed_report, verify_claim. cbn [r_checked r_ok].
      destruct (claim_ok _); cbn; f_equal; lia.
Qed.

Lemma fold_check_claim (cfg : CitationAccuracyGateConfig)
    (emap : gmap string json) (claims : list json) (acc : tally) :
  foldl (check_claim cfg emap) acc claims =
  let reps := map (claim_report cfg emap) claims in
  {| t_reports := t_reports acc ++ reps;
     t_checked := t_checked acc + count_reports r_checked reps;
     t_failed := t_failed acc + count_reports failed_report reps;
     t_skipped_missing :=
       t_skipped_missing acc + count_reports (fun r => negb (r_checked r)) reps |}.
Proof.
  revert acc. induction claims as [|c tl IH]; intros acc.
  - cbn. destruct acc. cbn. f_equal; [by rewrite app_nil_r|lia..].
  - cbn [foldl]. rewrite IH, check_claim_report. cbn.
    rewrite <- app_assoc. cbn.
    destruct (r_checked (claim_report cfg emap c)); cbn; f_equal; lia.
Qed.

Lemma count_reports_zero (f : report -> bool) (l : list report) :
  count_reports f l = 0 <-> forall r, r ∈ l -> f r = false.
Proof.
  induction l as [|x tl IH]; cbn.
  - split; [intros _ r Hr; by apply elem_of_nil in Hr|reflexivity].
  - split.
    + intros H r Hr. apply elem_of_cons in Hr as [->|Hr].
      * destruct (f x); [discriminate|reflexivity].
      * apply IH; [|exact Hr]. destruct (f x); [discriminate|exact H].
    + intros H. rewrite (H x) by apply list_elem_of_here.
      apply IH. intros r Hr. apply H. by apply list_elem_of_further.
Qed.

Lemma count_reports_all (f : report -> bool) (l : list report) :
  (forall r, r ∈ l -> f r = true) -> count_reports f l = length l.
Proof.
  induction l as [|x tl IH]; cbn; [reflexivity|]. intros H.
  rewrite (H x) by apply list_elem_of_here. f_equal.
  apply IH. intros r Hr. apply H. by apply list_elem_of_further.
Qed.


(** *** Loops and loaders that can raise *)

Lemma foldl_raised {S X : Type} (body : S -> X -> raising S) (exc : string)
    (l : list X) :
  foldl (fun acc x => bind acc (fun s => body s x)) (inl exc) l = inl exc.
Proof. induction l as [|x tl IH]; [reflexivity|exact IH]. Qed.

Lemma for_each_cons {S X : Type} (x : X) (l : list X) (s : S)
    (body : S -> X -> raising S) :
  for_each (x :: l) s body = bind (body s x) (fun s' => for_each l s' body).
Proof.
  unfold for_each. cbn [foldl bind].
  destruct (body s x) as [exc|s']; [apply foldl_raised|reflexivity].
Qed.

(** A loop that returns kept every invariant that its body keeps. *)
Lemma for_each_invariant {S X : Type} (P : S -> Prop)
    (body : S -> X -> raising S) (l : list X) (s s' : S) :
  (forall s x s', P s -> body s x = inr s' -> P s') ->
  P s -> for_each l s body = inr s' -> P s'.
Proof.
  intros Hstep. revert s. induction l as [|x tl IH]; intros s Hs Hl.
  - injection Hl as <-. exact Hs.
  - rewrite for_each_cons in Hl. destruct (body s x) as [exc|s1] eqn:E;
      [discriminate|]. cbn [bind] in Hl. exact (IH s1 (Hstep s x s1 Hs E) Hl).
Qed.

Lemma path_exists_lookup (pf : gmap string file) (p : string) (f : file) :
  pf !! p = Some f -> path_exists pf p = true.
Proof.
  intros H. unfold path_exists.
  rewrite bool_decide_eq_true_2; [reflexivity|]. rewrite H. eauto.
Qed.

Lemma loads_false (pf : gmap string file) (path : string) :
  loads pf path = false <->
  exists err, pf !! path = Some (Corrupt err) /\ caught_by load_errors err = false.
Proof.
  unfold loads. split.
  - destruct (pf !! path) as [[|err|]|]; try discriminate. eauto.
  - intros (err & -> & H). exact H.
Qed.

(** [_load_json_list] raises exactly the exception of a file on which
    [open] or [json.load] raises one that the [except] clause does not
    list; otherwise it returns. *)
Lemma load_json_list_outcome (pf : gmap string file) (path : string) :
  match _load_json_list pf path with
  | inl exc => pf !! path = Some (Corrupt exc) /\ caught_by load_errors exc = false
  | inr (payload, err) =>
      loads pf path = true
      /\ match pf !! path with
         | Some (Data (JList l)) => payload = l /\ err = None
         | Some (Data _) => payload = [] /\ err = Some "not_a_list"
         | Some (Corrupt e) => payload = [] /\ err = Some e
         | Some Dir => payload = [] /\ err = Some "IsADirectoryError"
         | None =>
             payload = []
             /\ err = if path_exists pf path then Some "IsADirectoryError"
                      else None
         end
  end.
Proof.
  unfold _load_json_list, loads.
  destruct (pf !! path) as [[|err|payload]|] eqn:Hp.
  - rewrite (path_exists_lookup _ _ _ Hp). cbn. auto.
  - rewrite (path_exists_lookup _ _ _ Hp). cbn [negb].
    destruct (caught_by load_errors err) eqn:E; auto.
  - rewrite (path_exists_lookup _ _ _ Hp). cbn [negb].
    destruct payload; auto.
  - destruct (path_exists pf path); cbn; auto.
Qed.

Lemma load_json_list_raises (pf : gmap string file) (path exc : string) :
  _load_json_list pf path = inl exc <->
  pf !! path = Some (Corrupt exc) /\ caught_by load_errors exc = false.
Proof.
  pose proof (load_json_list_outcome pf path) as H. split.
  - intros E. rewrite E in H. exact H.
  - intros [Hp Hc]. destruct (_load_json_list pf path) as [e|[payload err]].
    + destruct H as [H _]. congruence.
    + destruct H as [H _]. unfold loads in H. rewrite Hp in H. congruence.
Qed.

Lemma first_uncaught_cons (pf : gmap string file) (path : string)
    (paths : list string) :
  first_uncaught pf (path :: paths)
  = if loads pf path then first_uncaught pf paths
    else match pf !! path with Some (Corrupt err) => Some err | _ => None end.
Proof.
  unfold first_uncaught. rewrite filter_cons.
  destruct (loads pf path); [rewrite decide_False by discriminate|
                             rewrite decide_True by reflexivity]; reflexivity.
Qed.

(** *** The gate as a whole *)

Section Gate.
Variable is_valid_claim_record : json -> bool.
Variable is_valid_evidence_item : json -> bool.

Abbreviation gate := (check_citation_accuracy_gate is_valid_claim_record
                                               is_valid_evidence_item).

Lemma load_claims_outcome (pf : gmap string file) :
  match _load_source_backed_claims is_valid_claim_record pf with
  | inl exc => loads pf claims_path = false
               /\ pf !! claims_path = Some (Corrupt exc)
  | inr (claims, invalid, present, err) =>
      loads pf claims_path = true
      /\ present = path_exists pf claims_path
      /\ exists payload,
           _load_json_list pf claims_path = inr (payload, err)
           /\ (claims, invalid)
              = foldl (add_claim_item is_valid_claim_record) ([], 0) payload
  end.
Proof.
  unfold _load_source_backed_claims.
  pose proof (load_json_list_outcome pf claims_path) as H.
  destruct (_load_json_list pf claims_path) as [exc|[payload err]]; cbn [bind].
  - destruct H as [Hp Hc]. split; [|exact Hp]. apply loads_false. eauto.
  - destruct H as [Hl _].
    destruct (foldl (add_claim_item is_valid_claim_record) ([], 0) payload)
      as [claims invalid] eqn:E.
    split; [exact Hl|]. split; [reflexivity|]. exists payload. auto.
Qed.

Lemma add_evidence_file_raises (pf : gmap string file)
    (st : gmap string json * nat * nat) (path : string) :
  match add_evidence_file is_valid_evidence_item pf st path with
  | inl exc => loads pf path = false /\ pf !! path = Some (Corrupt exc)
  | inr _ => loads pf path = true
  end.
Proof.
  destruct st as [[by_id invalid] scanned]. unfold add_evidence_file.
  pose proof (load_json_list_outcome pf path) as H.
  destruct (path_is_file pf path) eqn:Hf; cbn [negb].
  - destruct (_load_json_list pf path) as [exc|[payload err]]; cbn [bind].
    + destruct H as [Hp Hc]. split; [|exact Hp]. apply loads_false. eauto.
    + destruct err; [exact (proj1 H)|].
      destruct (foldl _ _ payload). exact (proj1 H).
  - unfold path_is_file in Hf. unfold loads.
    destruct (pf !! path) as [[| |]|]; try discriminate; reflexivity.
Qed.

Lemma load_evidence_raises (pf : gmap string file) (paths : list string)
    (st : gmap string json * nat * nat) :
  match for_each paths st (add_evidence_file is_valid_evidence_item pf) with
  | inl exc => first_uncaught pf paths = Some exc
  | inr _ => first_uncaught pf paths = None
  end.
Proof.
  revert st. induction paths as [|p tl IH]; intros st; [reflexivity|].
  rewrite for_each_cons, first_uncaught_cons.
  pose proof (add_evidence_file_raises pf st p) as H.
  destruct (add_evidence_file is_valid_evidence_item pf st p) as [exc|st'];
    cbn [bind].
  - destruct H as [-> ->]. reflexivity.
  - rewrite H. apply IH.
Qed.

(** The gate raises exactly what [gate_raises] names. *)
Lemma loaders_outcome (pf : gmap string file) :
  match _load_source_backed_claims is_valid_claim_record pf,
        _load_evidence_map is_valid_evidence_item pf with
  | inl exc, _ => gate_raises pf = Some exc
  | inr _, inl exc => gate_raises pf = Some exc
  | inr _, inr _ => gate_raises pf = None
  end.
Proof.
  unfold gate_raises. rewrite first_uncaught_cons.
  pose proof (load_claims_outcome pf) as Hc.
  pose proof (load_evidence_raises pf (_iter_evidence_files pf) (∅, 0, 0)) as He.
  fold (_load_evidence_map is_valid_evidence_item pf) in He.
  destruct (_load_source_backed_claims is_valid_claim_record pf)
    as [exc|[[[claims invalid] present] err]].
  - destruct Hc as [-> ->]. reflexivity.
  - destruct Hc as [-> _].
    destruct (_load_evidence_map is_valid_evidence_item pf) as [exc|?]; exact He.
Qed.

Lemma gate_disabled (config : option CitationAccuracyGateConfig) (w : world) :
  enabled (effective config) = false ->
  gate config w =
  (inr {| res_ok := true; res_enabled := false; res_action := Disabled;
          res_reports := []; checked_claims_total := 0; failed_claims_total := 0;
          skipped_missing_evidence_total := 0;
          claims_file_present := path_exists (w_folder w) claims_path;
          claims_read_error := None; claims_invalid_items := 0;
          evidence_invalid_items := 0; evidence_files_scanned := 0 |},
   {| w_folder := w_folder w;
      w_span_calls :=
        w_span_calls w ++
        [[ ("gate.name", AStr "citation_accuracy");
           ("gate.enabled", ABool false);
           ("gate.ok", ABool true);
           ("gate.action", AStr "disabled") ]] |}).
Proof.
  intros He. unfold check_citation_accuracy_gate.
  fold (effective config). rewrite He. reflexivity.
Qed.

(** An enabled evaluation: it raises what a loader lets through and leaves
    the world as it was, or it returns the result built from the reports of
    the loaded claims and hands the span one dictionary. *)
Lemma gate_enabled (config : option CitationAccuracyGateConfig) (w : world) :
  enabled (effective config) = true ->
  let cfg := effective config in
  let pf := w_folder w in
  let reps := map (claim_report cfg (loaded_evidence is_valid_evidence_item pf))
                  (loaded_claims is_valid_claim_record pf) in
  let failed := count_reports failed_report reps in
  match gate_raises pf with
  | Some exc => gate config w = (inl exc, w)
  | None =>
      exists claims_invalid present err evidence_invalid scanned,
        _load_source_backed_claims is_valid_claim_record pf
        = inr (loaded_claims is_valid_claim_record pf, claims_invalid, present, err)
        /\ _load_evidence_map is_valid_evidence_item pf
           = inr (loaded_evidence is_valid_evidence_item pf, evidence_invalid,
                  scanned)
        /\ gate config w =
           (inr {| res_ok := snd (verdict cfg failed);
                   res_enabled := true;
                   res_action := fst (verdict cfg failed);
                   res_reports := reps;
                   checked_claims_total := count_reports r_checked reps;
                   failed_claims_total := failed;
                   skipped_missing_evidence_total :=
                     count_reports (fun r => negb (r_checked r)) reps;
                   claims_file_present := present;
                   claims_read_error := err;
                   claims_invalid_items := claims_invalid;
                   evidence_invalid_items := evidence_invalid;
                   evidence_files_scanned := scanned |},
            {| w_folder := w_folder w;
               w_span_calls := w_span_calls w ++ [enabled_attributes cfg reps] |})
  end.
Proof.
  intros He. cbv zeta. unfold check_citation_accuracy_gate.
  fold (effective config). rewrite He.
  unfold loaded_claims, loaded_evidence.
  cbn [negb]. unfold mbind, M_bind, validated_project_folder.
  pose proof (loaders_outcome (w_folder w)) as Hout.
  destruct (_load_source_backed_claims is_valid_claim_record (w_folder w))
    as [exc|[[[claims invalid] present] err]].
  { rewrite Hout. destruct w. reflexivity. }
  destruct (_load_evidence_map is_valid_evidence_item (w_folder w))
    as [exc|[[emap einvalid] scanned]].
  { rewrite Hout. destruct w. reflexivity. }
  rewrite Hout. exists invalid, present, err, einvalid, scanned.
  split; [reflexivity|]. split; [reflexivity|].
  rewrite fold_check_claim. unfold enabled_attributes, verdict.
  cbn [t_reports t_checked t_failed t_skipped_missing empty_tally app Nat.add].
  destruct (count_reports failed_report
              (map (claim_report (effective config) emap) claims)) as [|n];
    [|destruct (on_failure (effective config))]; reflexivity.
Qed.

(** What an evaluation that returns has returned. *)
Lemma gate_returns (config : option CitationAccuracyGateConfig) (w : world)
    (r : gate_result) :
  enabled (effective config) = true ->
  fst (gate config w) = inr r ->
  let cfg := effective config in
  let pf := w_folder w in
  let reps := map (claim_report cfg (loaded_evidence is_valid_evidence_item pf))
                  (loaded_claims is_valid_claim_record pf) in
  let failed := count_reports failed_report reps in
  gate_raises pf = None
  /\ exists claims_invalid present err evidence_invalid scanned,
       _load_source_backed_claims is_valid_claim_record pf
       = inr (loaded_claims is_valid_claim_record pf, claims_invalid, present, err)
       /\ _load_evidence_map is_valid_evidence_item pf
          = inr (loaded_evidence is_valid_evidence_item pf, evidence_invalid,
                 scanned)
       /\ r = {| res_ok := snd (verdict cfg failed);
                 res_enabled := true;
                 res_action := fst (verdict cfg failed);
                 res_reports := reps;
                 checked_claims_total := count_reports r_checked reps;
                 failed_claims_total := failed;
                 skipped_missing_evidence_total :=
                   count_reports (fun r => negb (r_checked r)) reps;
                 claims_file_present := present;
                 claims_read_error := err;
                 claims_invalid_items := claims_invalid;
                 evidence_invalid_items := evidence_invalid;
                 evidence_files_scanned := scanned |}
       /\ snd (gate config w)
          = {| w_folder := w_folder w;
               w_span_calls := w_span_calls w ++ [enabled_attributes cfg reps] |}.
Proof.
  intros He Hr. cbv zeta.
  pose proof (gate_enabled config w He) as H. cbv zeta in H.
  destruct (gate_raises (w_folder w)) as [exc|].
  - rewrite H in Hr. discriminate.
  - split; [reflexivity|].
    destruct H as (ci & present & err & ei & scanned & Hc & Hev & Hg).
    exists ci, present, err, ei, scanned.
    rewrite Hg in Hr |- *. cbn [fst snd] in *. injection Hr as <-. auto.
Qed.


(** C3. Disabled gives [disabled]; enabled gives [pass] exactly when no
    checked claim failed ([failed_claims_total = 0], in particular when no
    source-backed claim is loaded), [block] exactly when some checked claim
    failed and [on_failure = block], [downgrade] exactly when some checked
    claim failed and [on_failure = downgrade]; and [ok] is true exactly for
    [pass], [downgrade] and [disabled]. The disabled gate always returns; an
    enabled one returns unless a loader lets an exception through. *)
Theorem C3_gate_action (config : option CitationAccuracyGateConfig) (w : world) :
  let cfg := effective config in
  match fst (gate config w) with
  | inr r =>
      (enabled cfg = false -> res_action r = Disabled)
      /\ (enabled cfg = true ->
            failed_claims_total r = count_reports failed_report (res_reports r)
            /\ (res_action r = Pass <-> failed_claims_total r = 0)
            /\ (res_action r = Block <->
                0 < failed_claims_total r /\ on_failure cfg = OnBlock)
            /\ (res_action r = Downgrade <->
                0 < failed_claims_total r /\ on_failure cfg = OnDowngrade)
            /\ (loaded_claims is_valid_claim_record (w_folder w) = [] ->
                res_action r = Pass))
      /\ (res_ok r = true <->
          res_action r = Pass \/ res_action r = Downgrade
          \/ res_action r = Disabled)
  | inl exc => enabled cfg = true /\ gate_raises (w_folder w) = Some exc
  end.
Proof.
  cbv zeta. destruct (enabled (effective config)) eqn:He.
  - pose proof (gate_enabled config w He) as H. cbv zeta in H.
    destruct (gate_raises (w_folder w)) as [exc|].
    { rewrite H. cbn [fst]. auto. }
    destruct H as (ci & present & err & ei & scanned & _ & _ & ->).
    cbn [fst res_action res_ok failed_claims_total res_reports].
    split; [discriminate|]. split.
    + intros _. split; [reflexivity|].
      unfold verdict.
      set (n := count_reports failed_report _).
      assert (Hn0 : loaded_claims is_valid_claim_record (w_folder w) = [] -> n = 0).
      { intros H. subst n. rewrite H. reflexivity. }
      destruct n as [|n]; cbn [Nat.ltb Nat.leb fst].
      * repeat split; try discriminate; try reflexivity; try lia;
          intros [H _]; lia.
      * destruct (on_failure (effective config)); cbn [fst];
          repeat split; try discriminate; try reflexivity; try lia;
          try (intros [_ H]; discriminate);
          try (intros H; specialize (Hn0 H); discriminate).
    + unfold verdict. destruct (0 <? _)%nat;
        [destruct (on_failure (effective config))|]; cbn [fst snd];
        intuition discriminate.
  - rewrite (gate_disabled config w He). cbn [fst res_action res_ok].
    split; [reflexivity|]. split; [discriminate|]. intuition congruence.
Qed.

(** The reports and the totals of an enabled evaluation that returns. *)
Lemma skipped_reports_of_a_result
    (config : option CitationAccuracyGateConfig) (w : world) (r : gate_result) :
  enabled (effective config) = true ->
  fst (gate config w) = inr r ->
  let cfg := effective config in
  let claims := loaded_claims is_valid_claim_record (w_folder w) in
  let emap := loaded_evidence is_valid_evidence_item (w_folder w) in
  res_reports r = map (claim_report cfg emap) claims
  /\ skipped_missing_evidence_total r
     = count_reports (fun rep => negb (r_checked rep)) (res_reports r)
  /\ failed_claims_total r = count_reports failed_report (res_reports r)
  /\ (forall claim,
        (exists ev_id, ev_id ∈ string_list_field "evidence_ids" claim
                       /\ emap !! ev_id = None) ->
        let rep := claim_report cfg emap claim in
        r_checked rep = false /\ r_ok rep = true
        /\ r_reasons rep = ["evidence_ids_unresolved"]
        /\ failed_report rep = false)
  /\ (forallb (unresolved emap) claims = true ->
        skipped_missing_evidence_total r = length claims
        /\ checked_claims_total r = 0
        /\ failed_claims_total r = 0
        /\ res_action r = Pass /\ res_ok r = true).
Proof.
  intros He Hr. cbv zeta.
  destruct (gate_returns config w r He Hr)
    as (_ & ci & present & err & ei & scanned & _ & _ & -> & _).
  cbn [fst res_reports skipped_missing_evidence_total failed_claims_total
       checked_claims_total res_action res_ok].
  assert (Hrep : forall claim,
            unresolved (loaded_evidence is_valid_evidence_item (w_folder w)) claim
            = true ->
            claim_report (effective config)
              (loaded_evidence is_valid_evidence_item (w_folder w)) claim
            = skipped_report claim (string_list_field "evidence_ids" claim)
                (fst (resolve_evidence
                        (loaded_evidence is_valid_evidence_item (w_folder w))
                        (string_list_field "evidence_ids" claim)))
                "evidence_ids_unresolved").
  { intros claim Hu. unfold claim_report. rewrite Hu.
    unfold lacks_ids. unfold unresolved in Hu.
    destruct (string_list_field "evidence_ids" claim); [discriminate|reflexivity]. }
  split; [reflexivity|]. split; [reflexivity|]. split; [reflexivity|]. split.
  - intros claim Hex. apply unresolved_iff in Hex. rewrite (Hrep claim Hex).
    repeat split.
  - intros Hall.
    set (claims := loaded_claims is_valid_claim_record (w_folder w)) in *.
    set (emap := loaded_evidence is_valid_evidence_item (w_folder w)) in *.
    assert (Hun : forall rep, rep ∈ map (claim_report (effective config) emap) claims ->
                  r_checked rep = false /\ r_ok rep = true).
    { intros rep Hin. apply list_elem_of_In, in_map_iff in Hin as (c & <- & Hc).
      rewrite forallb_forall in Hall. rewrite (Hrep c (Hall c Hc)). split; reflexivity. }
    assert (Hf : count_reports failed_report
                   (map (claim_report (effective config) emap) claims) = 0).
    { apply count_reports_zero. intros rep Hin. unfold failed_report.
      destruct (Hun rep Hin) as [-> _]. reflexivity. }
    assert (Hc : count_reports r_checked
                   (map (claim_report (effective config) emap) claims) = 0).
    { apply count_reports_zero. intros rep Hin. apply (Hun rep Hin). }
    rewrite Hf, Hc. unfold verdict. cbn.
    repeat split; try reflexivity.
    rewrite count_reports_all.
    + apply length_map.
    + intros rep Hin. destruct (Hun rep Hin) as [-> _]. reflexivity.
Qed.

(** C9. In an enabled run, a source-backed claim with an evidence id that does
    not resolve gets a report with [checked=false] and [ok=true]; the skipped
    total counts the unchecked reports and the failed total only checked
    ones; claims of that kind alone leave [action=pass]. The run returns
    these reports unless a loader lets an exception through. *)
Theorem C9_unresolved_evidence_is_skipped
    (config : option CitationAccuracyGateConfig) (w : world) :
  enabled (effective config) = true ->
  let cfg := effective config in
  let claims := loaded_claims is_valid_claim_record (w_folder w) in
  let emap := loaded_evidence is_valid_evidence_item (w_folder w) in
  match fst (gate config w) with
  | inr r =>
      res_reports r = map (claim_report cfg emap) claims
      /\ skipped_missing_evidence_total r
         = count_reports (fun rep => negb (r_checked rep)) (res_reports r)
      /\ failed_claims_total r = count_reports failed_report (res_reports r)
      /\ (forall claim,
            (exists ev_id, ev_id ∈ string_list_field "evidence_ids" claim
                           /\ emap !! ev_id = None) ->
            let rep := claim_report cfg emap claim in
            r_checked rep = false /\ r_ok rep = true
            /\ r_reasons rep = ["evidence_ids_unresolved"]
            /\ failed_report rep = false)
      /\ (forallb (unresolved emap) claims = true ->
            skipped_missing_evidence_total r = length claims
            /\ checked_claims_total r = 0
            /\ failed_claims_total r = 0
            /\ res_action r = Pass /\ res_ok r = true)
  | inl exc => gate_raises (w_folder w) = Some exc
  end.
Proof.
  intros He. cbv zeta.
  destruct (fst (gate config w)) as [exc|r] eqn:Hr.
  - pose proof (gate_enabled config w He) as H. cbv zeta in H.
    destruct (gate_raises (w_folder w)) as [exc'|].
    + rewrite H in Hr. cbn [fst] in Hr. congruence.
    + destruct H as (? & ? & ? & ? & ? & _ & _ & H).
      rewrite H in Hr. discriminate.
  - exact (skipped_reports_of_a_result config w r He Hr).
Qed.

Lemma loaded_unusable_claims (pf : gmap string file) :
  holds_claim_list pf = false ->
  loaded_claims is_valid_claim_record pf = [].
Proof.
  unfold holds_claim_list, loaded_claims. intros H.
  pose proof (load_claims_outcome pf) as Hc.
  destruct (_load_source_backed_claims is_valid_claim_record pf)
    as [exc|[[[claims invalid] present] err]]; [reflexivity|].
  destruct Hc as (_ & _ & payload & Hl & Hfold).
  pose proof (load_json_list_outcome pf claims_path) as Ho. rewrite Hl in Ho.
  destruct Ho as [_ Ho].
  assert (payload = []) as ->.
  { destruct (pf !! claims_path) as [[| |[]]|]; try (destruct Ho; assumption).
    discriminate. }
  cbn in Hfold. congruence.
Qed.

(** C10. When [claims/claims.json] is missing, is a directory, cannot be
    read or decoded with an exception that [_load_json_list] catches, or
    does not hold a JSON list, and no evidence file raises another
    exception either, the enabled gate returns [action=pass], [ok=true] and
    no checked claim; the problem shows only in [claims_read_error] and
    [claims_file_present]. An exception that the loader does not catch goes
    through the gate, which then sets no span attribute. *)
Theorem C10_unusable_claims_file_passes
    (config : option CitationAccuracyGateConfig) (w : world) :
  enabled (effective config) = true ->
  holds_claim_list (w_folder w) = false ->
  let pf := w_folder w in
  (gate_raises pf = None ->
   exists r,
     fst (gate config w) = inr r
     /\ res_action r = Pass /\ res_ok r = true /\ res_enabled r = true
     /\ res_reports r = [] /\ checked_claims_total r = 0
     /\ failed_claims_total r = 0 /\ skipped_missing_evidence_total r = 0
     /\ claims_invalid_items r = 0
     /\ claims_file_present r = path_exists pf claims_path
     /\ (path_exists pf claims_path = false -> claims_read_error r = None)
     /\ (forall err, pf !! claims_path = Some (Corrupt err) ->
           claims_read_error r = Some err /\ claims_file_present r = true
           /\ caught_by load_errors err = true)
     /\ (forall payload, pf !! claims_path = Some (Data payload) ->
           claims_read_error r = Some "not_a_list"
           /\ claims_file_present r = true))
  /\ (forall exc, gate_raises pf = Some exc -> gate config w = (inl exc, w))
  /\ (forall exc, pf !! claims_path = Some (Corrupt exc) ->
        caught_by load_errors exc = false -> gate_raises pf = Some exc).
Proof.
  intros He Hbad. cbv zeta.
  pose proof (gate_enabled config w He) as H. cbv zeta in H.
  split; [|split].
  - intros Hnone. rewrite Hnone in H.
    destruct H as (ci & present & err & ei & scanned & Hc & _ & Hg).
    rewrite (loaded_unusable_claims _ Hbad) in Hc, Hg.
    eexists. rewrite Hg. split; [reflexivity|].
    cbn [map count_reports res_action res_ok res_enabled res_reports
         checked_claims_total failed_claims_total skipped_missing_evidence_total
         claims_invalid_items claims_file_present claims_read_error].
    unfold verdict. cbn [Nat.ltb Nat.leb fst snd].
    pose proof (load_claims_outcome (w_folder w)) as Ho. rewrite Hc in Ho.
    destruct Ho as (Hl & -> & payload & Hj & Hfold).
    pose proof (load_json_list_outcome (w_folder w) claims_path) as Hjo.
    rewrite Hj in Hjo. destruct Hjo as [_ Hjo].
    assert (payload = [] /\ ci = 0) as [-> ->].
    { unfold holds_claim_list in Hbad.
      destruct (w_folder w !! claims_path) as [[| |[]]|];
        try discriminate; destruct Hjo as [-> _]; cbn in Hfold;
        split; congruence. }
    do 9 (split; [reflexivity|]). split; [|split].
    + intros Hne.
      destruct (w_folder w !! claims_path) as [f|] eqn:Hf.
      * rewrite (path_exists_lookup _ _ _ Hf) in Hne. discriminate.
      * rewrite Hne in Hjo. exact (proj2 Hjo).
    + intros e Hf. rewrite Hf in Hjo. unfold loads in Hl. rewrite Hf in Hl.
      split; [exact (proj2 Hjo)|]. split; [|exact Hl].
      exact (path_exists_lookup _ _ _ Hf).
    + intros p Hf. unfold holds_claim_list in Hbad. rewrite Hf in Hbad, Hjo.
      split; [|exact (path_exists_lookup _ _ _ Hf)].
      destruct p; try discriminate; exact (proj2 Hjo).
  - intros exc Hexc. rewrite Hexc in H. exact H.
  - intros exc Hf Hc. unfold gate_raises. rewrite first_uncaught_cons.
    unfold loads. rewrite Hf, Hc. reflexivity.
Qed.

(** C8. An evaluation of the gate leaves every file of the project folder as
    it was (it writes no report). One that returns hands one dictionary to
    [safe_set_current_span_attributes]: the gate's name and the [enabled],
    [ok] and [action] of its result, with the three counters and the four
    configuration values when enabled, and nothing of the reports. One that
    raises hands it nothing. *)
Theorem C8_gate_writes_no_file_and_reports_to_span
    (config : option CitationAccuracyGateConfig) (w : world) :
  let cfg := effective config in
  let w' := snd (gate config w) in
  w_folder w' = w_folder w
  /\ match fst (gate config w) with
     | inl _ => w_span_calls w' = w_span_calls w
     | inr r =>
         exists attrs,
           w_span_calls w' = (w_span_calls w ++ [attrs])%list
           /\ lookup_attr "gate.name" attrs = Some (AStr "citation_accuracy")
           /\ lookup_attr "gate.enabled" attrs = Some (ABool (res_enabled r))
           /\ lookup_attr "gate.ok" attrs = Some (ABool (res_ok r))
           /\ lookup_attr "gate.action" attrs
              = Some (AStr (action_name (res_action r)))
           /\ lookup_attr "gate.reports" attrs = None
           /\ (res_enabled r = false -> length attrs = 4)
           /\ (res_enabled r = true ->
                 length attrs = 11
                 /\ lookup_attr "citation_accuracy.checked_claims_total" attrs
                    = Some (AInt (checked_claims_total r))
                 /\ lookup_attr "citation_accuracy.failed_claims_total" attrs
                    = Some (AInt (failed_claims_total r))
                 /\ lookup_attr "citation_accuracy.skipped_missing_evidence_total"
                      attrs
                    = Some (AInt (skipped_missing_evidence_total r))
                 /\ lookup_attr "citation_accuracy.min_alignment_score" attrs
                    = Some (AFloat (min_alignment_score cfg))
                 /\ lookup_attr "citation_accuracy.min_keyword_overlap" attrs
                    = Some (AFloat (min_keyword_overlap cfg))
                 /\ lookup_attr "citation_accuracy.enable_entity_overlap" attrs
                    = Some (ABool (enable_entity_overlap cfg))
                 /\ lookup_attr "citation_accuracy.enable_numeric_consistency"
                      attrs
                    = Some (ABool (enable_numeric_consistency cfg)))
     end.
Proof.
  cbv zeta. destruct (enabled (effective config)) eqn:He.
  - pose proof (gate_enabled config w He) as H. cbv zeta in H.
    destruct (gate_raises (w_folder w)) as [exc|].
    { rewrite H. cbn [fst snd]. split; reflexivity. }
    destruct H as (ci & present & err & ei & scanned & _ & _ & ->).
    cbn [fst snd w_folder w_span_calls]. split; [reflexivity|].
    eexists. split; [reflexivity|].
    cbn [res_enabled res_ok res_action checked_claims_total failed_claims_total
         skipped_missing_evidence_total].
    repeat split; try reflexivity. discriminate.
  - rewrite (gate_disabled config w He).
    cbn [fst snd w_folder w_span_calls]. split; [reflexivity|].
    eexists. split; [reflexivity|]. repeat split; try reflexivity; discriminate.
Qed.

End Gate.

Lemma C9_witness :
  enabled (effective (Some cfg_block)) = true
  /\ exists r,
       fst (check_citation_accuracy_gate accept_all accept_all
              (Some cfg_block) unresolved_project) = inr r
       /\ skipped_missing_evidence_total r = 1 /\ failed_claims_total r = 0
       /\ res_action r = Pass.
Proof.
  split; [reflexivity|].
  assert (E : exists r, fst (check_citation_accuracy_gate accept_all accept_all
                               (Some cfg_block) unresolved_project) = inr r).
  { eexists. vm_compute. reflexivity. }
  destruct E as [r E]. exists r. split; [exact E|].
  pose proof (C9_unresolved_evidence_is_skipped accept_all accept_all
                (Some cfg_block) unresolved_project eq_refl) as H.
  cbv zeta in H. rewrite E in H. destruct H as (_ & _ & _ & _ & H).
  destruct H as (H1 & _ & H3 & H4 & _); [vm_compute; reflexivity|].
  rewrite H1, H3, H4. repeat split.
Defined.

Lemma C10_witness :
  enabled (effective (Some cfg_block)) = true
  /\ holds_claim_list (w_folder corrupt_claims_project) = false
  /\ gate_raises (w_folder corrupt_claims_project) = None
  /\ exists r,
       fst (check_citation_accuracy_gate accept_all accept_all
              (Some cfg_block) corrupt_claims_project) = inr r
       /\ res_action r = Pass /\ res_ok r = true /\ checked_claims_total r = 0
       /\ claims_read_error r = Some "JSONDecodeError"
       /\ claims_file_present r = true.
Proof.
  split; [reflexivity|]. split; [reflexivity|].
  assert (Hn : gate_raises (w_folder corrupt_claims_project) = None)
    by (vm_compute; reflexivity).
  split; [exact Hn|].
  pose proof (C10_unusable_claims_file_passes accept_all accept_all
                (Some cfg_block) corrupt_claims_project eq_refl eq_refl) as H.
  cbv zeta in H. destruct H as [H _].
  destruct (H Hn) as (r & Hr & H1 & H2 & _ & _ & H5 & _ & _ & _ & _ & _ & H11 & _).
  destruct (H11 "JSONDecodeError" eq_refl) as (He & Hp & _).
  exists r. auto 10.
Defined.

(** C10, counterexample to the original wording: a claims file of brackets
    nested too deep is malformed JSON on which [json.load] raises
    [RecursionError]; the enabled gate raises it, returns no result and sets
    no span attribute. *)
Lemma C10_counterexample :
  let out := check_citation_accuracy_gate accept_all accept_all
               (Some cfg_block) deeply_nested_claims_project in
  enabled (effective (Some cfg_block)) = true
  /\ holds_claim_list (w_folder deeply_nested_claims_project) = false
  /\ fst out = inl "RecursionError"
  /\ w_span_calls (snd out) = [].
Proof.
  cbv zeta. repeat split; vm_compute; reflexivity.
Qed.

(** C8, counterexample to the original wording: after an enabled evaluation that blocks, the folder
    holds no [outputs/gates/citation_accuracy.json]. *)
Lemma C8_counterexample :
  let out := check_citation_accuracy_gate accept_all accept_all
               (Some cfg_block) misaligned_project in
  (exists r, fst out = inr r /\ res_action r = Block)
  /\ w_folder (snd out) !! gate_report_path "citation_accuracy" = None
  /\ w_folder (snd out) = w_folder misaligned_project.
Proof.
  cbv zeta. split; [eexists; split; vm_compute; reflexivity|].
  split; vm_compute; reflexivity.
Qed.

(** C5: what the code does with a percentage that looks like a year. The
    pattern of [_extract_numbers] ends in [\b], which does not hold between
    [%] and a blank, so the match backs off to the digits: the token [2020%]
    is extracted as [2020], the year filter drops it, and the numeric check
    passes against an evidence text that has no number at all. Had the token
    been extracted with its suffix, the filter would have kept it. *)
Lemma C5_percent_token_is_dropped :
  _extract_numbers percent_statement = {[ "2020" ]}
  /\ _filter_year_like_numbers (_extract_numbers percent_statement) = ∅
  /\ numeric_ok (score_claim cfg_block percent_statement plain_evidence) = true
  /\ _filter_year_like_numbers {[ "2020%" ]} = {[ "2020%" ]}
  /\ _filter_year_like_numbers {[ "2020" ]} = ∅.
Proof.
  repeat split; vm_compute; reflexivity.
Qed.

(** The year filter on its own does what the specification says. *)
Lemma year_filter_on_sets (nums : gset string) (n : string) :
  (year_like n = true -> n ∉ _filter_year_like_numbers nums)
  /\ (PyStr.endswith n "%" = true ->
      (n ∈ _filter_year_like_numbers nums <-> n ∈ nums)).
Proof.
  split.
  - intros Hy Hin. apply filter_year_like_elem in Hin as [_ Hn]. congruence.
  - intros Hp. rewrite filter_year_like_elem. unfold year_like. rewrite Hp.
    cbn. tauto.
Qed.

(** The score of a claim lies between 0 and 1. *)
Lemma alignment_score_bounds (cfg : CitationAccuracyGateConfig) (st ev : string) :
  (0 <= alignment_score (score_claim cfg st ev) <= 1)%Q.
Proof.
  rewrite alignment_score_spec. unfold spec_alignment_score.
  pose proof (jaccard_bounds (_tokenize st) (_tokenize ev)) as Hkw.
  pose proof (spec_entity_overlap_nonneg cfg st ev) as Hent.
  fold (spec_keyword_overlap st ev) in Hkw.
  set (kw := spec_keyword_overlap st ev) in *.
  set (ent := spec_entity_overlap cfg st ev) in *.
  assert (Hbase : (0 <= (if enable_entity_overlap cfg
                         then Qmin 1 (kw + (1 # 5) * ent) else kw) <= 1)%Q).
  { destruct (enable_entity_overlap cfg); [|exact Hkw]. split.
    - apply Q.min_glb; lra.
    - apply Q.le_min_l. }
  set (base := if enable_entity_overlap cfg then _ else _) in *.
  destruct (numeric_check_fails cfg st ev); [|exact Hbase].
  assert ((base / 2 == base * (1 # 2))%Q) as -> by field. lra.
Qed.

(** The patterns of the tokenisers, on texts checked against Python's [re]. *)
Example numbers_found :
  Regex.findall re_number
    "Sales grew 2020% overall, 3.5x and 12.5% a2 1_000 7.25 in 2020. 50%x 9"
  = ["2020"; "3"; "12.5"; "7.25"; "2020"; "50%"; "9"].
Proof. vm_compute. reflexivity. Qed.

Example entities_found :
  Regex.findall re_entity
    "The US and USa AB1 ABc1 Inflation rose; GDP_x NASA's Ab ABC."
  = ["The"; "US"; "USa"; "Inflation"; "NASA"; "ABC"].
Proof. vm_compute. reflexivity. Qed.

Example tokens_found :
  _tokenize "The inflation rate increased in 2020 to 5 percent. x_y a1b2"
  = {[ "inflation"; "rate"; "increased"; "percent"; "a1b2" ]}.
Proof. vm_compute. reflexivity. Qed.

(** The three accuracy-gate scenarios of the specification. *)
Example scenario_aligned_claim_passes :
  exists r,
    fst (check_citation_accuracy_gate accept_all accept_all
           (Some cfg_pass) aligned_project) = inr r
    /\ res_action r = Pass /\ res_ok r = true /\ checked_claims_total r = 1
    /\ failed_claims_total r = 0
    /\ map r_ok (res_reports r) = [true]
    /\ map r_alignment_score (res_reports r) = [1000000 # 1000000].
Proof. eexists. split; [vm_compute; reflexivity|]. repeat split. Qed.

Example scenario_misaligned_claim_downgrades :
  exists r,
    fst (check_citation_accuracy_gate accept_all accept_all
           (Some cfg_downgrade) misaligned_project) = inr r
    /\ res_action r = Downgrade /\ res_ok r = true /\ checked_claims_total r = 1
    /\ failed_claims_total r = 1
    /\ map r_reasons (res_reports r)
       = [["numeric_mismatch"; "alignment_score_below_threshold"]].
Proof. eexists. split; [vm_compute; reflexivity|]. repeat split. Qed.

Example scenario_misaligned_claim_blocks :
  exists r,
    fst (enforce_citation_accuracy_gate accept_all accept_all
           (Some cfg_block) misaligned_project) = GateError r
    /\ res_action r = Block /\ res_ok r = false.
Proof. eexists. split; [vm_compute; reflexivity|]. repeat split. Qed.

End GateFacts.


(* ===================================================================== *)
(** * [verify_claim] on binary64 floats *)
(* ===================================================================== *)

Module VerifierFacts.
Import Json Binary64 Verifier VerifierSpec.

(** *** Floats that are not negative *)












(** *** What the code compares is what the specification names *)











(** The literals are the floats nearest to the decimals they are written
    with. *)
Example literals_are_nearest :
  one = truediv 1 1 /\ lit_0_20 = truediv 20 100 /\ lit_0_50 = truediv 50 100.
Proof. repeat split. Qed.

(** With one keyword of three and one entity of three shared, the score is
    1/3 + 0.20 * 1/3 on floats, that is 0.39999999999999997: it is below a
    threshold of 0.4 and the claim fails, while the report shows the score
    rounded to 0.4. *)
Example a_score_just_below_two_fifths :
  let rep := verify_claim cfg_two_fifths claim_alpha_beta evidence_alpha_gamma in
  composite_score true false (truediv 1 3) (truediv 1 3)
  = SpecFloat.S754_finite false 7205759403792793 (-54)
  /\ truediv 4 10 = SpecFloat.S754_finite false 7205759403792794 (-54)
  /\ r_ok rep = false
  /\ r_reasons rep = ["alignment_score_below_threshold"]
  /\ r_alignment_score rep = truediv 4 10
  /\ r_keyword_overlap rep = truediv 333333 1000000
  /\ r_entity_overlap rep = truediv 333333 1000000.
Proof. vm_compute. repeat split. Qed.

End VerifierFacts.
(* ===================================================================== *)
(** * Properties of the literature request de-duplication *)
(* ===================================================================== *)

Module EdisonFacts.
Import AccuracyGate Edison EdisonSpec Inputs GateFacts.

(** An entry survives the reaping exactly when it is at most 1800 s old. *)
Lemma reap_lookup_Some (now t : Q) (m : gmap string Q) (h : string) :
  reap now m !! h = Some t <-> m !! h = Some t /\ (now - t <= window)%Q.
Proof.
  unfold reap. rewrite map_lookup_filter_Some. cbn [snd].
  rewrite Qltb_ge. tauto.
Qed.

Lemma reap_lookup_None (now : Q) (m : gmap string Q) (h : string) :
  reap now m !! h = None <->
  m !! h = None \/ exists t, m !! h = Some t /\ (window < now - t)%Q.
Proof.
  unfold reap. rewrite map_lookup_filter_None. cbn [snd]. split.
  - intros [H|H]; [by left|]. destruct (m !! h) as [t|] eqn:E; [|by left].
    right. exists t. split; [reflexivity|]. apply Qltb_lt.
    destruct (Qltb window (now - t)) eqn:B; [reflexivity|].
    exfalso. apply (H t); [reflexivity|exact B].
  - intros [H|(t & H & Hlt)]; [by left|]. right. intros t' Ht'.
    assert (t' = t) as -> by congruence.
    apply Qltb_lt in Hlt. congruence.
Qed.

(** The digest function agrees with the test vectors of the standard. *)
Example sha256_of_abc :
  Sha256.hexdigest "abc"
  = "ba7816bf8f01cfea414140de5dae2223b00361a396177a9cb410ff61f20015ad".
Proof. vm_compute. reflexivity. Qed.

Example sha256_of_two_blocks :
  Sha256.hexdigest "abcdbcdecdefdefgefghfghighijhijkijkljklmklmnlmnomnopnopq"
  = "248d6a61d20638b8e5c026930c3e6039a33ce45964ff2167f6ecedd419db06c1".
Proof. vm_compute. reflexivity. Qed.

Lemma duplicate_error_contains (elapsed : Q) :
  PyStr.contains "Duplicate request blocked" (duplicate_error elapsed) = true.
Proof. reflexivity. Qed.

(** C6. On an available client, a call whose fingerprint has an
    entry of the map at most 1800 s old is answered FAILED with "Duplicate
    request blocked" and registers nothing; an entry strictly older is reaped
    and the call is submitted, as is a call whose fingerprint has no entry. *)
Theorem C6_dedup_window (self : EdisonClient) (query : string)
    (context : option string) (now : Q) (active : gmap string Q) :
  _client self = true ->
  let h := fingerprint query context in
  let out := search_literature_enter self query context now active in
  (forall t, active !! h = Some t -> (now - t <= window)%Q ->
     fst out = Returned (failed_result query (duplicate_error (now - t)) 0)
     /\ blocked_as_duplicate (fst out)
     /\ snd out = reap now active /\ snd out !! h = Some t)
  /\ (forall t, active !! h = Some t -> (window < now - t)%Q ->
        fst out = Submitted h (full_query_of query context)
        /\ snd out = <[h := now]> (reap now active)
        /\ reap now active !! h = None)
  /\ (active !! h = None ->
        fst out = Submitted h (full_query_of query context)
        /\ snd out = <[h := now]> (reap now active)).
Proof.
  intros Hc. cbv zeta. unfold search_literature_enter, fingerprint.
  rewrite Hc. cbn [negb].
  set (h := query_hash_of (full_query_of query context)).
  split; [|split].
  - intros t Ht Hle.
    assert (Hr : reap now active !! h = Some t) by (apply reap_lookup_Some; auto).
    rewrite Hr. cbn [fst snd]. split; [reflexivity|]. split; [|split; auto].
    eexists _, _. split; [reflexivity|]. cbn. split; [reflexivity|].
    split; [reflexivity|]. apply duplicate_error_contains.
  - intros t Ht Hlt.
    assert (Hr : reap now active !! h = None).
    { apply reap_lookup_None. right. eauto. }
    rewrite Hr. cbn [fst snd]. auto.
  - intros Hn.
    assert (Hr : reap now active !! h = None).
    { apply reap_lookup_None. by left. }
    rewrite Hr. cbn [fst snd]. auto.
Qed.

Lemma C6_witness :
  _client ready_client = true
  /\ blocked_as_duplicate
       (fst (search_literature_enter ready_client "Q" None 5
               {[ fingerprint "Q" None := 0%Q ]})).
Proof.
  split; [reflexivity|].
  destruct (C6_dedup_window ready_client "Q" None 5
              {[ fingerprint "Q" None := 0%Q ]} eq_refl) as [H _].
  apply (H 0%Q).
  - apply lookup_singleton_eq.
  - vm_compute. discriminate.
Defined.

(** C6, counterexample to the original wording: a job for "Q" submitted at 0 runs for 3000 s; a
    call for "R" at 1860 s reaps its entry; the job completes at 3000 s
    without an entry to refresh, and "Q" asked again 60 s later is submitted,
    not blocked. *)
Lemma C6_counterexample : ~ blocks_within_window_of_any_stamp ready_client.
Proof.
  intros H.
  specialize (H long_job_history "Q" None 3060%Q 3000%Q).
  assert (H1 : well_formed ready_client ∅ [] 0
                 (long_job_history ++ [Enter "Q" None 3060])%list = true)
    by (vm_compute; reflexivity).
  assert (H2 : (fingerprint "Q" None, 3000%Q)
               ∈ stamps ready_client ∅ long_job_history).
  { vm_compute. do 2 apply list_elem_of_further. apply list_elem_of_here. }
  assert (H3 : (3060 - 3000 < window)%Q) by (vm_compute; reflexivity).
  destruct (H H1 H2 H3) as (result & msg & Heq & _).
  vm_compute in Heq. discriminate.
Qed.


(** The two ways an available client answers a call. *)
Lemma enter_cases (self : EdisonClient) (query : string)
    (context : option string) (now : Q) (m : gmap string Q) :
  _client self = true ->
  let h := fingerprint query context in
  (exists t, reap now m !! h = Some t
     /\ search_literature_enter self query context now m
        = (Returned (failed_result query (duplicate_error (now - t)) 0),
           reap now m))
  \/ (reap now m !! h = None
      /\ search_literature_enter self query context now m
         = (Submitted h (full_query_of query context), <[h := now]> (reap now m))).
Proof.
  intros Hc. cbv zeta. unfold search_literature_enter, fingerprint.
  rewrite Hc. cbn [negb].
  destruct (reap now m !! query_hash_of (full_query_of query context)) as [t|] eqn:E.
  - left. exists t. split; reflexivity.
  - right. split; reflexivity.
Qed.

Lemma take_job_spec (h : string) (now : Q) (jobs jobs' : list (string * Q)) :
  take_job h now jobs = Some jobs' ->
  (exists t0, (h, t0) ∈ jobs /\ (now - t0 <= window)%Q)
  /\ (forall j, j ∈ jobs' -> j ∈ jobs).
Proof.
  revert jobs'. induction jobs as [|[h' t0] tl IH]; intros jobs' H; [discriminate|].
  cbn [take_job] in H.
  destruct (String.eqb h' h && Qle_bool (now - t0) window) eqn:E.
  - injection H as <-. apply andb_true_iff in E as [E1 E2].
    apply String.eqb_eq in E1 as ->. apply Qle_bool_iff in E2. split.
    + exists t0. split; [apply list_elem_of_here|exact E2].
    + intros j Hj. by apply list_elem_of_further.
  - destruct (take_job h now tl) as [rest|]; [|discriminate].
    injection H as <-. destruct (IH rest eq_refl) as [(t1 & Hin & Hle) Hsub].
    split.
    + exists t1. split; [by apply list_elem_of_further|exact Hle].
    + intros j Hj. apply elem_of_cons in Hj as [->|Hj].
      * apply list_elem_of_here.
      * apply list_elem_of_further, Hsub, Hj.
Qed.

(** Reaping at a time not before [last] keeps the invariant. *)
Lemma invariant_reap (m : gmap string Q) (jobs past : list (string * Q))
    (last now : Q) :
  (last <= now)%Q ->
  history_invariant m jobs last past ->
  history_invariant (reap now m) jobs now past.
Proof.
  intros Hle (I1 & I2 & I3 & I4). repeat split.
  - intros h t t' Hm Hp. apply reap_lookup_Some in Hm as [Hm _]. eauto.
  - intros h t' Hm Hp. apply reap_lookup_None in Hm as [Hm|(t & Hm & Hlt)].
    + specialize (I2 h t' Hm Hp). lra.
    + specialize (I1 h t t' Hm Hp). lra.
  - exact I3.
  - intros h t' Hp. specialize (I4 h t' Hp). lra.
Qed.

(** Stamping [h] at [now], with an entry for it, keeps the invariant. *)
Lemma invariant_stamp (m : gmap string Q) (jobs jobs' past : list (string * Q))
    (last now : Q) (h : string) :
  (last <= now)%Q ->
  (forall j, j ∈ jobs' -> j ∈ jobs \/ j = (h, now)) ->
  history_invariant m jobs last past ->
  history_invariant (<[h := now]> m) jobs' now (past ++ [(h, now)]).
Proof.
  intros Hle Hjobs (I1 & I2 & I3 & I4). repeat split.
  - intros k t t' Hm Hp. apply elem_of_app in Hp as [Hp|Hp].
    + destruct (decide (h = k)) as [->|Hne].
      * rewrite lookup_insert_eq in Hm. injection Hm as <-.
        specialize (I4 k t' Hp). lra.
      * rewrite lookup_insert_ne in Hm by exact Hne. eauto.
    + apply list_elem_of_singleton in Hp. injection Hp as -> ->.
      rewrite lookup_insert_eq in Hm. injection Hm as <-. lra.
  - intros k t' Hm Hp.
    destruct (decide (h = k)) as [->|Hne].
    + rewrite lookup_insert_eq in Hm. discriminate.
    + rewrite lookup_insert_ne in Hm by exact Hne.
      apply elem_of_app in Hp as [Hp|Hp].
      * specialize (I2 k t' Hm Hp). lra.
      * apply list_elem_of_singleton in Hp. congruence.
  - intros k t0 Hj. apply elem_of_app.
    destruct (Hjobs _ Hj) as [Hj'|Hj'].
    + left. eauto.
    + right. rewrite Hj'. apply list_elem_of_singleton. reflexivity.
  - intros k t' Hp. apply elem_of_app in Hp as [Hp|Hp].
    + specialize (I4 k t' Hp). lra.
    + apply list_elem_of_singleton in Hp. injection Hp as -> ->. lra.
Qed.

Lemma blocked_within_window_general (self : EdisonClient)
    (query : string) (context : option string) (now t : Q)
    (events : list event) :
  _client self = true ->
  (now - t < window)%Q ->
  forall (m : gmap string Q) (jobs past : list (string * Q)) (last : Q),
    history_invariant m jobs last past ->
    bounded_history self m jobs last (events ++ [Enter query context now]) = true ->
    (fingerprint query context, t) ∈ (past ++ stamps self m events)%list ->
    blocked_as_duplicate
      (fst (search_literature_enter self query context now (replay self m events))).
Proof.
  intros Hc Hwin. induction events as [|e tl IH]; intros m jobs past last Hinv Hb Hin.
  - cbn [app bounded_history] in Hb. apply andb_true_iff in Hb as [Hle _].
    apply Qle_bool_iff in Hle. cbn [time_of] in Hle.
    cbn [stamps] in Hin. rewrite app_nil_r in Hin. cbn [replay foldl].
    pose proof (invariant_reap m jobs past last now Hle Hinv) as (I1 & I2 & _ & _).
    destruct (enter_cases self query context now m Hc) as [(t1 & Hr & ->)|[Hr _]].
    + cbn [fst]. eexists _, _. split; [reflexivity|]. split; [reflexivity|].
      split; [reflexivity|]. apply duplicate_error_contains.
    + exfalso. specialize (I2 _ _ Hr Hin). lra.
  - cbn [app bounded_history] in Hb. apply andb_true_iff in Hb as [Hle Hb].
    apply Qle_bool_iff in Hle.
    cbn [stamps] in Hin. unfold replay in *. cbn [foldl].
    destruct e as [q' c' t'|h' t'].
    + cbn [step time_of] in *.
      pose proof (invariant_reap m jobs past last t' Hle Hinv) as Hreap.
      destruct (enter_cases self q' c' t' m Hc) as [(t1 & Hr & Heq)|[Hr Heq]];
        rewrite Heq in *; cbn [snd] in *.
      * cbn [app] in Hin. apply (IH _ jobs past t' Hreap Hb Hin).
      * apply (IH _ ((fingerprint q' c', t') :: jobs)
                  (past ++ [(fingerprint q' c', t')])%list t').
        -- apply (invariant_stamp _ jobs _ _ t' t'); [lra| |exact Hreap].
           intros j Hj. apply elem_of_cons in Hj as [->|Hj]; auto.
        -- exact Hb.
        -- rewrite <- app_assoc. exact Hin.
    + cbn [step time_of snd] in *.
      destruct (take_job h' t' jobs) as [jobs'|] eqn:Htake; [|discriminate].
      destruct (take_job_spec _ _ _ _ Htake) as [(t0 & Hjob & Hdur) Hsub].
      destruct Hinv as (I1 & I2 & I3 & I4).
      unfold search_literature_leave in *.
      destruct (m !! h') as [told|] eqn:Hm.
      * apply (IH _ jobs' (past ++ [(h', t')])%list t').
        -- apply (invariant_stamp m jobs _ _ last t'); [exact Hle| |repeat split; assumption].
           intros j Hj. left. apply Hsub, Hj.
        -- exact Hb.
        -- rewrite <- app_assoc. exact Hin.
      * exfalso. specialize (I2 _ _ Hm (I3 _ _ Hjob)). lra.
Qed.

(** Where no job outlives the window, the specification's wording holds: a
    call whose fingerprint was submitted or completed less than 1800 s before
    is blocked as a duplicate. *)
Theorem blocked_within_window_of_any_stamp (self : EdisonClient)
    (events : list event) (query : string) (context : option string)
    (now t : Q) :
  _client self = true ->
  bounded_history self ∅ [] 0 (events ++ [Enter query context now]) = true ->
  (fingerprint query context, t) ∈ stamps self ∅ events ->
  (now - t < window)%Q ->
  blocked_as_duplicate
    (fst (search_literature_enter self query context now (replay self ∅ events))).
Proof.
  intros Hc Hb Hin Hwin.
  apply (blocked_within_window_general self query context now t events Hc Hwin
           ∅ [] [] 0); [|exact Hb|exact Hin].
  repeat split.
  - intros h t0 t' Hm. rewrite lookup_empty in Hm. discriminate.
  - intros h t' _ Hp. by apply elem_of_nil in Hp.
  - intros h t0 Hp. by apply elem_of_nil in Hp.
  - intros h t' Hp. by apply elem_of_nil in Hp.
Qed.

Lemma blocked_within_window_witness :
  _client ready_client = true
  /\ bounded_history ready_client ∅ [] 0
       ([Enter "Q" None 0; Leave (fingerprint "Q" None) 10] ++ [Enter "Q" None 1805])
     = true
  /\ blocked_as_duplicate
       (fst (search_literature_enter ready_client "Q" None 1805
               (replay ready_client ∅
                  [Enter "Q" None 0; Leave (fingerprint "Q" None) 10]))).
Proof.
  split; [reflexivity|]. split; [vm_compute; reflexivity|].
  apply (blocked_within_window_of_any_stamp ready_client
           [Enter "Q" None 0; Leave (fingerprint "Q" None) 10] "Q" None 1805 10
           eq_refl).
  - vm_compute. reflexivity.
  - vm_compute. apply list_elem_of_further, list_elem_of_here.
  - vm_compute. reflexivity.
Defined.

(** The fourth scenario of the specification: the query submitted at 0 and
    asked again 5 s later is blocked, with the delay in the message; asked
    again at 30 min + 1 s while the first job still runs, it is submitted. *)
Example scenario_literature_dedup :
  let m1 := snd (search_literature_enter ready_client "Q" None 0 ∅) in
  fst (search_literature_enter ready_client "Q" None 0 ∅)
  = Submitted (fingerprint "Q" None) "Q"
  /\ fst (search_literature_enter ready_client "Q" None 5 m1)
     = Returned (failed_result "Q"
         "Duplicate request blocked. A similar query was submitted 5.0s ago." 0)
  /\ fst (search_literature_enter ready_client "Q" None 1801 m1)
     = Submitted (fingerprint "Q" None) "Q".
Proof. cbv zeta. split; [|split]; vm_compute; reflexivity. Qed.

End EdisonFacts.

(* ===================================================================== *)
(** * Properties of the autonomous runner *)
(* ===================================================================== *)

Module RunnerFacts.
Import PyExc Runner RunnerSpec Inputs.

(** *** execute_phase *)

Lemma process_output_line_reasons (phase_id line : string) (logger : DualLogger) :
  log_degradation_reasons (process_output_line phase_id logger line)
  = (log_degradation_reasons logger
     ++ match noted_reason phase_id line with Some r => [r] | None => [] end)%list.
Proof.
  unfold process_output_line, noted_reason. cbn [log_degradation_reasons].
  destruct ((PyStr.contains "DEGRADATION" (PyStr.upper line)
             || PyStr.contains "DEGRADED" (PyStr.upper line))
            && PyStr.nonempty (_extract_degradation_reason line)).
  - reflexivity.
  - by rewrite app_nil_r.
Qed.

Lemma stream_reasons (phase_id : string) (output : list string) (logger : DualLogger) :
  log_degradation_reasons (stream_subprocess_output output logger phase_id)
  = (log_degradation_reasons logger ++ observed_reasons phase_id output)%list.
Proof.
  unfold stream_subprocess_output, observed_reasons.
  revert logger. induction output as [|line tl IH]; intros logger.
  - cbn. by rewrite app_nil_r.
  - cbn [foldl]. rewrite IH, process_output_line_reasons.
    rewrite <- app_assoc. f_equal. cbn [omap list_omap].
    destruct (noted_reason phase_id line); reflexivity.
Qed.

Lemma length_pos_iff {A : Type} (l : list A) : (0 <? length l)%nat = true <-> l <> [].
Proof. destruct l; cbn; split; intros; congruence. Qed.

(** C7. A phase whose child exits, run with a logger that holds
    no reason left by an earlier phase, is degraded exactly when a
    degradation reason was observed in the child's output or it failed with a
    non-zero error count; when the script is missing, the launch or the
    streaming raises, or the wait times out, the result is a failure with
    [error_count = 1], not degraded and without reasons. *)
Theorem C7_degraded_flag (outcome : launch) (phase_id phase_name : string)
    (logger : DualLogger) (folder : gmap string content) :
  log_degradation_reasons logger = [] ->
  let r := fst (fst (execute_phase outcome phase_id phase_name logger folder)) in
  match outcome with
  | Exited c code =>
      degradation_reasons r = observed_reasons phase_id (lines c)
      /\ success r = (code =? 0)%Z
      /\ (degraded r = true <->
          observed_reasons phase_id (lines c) <> []
          \/ (success r = false /\ error_count r <> 0))
  | ScriptMissing | Raised _ | TimedOut _ =>
      success r = false /\ error_count r = 1 /\ exit_code r = (-1)%Z
      /\ degraded r = false /\ degradation_reasons r = []
  end.
Proof.
  intros Hclean. cbv zeta.
  destruct outcome as [|c|c|c code]; try (cbn; tauto).
  unfold execute_phase.
  cbn [fst degradation_reasons success degraded error_count].
  rewrite stream_reasons. cbn [reset_counts log_degradation_reasons].
  rewrite Hclean. cbn [app].
  split; [reflexivity|]. split; [reflexivity|].
  rewrite orb_true_iff, andb_true_iff, negb_true_iff, length_pos_iff.
  rewrite Nat.ltb_lt. split.
  - intros [H|[H1 H2]]; [by left|right]. split; [exact H1|lia].
  - intros [H|[H1 H2]]; [by left|right]. split; [exact H1|lia].
Qed.

Lemma C7_witness :
  log_degradation_reasons new_logger = []
  /\ degraded (fst (fst (execute_phase
                 (Exited {| lines := ["DEGRADATION: reason_code=llm_timeout"];
                            elapsed := 1; files := fun f => f |} 0)
                 "phase_2" "Literature Workflow" new_logger ∅))) = true.
Proof.
  split; [reflexivity|].
  apply (C7_degraded_flag
           (Exited {| lines := ["DEGRADATION: reason_code=llm_timeout"];
                      elapsed := 1; files := fun f => f |} 0)
           "phase_2" "Literature Workflow" new_logger ∅ eq_refl).
  left. vm_compute. discriminate.
Defined.

(** C7, counterexample to the original wording, on the timeout path: the
    phase reports
    [success = false] with [error_count = 1] and yet [degraded = false]. *)
Lemma C7_counterexample :
  let r := fst (fst (execute_phase (TimedOut silent) "phase_2"
                       "Literature Workflow" new_logger ∅)) in
  success r = false /\ error_count r = 1 /\ degraded r = false
  /\ ~ (degraded r = true <->
        observed_reasons "phase_2" (lines silent) <> []
        \/ (success r = false /\ error_count r <> 0)).
Proof.
  cbn. repeat split. intros [_ H]. discriminate H. right. split; [reflexivity|lia].
Qed.

(** The patterns of [_extract_degradation_reason], on lines checked against
    Python's [re]. *)
Example degradation_reasons_extracted :
  map _extract_degradation_reason
    [ "DEGRADATION: reason_code=llm_timeout more";
      "x DEGRADED because: no api key. next";
      "DEGRADED mode";
      "Degradation detected: fallback used.";
      "degradation::";
      "degraded due to: a.b";
      "Degradation:  " ]
  = [ "llm_timeout"; "no api key"; "DEGRADED mode"; "fallback used"; ":"; "a"; "" ].
Proof. vm_compute. reflexivity. Qed.

(** Why the logger must hold no reason on entry: a phase that times out keeps
    its counters and reasons in the logger, and the next phase that exits
    reports those reasons as its own. *)
Example reasons_outlive_a_timeout :
  let noisy := {| lines := ["DEGRADATION: reason_code=llm_timeout"];
                  elapsed := 3600; files := fun folder => folder |} in
  let '(r1, logger, _) :=
    execute_phase (TimedOut noisy) "phase_2" "Literature Workflow" new_logger ∅ in
  let '(r2, _, _) :=
    execute_phase (Exited silent 0) "phase_3" "Gap Resolution Workflow" logger ∅ in
  degradation_reasons r1 = [] /\ degraded r1 = false
  /\ degradation_reasons r2 = ["[phase_2] llm_timeout"] /\ degraded r2 = true.
Proof. cbv zeta. repeat split; vm_compute; reflexivity. Qed.

(** *** run_autonomous_pipeline *)

Lemma count_where_app (f : PhaseResult -> bool) (l1 l2 : list PhaseResult) :
  count_where f (l1 ++ l2) = count_where f l1 + count_where f l2.
Proof. unfold count_where. rewrite filter_app, length_app. reflexivity. Qed.

Lemma count_where_cons (f : PhaseResult -> bool) (p : PhaseResult) (l : list PhaseResult) :
  count_where f (p :: l) = (if f p then 1 else 0) + count_where f l.
Proof.
  unfold count_where. rewrite filter_cons.
  destruct (decide (f p = true)) as [->|H]; [reflexivity|].
  destruct (f p); [congruence|reflexivity].
Qed.

Lemma count_where_le (f : PhaseResult -> bool) (l : list PhaseResult) :
  count_where f l <= length l.
Proof. unfold count_where. apply length_filter. Qed.

Lemma run_phases_cons (env : environment) (script_name phase_id phase_name : string)
    (is_critical : bool) (tl : list (string * string * string * bool))
    (st : progress) :
  run_phases env ((script_name, phase_id, phase_name, is_critical) :: tl) st =
  let '(phase_result, logger, folder) :=
    execute_phase (started env script_name) phase_id phase_name
                  (p_logger st) (p_folder st) in
  let phases := (p_phases st ++ [phase_result])%list in
  let summary :=
    (p_degradation_summary st ++ degradation_reasons phase_result)%list in
  if negb (success phase_result) && is_critical then
    {| p_phases := phases; p_degradation_summary := summary;
       p_overall_success := false; p_logger := logger; p_folder := folder |}
  else
    run_phases env tl
      {| p_phases := phases; p_degradation_summary := summary;
         p_overall_success :=
           if negb (success phase_result) && negb (degraded phase_result)
           then false else p_overall_success st;
         p_logger := logger; p_folder := folder |}.
Proof. reflexivity. Qed.

(** A table without a critical phase runs to its end: one result per phase. *)
Lemma run_phases_non_critical (env : environment)
    (table : list (string * string * string * bool)) (st : progress) :
  Forall (fun ph => snd ph = false) table ->
  exists results,
    p_phases (run_phases env table st) = (p_phases st ++ results)%list
    /\ length results = length table.
Proof.
  revert st. induction table as [|[[[script pid] pname] crit] tl IH];
    intros st Hnc.
  - exists []. cbn. by rewrite app_nil_r.
  - apply Forall_cons in Hnc as [Hc Hnc]. cbn [snd] in Hc. subst crit.
    rewrite run_phases_cons.
    destruct (execute_phase (started env script) pid pname (p_logger st) (p_folder st))
      as [[pr lg] fd].
    cbv zeta. rewrite andb_false_r.
    destruct (IH {| p_phases := p_phases st ++ [pr];
                    p_degradation_summary :=
                      p_degradation_summary st ++ degradation_reasons pr;
                    p_overall_success :=
                      if negb (success pr) && negb (degraded pr) then false
                      else p_overall_success st;
                    p_logger := lg; p_folder := fd |} Hnc)
      as (results & Hres & Hlen).
    exists (pr :: results). cbn [p_phases] in Hres. rewrite Hres.
    rewrite <- app_assoc. cbn. split; [reflexivity|]. by rewrite Hlen.
Qed.

(** The phases of a run: the intake phase alone when it fails, else all six. *)
Lemma pipeline_phases (env : environment) (st : progress) :
  p_phases st = [] ->
  let st' := run_phases env PIPELINE_PHASES st in
  exists p1 rest,
    p_phases st' = p1 :: rest
    /\ (success p1 = false -> rest = [] /\ p_overall_success st' = false)
    /\ (success p1 = true -> length rest = 5).
Proof.
  intros Hst. cbv zeta. unfold PIPELINE_PHASES. rewrite run_phases_cons.
  destruct (execute_phase (started env "run_workflow.py") "phase_1"
              "Research Workflow (Intake)" (p_logger st) (p_folder st))
    as [[p1 lg] fd].
  cbv zeta. rewrite Hst. cbn [app]. destruct (success p1) eqn:Hs; cbn [negb andb].
  - match goal with
    | |- context [run_phases env ?tbl ?s] =>
        destruct (run_phases_non_critical env tbl s) as (results & Hres & Hlen)
    end.
    { repeat constructor. }
    cbn [p_phases] in Hres. exists p1, results. rewrite Hres. cbn [app].
    split; [reflexivity|]. split; [congruence|]. intros _. exact Hlen.
  - exists p1, []. cbn. split; [reflexivity|]. split; [auto|congruence].
Qed.

(** A run that is not a dry run, on a folder that exists: the purge, the
    phases, the two readers of the post-run evaluation, and the final
    write. *)
Lemma run_outcome (env : environment) (project_folder_ : string)
    (skip_purge : bool) (folder : gmap string content) :
  folder_exists env = true ->
  let purge := if negb skip_purge then run_environment_purge env folder
               else (folder, None) in
  let st := run_phases env PIPELINE_PHASES
              {| p_phases := []; p_degradation_summary := [];
                 p_overall_success := true; p_logger := new_logger;
                 p_folder := fst purge |} in
  let successful_phases := count_where success (p_phases st) in
  let total_phases := length (p_phases st) in
  let overall :=
    if (successful_phases =? total_phases)%nat
       && (count_where degraded (p_phases st) =? 0)%nat
    then true
    else if (0 <? successful_phases)%nat
    then (total_phases / 2 <=? successful_phases)%nat
    else p_overall_success st in
  run_autonomous_pipeline env project_folder_ skip_purge false folder =
  match snd purge with
  | Some exc => (inl exc, fst purge)
  | None =>
      match count_evidence_items env (p_folder st) with
      | inl exc => (inl exc, p_folder st)
      | inr n =>
          match get_readiness_score env (p_folder st) with
          | inl exc => (inl exc, p_folder st)
          | inr x =>
              let r :=
                {| run_id := clock_run_id env; project_folder := project_folder_;
                   started_at := clock_started_at env;
                   finished_at := clock_finished_at env;
                   total_execution_time := clock_total_time env;
                   overall_success := overall;
                   phases := p_phases st;
                   evidence_items_count := n;
                   readiness_score := x;
                   degradation_summary := p_degradation_summary st |} in
              (inr r, if write_raises env then p_folder st
                      else <[result_path := RunResultJson r]> (p_folder st))
          end
      end
  end.
Proof.
  intros Hex. cbv zeta. unfold run_autonomous_pipeline. rewrite Hex. cbn [negb].
  destruct (if negb skip_purge then run_environment_purge env folder
            else (folder, None)) as [purged [exc|]]; cbn [fst snd];
    [reflexivity|].
  destruct (count_evidence_items env _) as [exc|n]; [reflexivity|].
  destruct (get_readiness_score env _) as [exc|x]; reflexivity.
Qed.

(** C1. A completed run reports [overall_success = true] exactly
    when the critical first phase succeeded and at least half of the phases
    run ([total_phases // 2]) succeeded: some phase may have failed. *)
Theorem C1_overall_success (env : environment) (project_folder_ : string)
    (skip_purge : bool) (folder : gmap string content) (r : PipelineResult) :
  folder_exists env = true ->
  fst (run_autonomous_pipeline env project_folder_ skip_purge false folder)
  = inr r ->
  overall_success r = true <->
  (exists p1 rest, phases r = p1 :: rest /\ success p1 = true)
  /\ length (phases r) / 2 <= count_where success (phases r).
Proof.
  intros Hex Hr. rewrite (run_outcome env project_folder_ skip_purge folder Hex) in Hr.
  cbv zeta in Hr.
  match type of Hr with
  | context [run_phases env PIPELINE_PHASES ?s] =>
      destruct (pipeline_phases env s eq_refl) as (p1 & rest & Hph & Hfail & Hok);
      set (st' := run_phases env PIPELINE_PHASES s) in *
  end.
  destruct (snd _) as [exc|]; [discriminate|].
  destruct (count_evidence_items env _) as [exc|n]; [discriminate|].
  destruct (get_readiness_score env _) as [exc|x]; [discriminate|].
  cbn [fst] in Hr. injection Hr as <-.
  cbn [overall_success phases].
  rewrite Hph. rewrite count_where_cons. cbn [length].
  destruct (success p1) eqn:Hs.
  - specialize (Hok eq_refl). rewrite Hok.
    pose proof (count_where_le success rest) as Hle. rewrite Hok in Hle.
    change ((6 / 2)%nat) with 3.
    set (n' := count_where success rest) in *.
    replace (1 + n' =? 6)%nat with (n' =? 5)%nat
      by (destruct (Nat.eqb_spec n' 5), (Nat.eqb_spec (1 + n') 6); lia).
    destruct (Nat.eqb_spec n' 5) as [->|Hn].
    + destruct (count_where degraded (p1 :: rest) =? 0)%nat; cbn.
      * split; [intros _; split; [eauto|lia]|reflexivity].
      * split; [intros _; split; [eauto|lia]|reflexivity].
    + cbn [andb]. change (0 <? 1 + n')%nat with true. cbn iota.
      rewrite Nat.leb_le. change (fst (Nat.divmod 6 1 0 1)) with 3. split.
      * intros H. split; [eauto|lia].
      * intros [_ H]. lia.
  - destruct (Hfail eq_refl) as [-> Hov]. rewrite Hov. cbn.
    split; [discriminate|]. intros [(q1 & rest' & Heq & Hq) _].
    injection Heq as <- <-. congruence.
Qed.


Lemma C1_witness :
  folder_exists all_phases_succeed = true
  /\ exists r,
       fst (run_autonomous_pipeline all_phases_succeed "/project" true false ∅)
       = inr r
       /\ overall_success r = true.
Proof.
  split; [reflexivity|].
  assert (E : exists r, fst (run_autonomous_pipeline all_phases_succeed "/project"
                               true false ∅) = inr r).
  { eexists. vm_compute. reflexivity. }
  destruct E as [r E]. exists r. split; [exact E|].
  apply (C1_overall_success all_phases_succeed "/project" true ∅ r eq_refl E).
  vm_compute in E. injection E as <-. split.
  - eexists _, _. split; reflexivity.
  - vm_compute. lia.
Defined.

(** C1, counterexample to the original wording: the literature phase exits with 1 and the run still
    reports [overall_success = true]. *)
Lemma C1_counterexample :
  exists r,
    fst (run_autonomous_pipeline one_phase_fails "/project" true false ∅) = inr r
    /\ overall_success r = true
    /\ exists p, p ∈ phases r /\ phase_id p = "phase_2" /\ success p = false.
Proof.
  eexists. split; [vm_compute; reflexivity|].
  split; [reflexivity|].
  eexists. split; [|split].
  - apply list_elem_of_further, list_elem_of_here.
  - reflexivity.
  - reflexivity.
Qed.

(** C2. A run that finds its project folder, is not a dry run and returns
    ends by writing [autonomous_run_result.json] with the result it
    returns, unless that write raises [OSError]; every other path, that of
    the degradation summary among them, is as the purge and the phase
    children left it. The run returns unless the purge or one of the two
    readers of the post-run evaluation raises: then the exception goes
    through and nothing is written after the children. A folder that does
    not exist is not touched, and a dry run leaves the folder as the purge
    left it. When the script of the critical first phase is missing the run
    fails after that one phase and no child has touched the folder. *)
Theorem C2_run_result_file (env : environment) (project_folder_ : string)
    (skip_purge dry_run : bool) (folder : gmap string content) :
  let out := run_autonomous_pipeline env project_folder_ skip_purge dry_run folder in
  let purge := if negb skip_purge then run_environment_purge env folder
               else (folder, None) in
  let left := folder_after_phases env skip_purge folder in
  (folder_exists env = false ->
     snd out = folder /\ exists r, fst out = inr r /\ overall_success r = false)
  /\ (folder_exists env = true -> forall exc, snd purge = Some exc ->
        out = (inl exc, fst purge))
  /\ (folder_exists env = true -> dry_run = true ->
        snd out = fst purge /\ (skip_purge = true -> out = (fst out, folder))
        /\ (snd purge = None -> exists r, fst out = inr r /\ phases r = []))
  /\ (folder_exists env = true -> dry_run = false -> snd purge = None ->
        match fst out with
        | inr r =>
            count_evidence_items env left = inr (evidence_items_count r)
            /\ get_readiness_score env left = inr (readiness_score r)
            /\ (write_raises env = true -> snd out = left)
            /\ (write_raises env = false ->
                  snd out = <[result_path := RunResultJson r]> left
                  /\ snd out !! result_path = Some (RunResultJson r)
                  /\ snd out !! degradation_summary_path
                     = left !! degradation_summary_path)
        | inl exc =>
            snd out = left
            /\ (count_evidence_items env left = inl exc
                \/ ((exists n, count_evidence_items env left = inr n)
                    /\ get_readiness_score env left = inl exc))
        end)
  /\ (folder_exists env = true -> dry_run = false -> snd purge = None ->
        started env "run_workflow.py" = ScriptMissing ->
        left = fst purge
        /\ forall r, fst out = inr r ->
             overall_success r = false /\ length (phases r) = 1).
Proof.
  cbv zeta. unfold folder_after_phases.
  destruct (folder_exists env) eqn:Hex.
  2:{ unfold run_autonomous_pipeline. rewrite Hex. cbn [negb fst snd].
      split; [intros _; split; [reflexivity|eexists; split; reflexivity]|].
      repeat split; discriminate. }
  split; [discriminate|]. split; [|split; [|split]].
  - intros _ exc Hp. unfold run_autonomous_pipeline. rewrite Hex. cbn [negb].
    destruct (if negb skip_purge then run_environment_purge env folder
              else (folder, None)) as [purged raised]. cbn [fst snd] in *.
    subst raised. reflexivity.
  - intros _ ->. unfold run_autonomous_pipeline. rewrite Hex. cbn [negb].
    destruct skip_purge; cbn [negb fst snd].
    + split; [reflexivity|]. split; [reflexivity|].
      intros _. eexists. split; reflexivity.
    + destruct (run_environment_purge env folder) as [purged [exc|]];
        cbn [fst snd]; (split; [reflexivity|]); (split; [discriminate|]).
      * discriminate.
      * intros _. eexists. split; reflexivity.
  - intros _ -> Hp.
    rewrite (run_outcome env project_folder_ skip_purge folder Hex). cbv zeta.
    assert (Hfolder : (if negb skip_purge then fst (run_environment_purge env folder)
                       else folder)
                      = fst (if negb skip_purge then run_environment_purge env folder
                             else (folder, None)))
      by (destruct skip_purge; reflexivity).
    rewrite Hfolder. rewrite Hp.
    destruct (count_evidence_items env _) as [exc|n] eqn:Hc; cbn [fst snd].
    { split; [reflexivity|]. left. reflexivity. }
    destruct (get_readiness_score env _) as [exc|x] eqn:Hs; cbn [fst snd].
    { split; [reflexivity|]. right. split; [eauto|reflexivity]. }
    cbn [evidence_items_count readiness_score].
    split; [reflexivity|]. split; [reflexivity|]. split.
    + intros ->. reflexivity.
    + intros ->. split; [reflexivity|].
      split; [apply lookup_insert_eq|]. by apply lookup_insert_ne.
  - intros _ -> Hp Hmiss.
    assert (Hfolder : (if negb skip_purge then fst (run_environment_purge env folder)
                       else folder)
                      = fst (if negb skip_purge then run_environment_purge env folder
                             else (folder, None)))
      by (destruct skip_purge; reflexivity).
    rewrite Hfolder. split.
    + unfold PIPELINE_PHASES. rewrite run_phases_cons, Hmiss. reflexivity.
    + intros r.
      rewrite (run_outcome env project_folder_ skip_purge folder Hex). cbv zeta.
      rewrite Hp.
      match goal with
      | |- context [run_phases env PIPELINE_PHASES ?s] =>
          assert (Hst : p_phases (run_phases env PIPELINE_PHASES s)
                        = [failed_phase "phase_1" "Research Workflow (Intake)" 0]
                        /\ p_overall_success (run_phases env PIPELINE_PHASES s)
                           = false)
            by (unfold PIPELINE_PHASES; rewrite run_phases_cons, Hmiss;
                split; reflexivity);
          set (st' := run_phases env PIPELINE_PHASES s) in *
      end.
      destruct Hst as [Hph Hov].
      destruct (count_evidence_items env _) as [exc|n]; [discriminate|].
      destruct (get_readiness_score env _) as [exc|x]; [discriminate|].
      cbn [fst]. intros Hr. injection Hr as <-.
      cbn [overall_success phases]. rewrite Hph, Hov.
      split; vm_compute; reflexivity.
Qed.

(** C2, counterexample to the original wording: the script of the critical first phase is missing,
    the run fails early and writes [autonomous_run_result.json], and that file
    is the only one in the folder: there is no degradation summary. *)
Lemma C2_counterexample :
  let out := run_autonomous_pipeline intake_script_missing "/project" true false ∅ in
  exists r,
    fst out = inr r
    /\ overall_success r = false
    /\ length (phases r) = 1
    /\ snd out = {[ result_path := RunResultJson r ]}
    /\ snd out !! degradation_summary_path = None.
Proof.
  cbv zeta. eexists. split; [vm_compute; reflexivity|].
  repeat split; vm_compute; reflexivity.
Qed.

(** A run whose phases all succeed but whose [readiness_report.json] holds
    a list: [get_readiness_score] raises [AttributeError], the exception
    goes through [run_autonomous_pipeline], and no
    [autonomous_run_result.json] is written. *)
Example run_raises_before_the_result_is_written :
  let out := run_autonomous_pipeline report_is_a_list "/project" true false ∅ in
  fst out = inl "AttributeError" /\ snd out !! result_path = None.
Proof. cbv zeta. split; vm_compute; reflexivity. Qed.

End RunnerFacts.

(* ===================================================================== *)
(** * Further properties of the citation accuracy gate *)
(* ===================================================================== *)

Module GateMoreFacts.
Import Json PyExc AccuracyGate GateSpec GateMoreSpec Inputs GateFacts MoreInputs.

(** *** [strip] *)

Lemma lstrip_chars_head (l : list ascii) :
  match PyStr.lstrip_chars l with
  | [] => True
  | c :: _ => PyStr.is_space c = false
  end.
Proof.
  induction l as [|c tl IH]; cbn; [exact I|].
  destruct (PyStr.is_space c) eqn:E; [exact IH|exact E].
Qed.

Lemma lstrip_chars_fixed (l : list ascii) :
  match l with [] => True | c :: _ => PyStr.is_space c = false end ->
  PyStr.lstrip_chars l = l.
Proof. destruct l as [|c tl]; cbn; [reflexivity|]. intros ->. reflexivity. Qed.

Lemma lstrip_chars_suffix (l : list ascii) :
  exists pre, l = (pre ++ PyStr.lstrip_chars l)%list.
Proof.
  induction l as [|c tl [pre IH]]; cbn.
  - exists []. reflexivity.
  - destruct (PyStr.is_space c).
    + exists (c :: pre). cbn. f_equal. exact IH.
    + exists []. reflexivity.
Qed.

Lemma strip_no_leading_space (s : string) :
  PyStr.lstrip_chars (PyStr.chars (PyStr.strip s)) = PyStr.chars (PyStr.strip s).
Proof.
  unfold PyStr.strip, PyStr.chars, PyStr.str.
  set (m := PyStr.lstrip_chars (list_ascii_of_string s)).
  set (r := PyStr.lstrip_chars (rev m)).
  rewrite list_ascii_of_string_of_list_ascii.
  apply lstrip_chars_fixed.
  destruct (lstrip_chars_suffix (rev m)) as [pre Hpre]. fold r in Hpre.
  assert (Hm : m = (rev r ++ rev pre)%list).
  { rewrite <- rev_app_distr, <- Hpre, rev_involutive. reflexivity. }
  pose proof (lstrip_chars_head (list_ascii_of_string s)) as Hh. fold m in Hh.
  destruct (rev r) as [|c t]; [exact I|]. rewrite Hm in Hh. exact Hh.
Qed.

Lemma strip_idempotent (s : string) : PyStr.strip (PyStr.strip s) = PyStr.strip s.
Proof.
  unfold PyStr.strip at 1. rewrite strip_no_leading_space.
  unfold PyStr.strip, PyStr.chars, PyStr.str.
  rewrite list_ascii_of_string_of_list_ascii, rev_involutive.
  set (m := PyStr.lstrip_chars (list_ascii_of_string s)).
  assert (Hr : PyStr.lstrip_chars (PyStr.lstrip_chars (rev m))
               = PyStr.lstrip_chars (rev m)).
  { apply lstrip_chars_fixed. apply (lstrip_chars_head (rev m)). }
  rewrite Hr. reflexivity.
Qed.

(** *** The evidence map *)

Section Loaders.
Variable is_valid_claim_record : json -> bool.
Variable is_valid_evidence_item : json -> bool.

Lemma keyed_add_item (st : gmap string json * nat) (item : json) :
  keyed_by_stripped_id is_valid_evidence_item (fst st) ->
  keyed_by_stripped_id is_valid_evidence_item
    (fst (add_evidence_item is_valid_evidence_item st item)).
Proof.
  destruct st as [by_id invalid]. cbn [fst]. intros Hinv.
  unfold add_evidence_item.
  destruct (is_dict item) eqn:Hd; cbn [negb orb]; [|exact Hinv].
  destruct (is_valid_evidence_item item) eqn:Hv; cbn [negb]; [|exact Hinv].
  destruct (get "evidence_id" item) as [| | |e| |] eqn:Hg; try exact Hinv.
  destruct (PyStr.nonempty (PyStr.strip e)) eqn:Hn; [|exact Hinv].
  cbn [fst]. intros k it Hk.
  destruct (decide (k = PyStr.strip e)) as [->|Hne].
  - rewrite lookup_insert_eq in Hk. injection Hk as <-.
    repeat split; try assumption. exists e. split; [exact Hg|reflexivity].
  - rewrite lookup_insert_ne in Hk by congruence. exact (Hinv k it Hk).
Qed.

Lemma keyed_add_items (payload : list json) (st : gmap string json * nat) :
  keyed_by_stripped_id is_valid_evidence_item (fst st) ->
  keyed_by_stripped_id is_valid_evidence_item
    (fst (foldl (add_evidence_item is_valid_evidence_item) st payload)).
Proof.
  revert st. induction payload as [|item tl IH]; intros st H; [exact H|].
  cbn [foldl]. apply IH, keyed_add_item, H.
Qed.

Lemma keyed_add_file (pf : gmap string file)
    (st st' : gmap string json * nat * nat) (path : string) :
  keyed_by_stripped_id is_valid_evidence_item (fst (fst st)) ->
  add_evidence_file is_valid_evidence_item pf st path = inr st' ->
  keyed_by_stripped_id is_valid_evidence_item (fst (fst st')).
Proof.
  destruct st as [[by_id invalid] scanned]. cbn [fst]. intros H.
  unfold add_evidence_file.
  destruct (path_is_file pf path); cbn [negb];
    [|intros E; injection E as <-; exact H].
  destruct (_load_json_list pf path) as [exc|[payload [err|]]]; cbn [bind];
    [discriminate|intros E; injection E as <-; exact H|].
  pose proof (keyed_add_items payload (by_id, invalid) H) as H'.
  destruct (foldl _ _ payload) as [by_id' invalid'].
  intros E. injection E as <-. exact H'.
Qed.

Lemma keyed_empty :
  keyed_by_stripped_id is_valid_evidence_item (∅ : gmap string json).
Proof. intros k it Hk. rewrite lookup_empty in Hk. discriminate. Qed.

Lemma loaded_evidence_keyed (pf : gmap string file) :
  keyed_by_stripped_id is_valid_evidence_item
    (loaded_evidence is_valid_evidence_item pf).
Proof.
  unfold loaded_evidence, _load_evidence_map.
  destruct (for_each (_iter_evidence_files pf) (∅, 0, 0)
              (add_evidence_file is_valid_evidence_item pf))
    as [exc|[[by_id invalid] scanned]] eqn:E; [apply keyed_empty|].
  exact (for_each_invariant
           (fun st => keyed_by_stripped_id is_valid_evidence_item (fst (fst st)))
           (add_evidence_file is_valid_evidence_item pf)
           (_iter_evidence_files pf) (∅, 0, 0) (by_id, invalid, scanned)
           (fun s x s' Hs => keyed_add_file pf s s' x Hs) keyed_empty E).
Qed.

Lemma padded_id_lookup (pf : gmap string file) (ev_id : string) :
  PyStr.strip ev_id <> ev_id ->
  loaded_evidence is_valid_evidence_item pf !! ev_id = None.
Proof.
  intros Hpad.
  destruct (loaded_evidence is_valid_evidence_item pf !! ev_id) as [it|] eqn:E;
    [|reflexivity].
  exfalso. apply Hpad.
  destruct (loaded_evidence_keyed pf ev_id it E) as (_ & _ & _ & e & _ & <-).
  apply strip_idempotent.
Qed.

(** *** The claims *)

Lemma fold_add_claim (payload : list json) (claims : list json) (invalid : nat) :
  foldl (add_claim_item is_valid_claim_record) (claims, invalid) payload
  = ((claims ++ filter (fun i => usable_claim is_valid_claim_record i = true) payload)%list,
     invalid + length (filter (fun i => invalid_claim is_valid_claim_record i = true)
                              payload)).
Proof.
  revert claims invalid. induction payload as [|item tl IH]; intros claims invalid.
  - cbn. rewrite app_nil_r. f_equal. lia.
  - cbn [foldl]. rewrite !filter_cons.
    destruct (decide (usable_claim is_valid_claim_record item = true)) as [Hu|Hu];
      destruct (decide (invalid_claim is_valid_claim_record item = true)) as [Hi|Hi];
      unfold usable_claim, invalid_claim in Hu, Hi; unfold add_claim_item at 2;
      destruct (is_dict item), (is_valid_claim_record item),
               (String.eqb (py_str (get "kind" item)) "source_backed");
      cbn [negb orb andb] in *; try congruence; rewrite IH;
      rewrite <- ?app_assoc; cbn [length app]; f_equal; lia.
Qed.

Lemma count_reports_split (l : list report) :
  count_reports r_checked l + count_reports (fun r => negb (r_checked r)) l
  = length l.
Proof.
  induction l as [|r tl IH]; cbn; [reflexivity|].
  destruct (r_checked r); cbn; lia.
Qed.

Lemma count_reports_failed_le (l : list report) :
  count_reports failed_report l <= count_reports r_checked l.
Proof.
  induction l as [|r tl IH]; cbn; [lia|].
  unfold failed_report at 1. destruct (r_checked r), (r_ok r); cbn; lia.
Qed.


Lemma add_evidence_item_key (st : gmap string json * nat) (item : json) :
  fst (add_evidence_item is_valid_evidence_item st item)
  = match evidence_key is_valid_evidence_item item with
    | Some k => <[k := item]> (fst st)
    | None => fst st
    end.
Proof.
  destruct st as [by_id invalid]. unfold add_evidence_item, evidence_key.
  destruct (is_dict item), (is_valid_evidence_item item); cbn [negb orb andb fst];
    try reflexivity.
  destruct (get "evidence_id" item); try reflexivity.
  destruct (PyStr.nonempty (PyStr.strip s)); reflexivity.
Qed.

Lemma last_wins_items (payload : list json) (st : gmap string json * nat)
    (k : string) :
  fst (foldl (add_evidence_item is_valid_evidence_item) st payload) !! k
  = match last (filter (fun item => evidence_key is_valid_evidence_item item = Some k)
                       payload) with
    | Some item => Some item
    | None => fst st !! k
    end.
Proof.
  revert st. induction payload as [|item tl IH]; intros st; [reflexivity|].
  cbn [foldl]. rewrite IH, filter_cons, add_evidence_item_key.
  destruct (decide (evidence_key is_valid_evidence_item item = Some k)) as [Hk|Hk].
  - rewrite Hk, lookup_insert_eq.
    destruct (filter _ tl) as [|x l] eqn:E; [reflexivity|].
    rewrite last_cons_cons. destruct (last (x :: l)) eqn:El; [reflexivity|].
    apply last_None in El. discriminate.
  - destruct (last (filter _ tl)); [reflexivity|].
    destruct (evidence_key is_valid_evidence_item item) as [k'|]; [|reflexivity].
    apply lookup_insert_ne. congruence.
Qed.

Lemma last_wins_files (pf : gmap string file) (paths : list string)
    (st st' : gmap string json * nat * nat) (k : string) :
  for_each paths st (add_evidence_file is_valid_evidence_item pf) = inr st' ->
  fst (fst st') !! k
  = match last (filter (fun item => evidence_key is_valid_evidence_item item = Some k)
                  (concat (map (fun path => match pf !! path with
                                            | Some (Data (JList payload)) => payload
                                            | _ => []
                                            end) paths))) with
    | Some item => Some item
    | None => fst (fst st) !! k
    end.
Proof.
  revert st. induction paths as [|p tl IH]; intros st.
  { intros E. injection E as <-. reflexivity. }
  rewrite for_each_cons.
  destruct (add_evidence_file is_valid_evidence_item pf st p) as [exc|st1] eqn:E1;
    cbn [bind]; [discriminate|].
  intros E. rewrite (IH st1 E). cbn [map concat]. rewrite filter_app, last_app.
  destruct (last (filter _ (concat _))) as [x|]; [reflexivity|].
  destruct st as [[by_id invalid] scanned].
  unfold add_evidence_file, path_is_file, _load_json_list in E1.
  destruct (pf !! p) as [[|err|payload]|] eqn:Hp; cbn [negb fst] in *;
    try (injection E1 as <-; reflexivity).
  - rewrite (path_exists_lookup _ _ _ Hp) in E1. cbn [negb] in E1.
    destruct (caught_by load_errors err); cbn [bind] in E1; [|discriminate].
    injection E1 as <-. reflexivity.
  - rewrite (path_exists_lookup _ _ _ Hp) in E1. cbn [negb] in E1.
    destruct payload; cbn [bind] in E1; try (injection E1 as <-; reflexivity).
    pose proof (last_wins_items l (by_id, invalid) k) as H.
    destruct (foldl _ (by_id, invalid) l) as [by_id' invalid'].
    injection E1 as <-. exact H.
Qed.

(** When several items of the evidence files have the same stripped
    [evidence_id], the last one wins: in the map that [_load_evidence_map]
    returns, an id resolves to the last valid item filed under it, the
    files being read in the order of [_iter_evidence_files] (by source
    directory) and each file from its first item to its last. *)
Theorem last_evidence_item_wins (pf : gmap string file) (k : string)
    (by_id : gmap string json) (invalid scanned : nat) :
  _load_evidence_map is_valid_evidence_item pf = inr (by_id, invalid, scanned) ->
  by_id !! k
  = last (filter (fun item => evidence_key is_valid_evidence_item item = Some k)
                 (evidence_items pf)).
Proof.
  unfold _load_evidence_map, evidence_items. intros E.
  pose proof (last_wins_files _ _ _ _ k E) as H. cbn [fst] in H.
  rewrite H, lookup_empty. destruct (last _); reflexivity.
Qed.

(** Every entry of the evidence map that the gate loads is a valid object
    filed under its own [evidence_id] with the surrounding blanks removed;
    no key is empty or has a blank at either end. *)
Theorem evidence_map_keys_are_stripped_ids (pf : gmap string file)
    (k : string) (item : json) :
  loaded_evidence is_valid_evidence_item pf !! k = Some item ->
  is_dict item = true /\ is_valid_evidence_item item = true
  /\ PyStr.nonempty k = true /\ PyStr.strip k = k
  /\ exists e, get "evidence_id" item = JStr e /\ PyStr.strip e = k.
Proof.
  intros Hk.
  destruct (loaded_evidence_keyed pf k item Hk) as (Hd & Hv & Hn & e & He & Hs).
  repeat split; try assumption.
  - rewrite <- Hs. apply strip_idempotent.
  - exists e. split; assumption.
Qed.

(** A claim that cites an evidence id written with a blank before or after
    it is never checked: the id is looked up as written, the keys of the
    evidence map are stripped, and the claim is reported skipped with
    [evidence_ids_unresolved]. *)
Theorem padded_evidence_id_is_never_resolved
    (config : option CitationAccuracyGateConfig) (w : world) (r : gate_result)
    (claim : json) (ev_id : string) :
  enabled (effective config) = true ->
  fst (check_citation_accuracy_gate is_valid_claim_record
         is_valid_evidence_item config w) = inr r ->
  claim ∈ loaded_claims is_valid_claim_record (w_folder w) ->
  ev_id ∈ string_list_field "evidence_ids" claim ->
  PyStr.strip ev_id <> ev_id ->
  exists rep,
    rep ∈ res_reports r
    /\ r_claim_id rep = str_field "claim_id" claim
    /\ r_checked rep = false /\ r_ok rep = true
    /\ r_reasons rep = ["evidence_ids_unresolved"].
Proof.
  intros He Hr Hc Hid Hpad.
  destruct (gate_returns is_valid_claim_record is_valid_evidence_item config w r
              He Hr) as (_ & ci & present & err & ei & scanned & _ & _ & -> & _).
  cbn [fst res_reports].
  set (emap := loaded_evidence is_valid_evidence_item (w_folder w)).
  exists (claim_report (effective config) emap claim). split.
  - apply list_elem_of_fmap. exists claim. split; [reflexivity|exact Hc].
  - assert (Hu : unresolved emap claim = true).
    { apply unresolved_iff. exists ev_id. split; [exact Hid|].
      apply padded_id_lookup, Hpad. }
    unfold claim_report. rewrite Hu. unfold lacks_ids.
    destruct (string_list_field "evidence_ids" claim) eqn:Hl.
    + apply elem_of_nil in Hid. contradiction.
    + repeat split.
Qed.

(** The bookkeeping of an enabled run over a claims file that holds a list:
    one report, in file order, for each item that is a valid object of kind
    [source_backed]; [claims_invalid_items] counts the items that are not
    objects or fail validation; items of another kind are in neither; every
    report is either checked or skipped; only checked claims fail. *)
Theorem claims_accounting (config : option CitationAccuracyGateConfig)
    (w : world) (r : gate_result) (payload : list json) :
  enabled (effective config) = true ->
  fst (check_citation_accuracy_gate is_valid_claim_record
         is_valid_evidence_item config w) = inr r ->
  w_folder w !! claims_path = Some (Data (JList payload)) ->
  let usable := filter (fun i => usable_claim is_valid_claim_record i = true)
                       payload in
  map r_claim_id (res_reports r) = map (str_field "claim_id") usable
  /\ claims_invalid_items r
     = length (filter (fun i => invalid_claim is_valid_claim_record i = true)
                      payload)
  /\ checked_claims_total r + skipped_missing_evidence_total r
     = length (res_reports r)
  /\ failed_claims_total r <= checked_claims_total r
  /\ claims_read_error r = None.
Proof.
  intros He Hr Hf. cbv zeta.
  destruct (gate_returns is_valid_claim_record is_valid_evidence_item config w r
              He Hr) as (_ & ci & present & err & ei & scanned & Hc & _ & -> & _).
  cbn [fst res_reports claims_invalid_items checked_claims_total
       skipped_missing_evidence_total failed_claims_total claims_read_error].
  unfold loaded_claims in *.
  unfold _load_source_backed_claims, _load_json_list in *.
  rewrite (path_exists_lookup _ _ _ Hf), Hf in *. cbn [negb bind] in *.
  rewrite fold_add_claim in *. cbn [fst snd app Nat.add] in *.
  injection Hc as <- _ <-.
  split; [|split; [reflexivity|split; [apply count_reports_split|
           split; [apply count_reports_failed_le|reflexivity]]]].
  rewrite map_map. apply map_ext. intros claim.
  unfold claim_report.
  destruct (lacks_ids claim); [reflexivity|].
  destruct (unresolved _ claim); reflexivity.
Qed.

End Loaders.

(** *** The scores *)

Lemma jaccard_nonempty_size (a b : gset string) :
  set_is_empty a = false -> size (a ∪ b) <> 0.
Proof.
  intros Ha Hs. apply size_empty_iff in Hs.
  assert (a = ∅) as Hemp.
  { apply leibniz_equiv, equiv_empty. intros x Hx. apply Hs.
    by apply elem_of_union_l. }
  apply set_is_empty_spec in Hemp. congruence.
Qed.

Lemma jaccard_comm (a b : gset string) : _jaccard a b = _jaccard b a.
Proof.
  unfold _jaccard. rewrite (andb_comm (set_is_empty a)), (orb_comm (set_is_empty a)).
  assert (a ∩ b = b ∩ a) as -> by (apply leibniz_equiv; apply (comm (∩))).
  assert (a ∪ b = b ∪ a) as -> by (apply leibniz_equiv; apply (comm (∪))).
  reflexivity.
Qed.

Lemma jaccard_one_iff (a b : gset string) : (_jaccard a b == 1)%Q <-> a = b.
Proof.
  unfold _jaccard.
  destruct (set_is_empty a) eqn:Ea, (set_is_empty b) eqn:Eb; cbn [andb orb].
  - apply set_is_empty_spec in Ea, Eb. subst. split; reflexivity.
  - split; [discriminate|]. intros ->. congruence.
  - split; [discriminate|]. intros ->. congruence.
  - pose proof (jaccard_nonempty_size a b Ea) as Hu.
    destruct (size (a ∪ b) =? 0)%nat eqn:E; [apply Nat.eqb_eq in E; contradiction|].
    unfold Qeq. cbn [Qnum Qden]. rewrite Z.mul_1_r, Z.mul_1_l.
    rewrite <- positive_nat_Z, Nat2Pos.id by exact Hu.
    split.
    + intros Hs. apply Nat2Z.inj in Hs.
      assert (Hsub : a ∩ b ⊆ a ∪ b).
      { intros x Hx. apply elem_of_intersection in Hx as [Hx _].
        by apply elem_of_union_l. }
      pose proof (set_subseteq_size_eq _ _ Hsub ltac:(lia)) as Heq.
      apply leibniz_equiv. intros x. split; intros Hx.
      * assert (Hi : x ∈ a ∩ b) by (rewrite Heq; by apply elem_of_union_l).
        by apply elem_of_intersection in Hi as [_ Hi].
      * assert (Hi : x ∈ a ∩ b) by (rewrite Heq; by apply elem_of_union_r).
        by apply elem_of_intersection in Hi as [Hi _].
    + intros ->. rewrite (idemp_L (∩) b), (idemp_L (∪) b). reflexivity.
Qed.

Lemma jaccard_zero_iff (a b : gset string) :
  (_jaccard a b == 0)%Q <-> a ∩ b = ∅ /\ (a <> ∅ \/ b <> ∅).
Proof.
  unfold _jaccard.
  destruct (set_is_empty a) eqn:Ea, (set_is_empty b) eqn:Eb; cbn [andb orb].
  - apply set_is_empty_spec in Ea, Eb. subst. split; [discriminate|].
    intros [_ [H|H]]; contradiction.
  - apply set_is_empty_spec in Ea. subst. split; [|reflexivity].
    intros _. split; [apply intersection_empty_l_L|]. right. intros ->.
    discriminate.
  - apply set_is_empty_spec in Eb. subst. split; [|reflexivity].
    intros _. split; [apply intersection_empty_r_L|]. left. intros ->.
    discriminate.
  - pose proof (jaccard_nonempty_size a b Ea) as Hu.
    destruct (size (a ∪ b) =? 0)%nat eqn:E; [apply Nat.eqb_eq in E; contradiction|].
    unfold Qeq. cbn [Qnum Qden]. rewrite Z.mul_1_r, Z.mul_0_l.
    split.
    + intros Hs. split.
      * apply leibniz_equiv. apply size_empty_iff. lia.
      * left. intros ->. discriminate.
    + intros [Hi _]. rewrite Hi. reflexivity.
Qed.

(** [_jaccard] does not depend on the order of its arguments; it is 1
    exactly when the two sets are equal, and 0 exactly when they share
    nothing and are not both empty. *)
Theorem jaccard_symmetric_and_extremes (a b : gset string) :
  _jaccard a b = _jaccard b a
  /\ ((_jaccard a b == 1)%Q <-> a = b)
  /\ ((_jaccard a b == 0)%Q <-> a ∩ b = ∅ /\ (a <> ∅ \/ b <> ∅)).
Proof.
  split; [apply jaccard_comm|]. split; [apply jaccard_one_iff|apply jaccard_zero_iff].
Qed.

Lemma four_checks (c1 c2 c3 c4 : bool) (r1 r2 r3 r4 : string) :
  let st := fail_if c4 r4 (fail_if c3 r3 (fail_if c2 r2 (fail_if c1 r1 (true, [])))) in
  (fst st = true <-> snd st = []) /\ snd st `sublist_of` [r1; r2; r3; r4].
Proof.
  destruct c1, c2, c3, c4; cbn; (split; [split; intros; congruence|]);
    repeat first [apply sublist_nil | apply sublist_skip | apply sublist_cons].
Qed.

(** The report of a checked claim is [ok] exactly when it gives no reason,
    and its reasons are some of the four reasons of the source, in the
    order of the four checks, each at most once. (A skipped report is [ok]
    and carries one reason.) *)
Theorem checked_report_ok_iff_no_reason (cfg : CitationAccuracyGateConfig)
    (claim : json) (evidence_items : list json) :
  let rep := verify_claim cfg claim evidence_items in
  (r_ok rep = true <-> r_reasons rep = [])
  /\ r_reasons rep `sublist_of`
       [ "keyword_overlap_below_threshold"; "entity_overlap_below_threshold";
         "numeric_mismatch"; "alignment_score_below_threshold" ].
Proof.
  cbv zeta. unfold verify_claim. cbn [r_ok r_reasons].
  unfold score_claim. cbn [claim_ok reasons].
  exact (four_checks _ _ _ _ _ _ _ _).
Qed.


(** *** Thresholds *)

Lemma spec_failed_monotone (lax strict : CitationAccuracyGateConfig)
    (st ev : string) :
  no_stricter lax strict -> spec_failed lax st ev -> spec_failed strict st ev.
Proof.
  intros (He & Hn & _ & Hk & Hent & Ha).
  assert (Hnum : numeric_check_fails lax st ev = numeric_check_fails strict st ev).
  { unfold numeric_check_fails. rewrite Hn. reflexivity. }
  assert (Heo : spec_entity_overlap lax st ev = spec_entity_overlap strict st ev).
  { unfold spec_entity_overlap. rewrite He. reflexivity. }
  assert (Hal : spec_alignment_score lax st ev = spec_alignment_score strict st ev).
  { unfold spec_alignment_score. rewrite He, Heo, Hnum. reflexivity. }
  unfold spec_failed. rewrite He, Hnum, Heo, Hal.
  intros [H|[[H1 H2]|[H|H]]].
  - left. lra.
  - right. left. split; [exact H1|lra].
  - right. right. left. exact H.
  - right. right. right. lra.
Qed.

Lemma evidence_text_same_max (lax strict : CitationAccuracyGateConfig)
    (items : list json) :
  max_evidence_items_per_claim lax = max_evidence_items_per_claim strict ->
  evidence_text_of lax items = evidence_text_of strict items.
Proof. intros H. unfold evidence_text_of. rewrite H. reflexivity. Qed.

Lemma verify_claim_monotone (lax strict : CitationAccuracyGateConfig)
    (claim : json) (items : list json) :
  no_stricter lax strict ->
  r_ok (verify_claim lax claim items) = false ->
  r_ok (verify_claim strict claim items) = false.
Proof.
  intros Hns. unfold verify_claim. cbn [r_ok].
  rewrite !claim_ok_spec.
  rewrite (evidence_text_same_max lax strict items) by apply Hns.
  apply spec_failed_monotone, Hns.
Qed.

Lemma claim_report_monotone (lax strict : CitationAccuracyGateConfig)
    (emap : gmap string json) (claim : json) :
  no_stricter lax strict ->
  failed_report (claim_report lax emap claim) = true ->
  failed_report (claim_report strict emap claim) = true.
Proof.
  intros Hns. unfold claim_report.
  destruct (lacks_ids claim); [discriminate|].
  destruct (unresolved emap claim); [discriminate|].
  unfold failed_report. cbn [r_checked verify_claim andb].
  rewrite !negb_true_iff. apply verify_claim_monotone, Hns.
Qed.

Lemma count_failed_monotone (lax strict : CitationAccuracyGateConfig)
    (emap : gmap string json) (claims : list json) :
  no_stricter lax strict ->
  count_reports failed_report (map (claim_report lax emap) claims)
  <= count_reports failed_report (map (claim_report strict emap) claims).
Proof.
  intros Hns. induction claims as [|c tl IH]; cbn; [lia|].
  pose proof (claim_report_monotone lax strict emap c Hns) as H.
  destruct (failed_report (claim_report lax emap c)).
  - rewrite (H eq_refl). lia.
  - destruct (failed_report (claim_report strict emap c)); lia.
Qed.

Lemma count_reports_map_ext {A : Type} (f : report -> bool)
    (g g' : A -> report) (l : list A) :
  (forall x, f (g x) = f (g' x)) ->
  count_reports f (map g l) = count_reports f (map g' l).
Proof.
  intros H. induction l as [|x tl IH]; cbn; [reflexivity|].
  rewrite H, IH. reflexivity.
Qed.

Section Tuning.
Variable is_valid_claim_record : json -> bool.
Variable is_valid_evidence_item : json -> bool.

(** Lowering thresholds never fails more claims: between two enabled
    configurations that differ at most in their three thresholds, the one
    with the lower thresholds fails no claim that the other passes, fails
    no more claims in total, gives every claim the same scores, and passes
    every project the other passes. *)
Theorem lower_thresholds_fail_no_more (lax strict : CitationAccuracyGateConfig)
    (w : world) :
  no_stricter lax strict ->
  enabled lax = true -> enabled strict = true ->
  let gate := check_citation_accuracy_gate is_valid_claim_record
                is_valid_evidence_item in
  match fst (gate (Some lax) w), fst (gate (Some strict) w) with
  | inr a, inr b =>
      failed_claims_total a <= failed_claims_total b
      /\ checked_claims_total a = checked_claims_total b
      /\ map r_alignment_score (res_reports a)
         = map r_alignment_score (res_reports b)
      /\ (res_action b = Pass -> res_action a = Pass)
  | inl exc, inl exc' => exc = exc'
  | _, _ => False
  end
  /\ (forall claim items,
        r_ok (verify_claim strict claim items) = true ->
        r_ok (verify_claim lax claim items) = true).
Proof.
  intros Hns Hl Hs. cbv zeta.
  assert (Hok : forall claim items,
            r_ok (verify_claim strict claim items) = true ->
            r_ok (verify_claim lax claim items) = true).
  { intros claim items Hok.
    destruct (r_ok (verify_claim lax claim items)) eqn:E; [reflexivity|].
    rewrite (verify_claim_monotone lax strict claim items Hns E) in Hok.
    discriminate. }
  split; [|exact Hok].
  pose proof (gate_enabled is_valid_claim_record is_valid_evidence_item
                (Some lax) w Hl) as H1.
  pose proof (gate_enabled is_valid_claim_record is_valid_evidence_item
                (Some strict) w Hs) as H2.
  cbv zeta in H1, H2.
  destruct (gate_raises (w_folder w)) as [exc|].
  { rewrite H1, H2. reflexivity. }
  destruct H1 as (? & ? & ? & ? & ? & _ & _ & ->).
  destruct H2 as (? & ? & ? & ? & ? & _ & _ & ->).
  cbn [fst effective failed_claims_total checked_claims_total res_reports res_action].
  set (emap := loaded_evidence is_valid_evidence_item (w_folder w)).
  set (claims := loaded_claims is_valid_claim_record (w_folder w)).
  pose proof (count_failed_monotone lax strict emap claims Hns) as Hle.
  assert (Hsame : forall c,
            r_checked (claim_report lax emap c) = r_checked (claim_report strict emap c)
            /\ r_alignment_score (claim_report lax emap c)
               = r_alignment_score (claim_report strict emap c)).
  { intros c. unfold claim_report.
    destruct (lacks_ids c); [split; reflexivity|].
    destruct (unresolved emap c); [split; reflexivity|].
    split; [reflexivity|]. unfold verify_claim. cbn [r_alignment_score].
    rewrite (evidence_text_same_max lax strict) by apply Hns.
    destruct Hns as (He & Hn & _). unfold score_claim. cbn [alignment_score].
    rewrite He, Hn. reflexivity. }
  split; [exact Hle|]. split; [|split].
  - apply count_reports_map_ext. intros c. exact (proj1 (Hsame c)).
  - rewrite !map_map. apply map_ext. intros c. exact (proj2 (Hsame c)).
  - unfold verdict.
    destruct (count_reports failed_report (map (claim_report strict emap) claims))
      as [|n] eqn:E.
    + assert (count_reports failed_report (map (claim_report lax emap) claims) = 0)
        as -> by lia. reflexivity.
    + cbn. destruct (on_failure strict); discriminate.
Qed.

End Tuning.

(** A claim compared with its own wording as evidence passes under every
    configuration whose thresholds are at most 1, with score 1 and no
    reason. *)
Theorem verbatim_evidence_passes (cfg : CitationAccuracyGateConfig)
    (text : string) :
  (min_keyword_overlap cfg <= 1)%Q ->
  (min_entity_overlap cfg <= 1)%Q ->
  (min_alignment_score cfg <= 1)%Q ->
  let s := score_claim cfg text text in
  claim_ok s = true /\ (alignment_score s == 1)%Q
  /\ (keyword_overlap s == 1)%Q /\ numeric_ok s = true.
Proof.
  intros Hk He Ha. cbv zeta.
  assert (Hkw : (spec_keyword_overlap text text == 1)%Q).
  { unfold spec_keyword_overlap.
    apply jaccard_one_iff. reflexivity. }
  assert (Hnum : numeric_check_fails cfg text text = false).
  { unfold numeric_check_fails.
    destruct (enable_numeric_consistency cfg); [|reflexivity]. cbn [andb].
    rewrite bool_decide_eq_true_2; [reflexivity|].
    unfold non_year_numbers. intros n Hn. apply elem_of_filter in Hn. tauto. }
  assert (Hent : enable_entity_overlap cfg = true ->
                 (spec_entity_overlap cfg text text == 1)%Q).
  { intros H. unfold spec_entity_overlap. rewrite H.
    apply jaccard_one_iff. reflexivity. }
  assert (Hal : (spec_alignment_score cfg text text == 1)%Q).
  { unfold spec_alignment_score. rewrite Hnum.
    destruct (enable_entity_overlap cfg) eqn:E; [|exact Hkw].
    rewrite Hkw, (Hent eq_refl). apply Q.min_l. lra. }
  split; [|split; [|split]].
  - destruct (claim_ok (score_claim cfg text text)) eqn:E; [reflexivity|].
    apply claim_ok_spec in E. exfalso.
    destruct E as [H|[[H1 H2]|[H|H]]].
    + rewrite Hkw in H. lra.
    + rewrite (Hent H1) in H2. lra.
    + congruence.
    + rewrite Hal in H. lra.
  - rewrite alignment_score_spec. exact Hal.
  - exact Hkw.
  - rewrite numeric_ok_spec, Hnum. reflexivity.
Qed.

Lemma last_evidence_item_witness :
  exists by_id invalid scanned,
    _load_evidence_map accept_all (w_folder twice_filed_project)
    = inr (by_id, invalid, scanned)
    /\ by_id !! "ev1" = Some (evidence_item "ev1 " "Second.").
Proof.
  assert (E : exists st, _load_evidence_map accept_all (w_folder twice_filed_project)
                         = inr st) by (eexists; vm_compute; reflexivity).
  destruct E as [[[by_id invalid] scanned] E].
  exists by_id, invalid, scanned. split; [exact E|].
  rewrite (last_evidence_item_wins accept_all _ "ev1" _ _ _ E).
  vm_compute. reflexivity.
Defined.

Lemma evidence_map_keys_witness :
  loaded_evidence accept_all (w_folder padded_project) !! "ev1"
  = Some (evidence_item "ev1 " "Rates rose.")
  /\ PyStr.strip "ev1" = "ev1".
Proof.
  assert (H : loaded_evidence accept_all (w_folder padded_project) !! "ev1"
              = Some (evidence_item "ev1 " "Rates rose."))
    by (vm_compute; reflexivity).
  split; [exact H|].
  apply (evidence_map_keys_are_stripped_ids accept_all _ _ _ H).
Defined.

Lemma padded_evidence_id_witness :
  enabled (effective (Some cfg_block)) = true
  /\ padded_claim ∈ loaded_claims accept_all (w_folder padded_project)
  /\ " ev1" ∈ string_list_field "evidence_ids" padded_claim
  /\ PyStr.strip " ev1" <> " ev1"
  /\ exists r rep,
       fst (check_citation_accuracy_gate accept_all accept_all
              (Some cfg_block) padded_project) = inr r
       /\ rep ∈ res_reports r
       /\ r_checked rep = false
       /\ r_reasons rep = ["evidence_ids_unresolved"].
Proof.
  assert (E : exists r, fst (check_citation_accuracy_gate accept_all accept_all
                               (Some cfg_block) padded_project) = inr r).
  { eexists. vm_compute. reflexivity. }
  destruct E as [r E].
  assert (H1 : enabled (effective (Some cfg_block)) = true) by reflexivity.
  assert (H2 : padded_claim ∈ loaded_claims accept_all (w_folder padded_project)).
  { assert (loaded_claims accept_all (w_folder padded_project) = [padded_claim])
      as -> by (vm_compute; reflexivity).
    apply list_elem_of_here. }
  assert (H3 : " ev1" ∈ string_list_field "evidence_ids" padded_claim).
  { assert (string_list_field "evidence_ids" padded_claim = [" ev1"])
      as -> by (vm_compute; reflexivity).
    apply list_elem_of_here. }
  assert (H4 : PyStr.strip " ev1" <> " ev1") by (vm_compute; discriminate).
  do 4 (split; [assumption|]).
  destruct (padded_evidence_id_is_never_resolved accept_all accept_all
              (Some cfg_block) padded_project r padded_claim " ev1" H1 E H2 H3 H4)
    as (rep & Hin & _ & Hc & _ & Hr).
  exists r, rep. auto.
Defined.

Lemma claims_accounting_witness :
  enabled (effective (Some cfg_block)) = true
  /\ w_folder mixed_project !! claims_path = Some (Data (JList mixed_claims))
  /\ exists r,
       fst (check_citation_accuracy_gate accept_all accept_all
              (Some cfg_block) mixed_project) = inr r
       /\ claims_invalid_items r = 1
       /\ checked_claims_total r + skipped_missing_evidence_total r
          = length (res_reports r).
Proof.
  assert (E : exists r, fst (check_citation_accuracy_gate accept_all accept_all
                               (Some cfg_block) mixed_project) = inr r).
  { eexists. vm_compute. reflexivity. }
  destruct E as [r E].
  assert (H1 : enabled (effective (Some cfg_block)) = true) by reflexivity.
  assert (H2 : w_folder mixed_project !! claims_path
               = Some (Data (JList mixed_claims))) by (vm_compute; reflexivity).
  split; [exact H1|]. split; [exact H2|]. exists r. split; [exact E|].
  destruct (claims_accounting accept_all accept_all (Some cfg_block)
              mixed_project r mixed_claims H1 E H2) as (_ & Hi & Hs & _).
  split; [rewrite Hi; reflexivity|exact Hs].
Defined.

Lemma lower_thresholds_witness :
  no_stricter cfg_pass cfg_block
  /\ enabled cfg_pass = true /\ enabled cfg_block = true
  /\ exists a b,
       fst (check_citation_accuracy_gate accept_all accept_all
              (Some cfg_pass) misaligned_project) = inr a
       /\ fst (check_citation_accuracy_gate accept_all accept_all
                 (Some cfg_block) misaligned_project) = inr b
       /\ failed_claims_total a <= failed_claims_total b.
Proof.
  assert (H1 : no_stricter cfg_pass cfg_block).
  { unfold no_stricter. repeat split; try reflexivity; unfold Qle; cbn; lia. }
  split; [exact H1|]. split; [reflexivity|]. split; [reflexivity|].
  pose proof (lower_thresholds_fail_no_more accept_all accept_all cfg_pass
                cfg_block misaligned_project H1 eq_refl eq_refl) as [H _].
  cbv zeta in H.
  assert (Ea : exists a, fst (check_citation_accuracy_gate accept_all accept_all
                                (Some cfg_pass) misaligned_project) = inr a)
    by (eexists; vm_compute; reflexivity).
  assert (Eb : exists b, fst (check_citation_accuracy_gate accept_all accept_all
                                (Some cfg_block) misaligned_project) = inr b)
    by (eexists; vm_compute; reflexivity).
  destruct Ea as [a Ea], Eb as [b Eb]. rewrite Ea, Eb in H.
  exists a, b. split; [exact Ea|]. split; [exact Eb|]. apply H.
Defined.

Lemma verbatim_evidence_witness :
  (min_keyword_overlap cfg_block <= 1)%Q
  /\ (min_entity_overlap cfg_block <= 1)%Q
  /\ (min_alignment_score cfg_block <= 1)%Q
  /\ claim_ok (score_claim cfg_block "Rates rose in 2020." "Rates rose in 2020.")
     = true.
Proof.
  assert (H1 : (min_keyword_overlap cfg_block <= 1)%Q) by (unfold Qle; cbn; lia).
  assert (H2 : (min_entity_overlap cfg_block <= 1)%Q) by (unfold Qle; cbn; lia).
  assert (H3 : (min_alignment_score cfg_block <= 1)%Q) by (unfold Qle; cbn; lia).
  do 3 (split; [assumption|]).
  apply (verbatim_evidence_passes cfg_block "Rates rose in 2020." H1 H2 H3).
Defined.

End GateMoreFacts.

(* ===================================================================== *)
(** * Building the gate's configuration *)
(* ===================================================================== *)

Module GateConfigFacts.
Import Json PyExc AccuracyGate GateSpec GateConfig Inputs GateFacts MoreInputs.

Lemma clamp_unit_finite (x : pyfloat) :
  exists q, clamp_unit x = Finite q /\ (0 <= q <= 1)%Q.
Proof.
  unfold clamp_unit, fmax, fmin.
  destruct x as [a| | |]; cbn [flt].
  - destruct (Qltb 0 a) eqn:E0; cbn [flt].
    + apply Qltb_lt in E0. destruct (Qltb a 1) eqn:E1.
      * apply Qltb_lt in E1. exists a. split; [reflexivity|lra].
      * exists 1%Q. split; [reflexivity|lra].
    + exists 0%Q. split; [reflexivity|lra].
  - exists 1%Q. split; [reflexivity|lra].
  - exists 0%Q. split; [reflexivity|lra].
  - exists 0%Q. split; [reflexivity|lra].
Qed.

Lemma clamp_unit_cli_finite (x : pyfloat) :
  exists q, clamp_unit_cli x = Finite q /\ (0 <= q <= 1)%Q.
Proof.
  unfold clamp_unit_cli, fmax, fmin.
  destruct x as [a| | |]; cbn [flt].
  - destruct (Qltb a 1) eqn:E1; cbn [flt].
    + apply Qltb_lt in E1. destruct (Qltb 0 a) eqn:E0.
      * apply Qltb_lt in E0. exists a. split; [reflexivity|lra].
      * exists 0%Q. split; [reflexivity|lra].
    + exists 1%Q. split; [reflexivity|lra].
  - exists 1%Q. split; [reflexivity|lra].
  - exists 0%Q. split; [reflexivity|lra].
  - exists 1%Q. split; [reflexivity|lra].
Qed.

Lemma clamp_unit_bounds (x : pyfloat) : (0 <= finite_value (clamp_unit x) <= 1)%Q.
Proof. destruct (clamp_unit_finite x) as (q & -> & H). exact H. Qed.

Lemma clamp_unit_cli_bounds (x : pyfloat) :
  (0 <= finite_value (clamp_unit_cli x) <= 1)%Q.
Proof. destruct (clamp_unit_cli_finite x) as (q & -> & H). exact H. Qed.

Lemma on_failure_of_downgrade (v : value) :
  on_failure_of v = OnDowngrade <-> v = VStr "downgrade".
Proof.
  destruct v; cbn; try (split; discriminate).
  destruct (String.eqb s "downgrade") eqn:E.
  - apply String.eqb_eq in E. subst. split; reflexivity.
  - apply String.eqb_neq in E. split; [discriminate|]. intros H. congruence.
Qed.

Section Builtins.
Variable py_float : value -> conversion pyfloat.
Variable py_int : value -> conversion Z.

(** Whatever the context holds, a configuration that [from_context] returns
    has its three thresholds between 0 and 1 and a maximum of at least one
    evidence item; [on_failure] is [downgrade] only for the string
    [downgrade], and [block] for anything else; [enabled] is the truth value
    of the entry, so that any non-empty string enables the gate; without a
    dictionary under [citation_accuracy_gate] the defaults are returned.
    The call raises only what [float] or [int] raise besides [TypeError]
    and [ValueError]. *)
Theorem from_context_sanitises (context : list (string * value)) :
  match from_context py_float py_int context with
  | inr cfg =>
      (0 <= min_alignment_score cfg <= 1)%Q
      /\ (0 <= min_keyword_overlap cfg <= 1)%Q
      /\ (0 <= min_entity_overlap cfg <= 1)%Q
      /\ 1 <= max_evidence_items_per_claim cfg
      /\ (forall raw,
            dict_get "citation_accuracy_gate" context = Some (VDict raw) ->
            enabled cfg = truth (get_or "enabled" (VBool false) raw)
            /\ (on_failure cfg = OnDowngrade <->
                dict_get "on_failure" raw = Some (VStr "downgrade"))
            /\ (forall s, dict_get "enabled" raw = Some (VStr s) ->
                  enabled cfg = PyStr.nonempty s))
      /\ ((forall raw,
             dict_get "citation_accuracy_gate" context <> Some (VDict raw)) ->
          cfg = default_config)
  | inl exc =>
      exists v, py_float v = Raised exc \/ py_int v = Raised exc
  end.
Proof.
  unfold from_context.
  destruct (dict_get "citation_accuracy_gate" context) as [[| | | | | |raw]|] eqn:Hraw;
    try (cbn; repeat split; try lra; try lia; try discriminate;
         intros H; try reflexivity; exfalso; eapply H; reflexivity).
  unfold _as_float, _as_int, bind.
  repeat match goal with
  | |- context [py_float ?v] =>
      let E := fresh "E" in destruct (py_float v) as [?| |?] eqn:E;
      try (eexists; left; exact E)
  | |- context [py_int ?v] =>
      let E := fresh "E" in destruct (py_int v) as [?| |?] eqn:E;
      try (eexists; right; exact E)
  end;
  cbn [min_alignment_score min_keyword_overlap min_entity_overlap
       max_evidence_items_per_claim enabled on_failure];
  (split; [apply clamp_unit_bounds|]);
  (split; [apply clamp_unit_bounds|]);
  (split; [apply clamp_unit_bounds|]);
  (split; [match goal with |- context [(?n <? 1)%Z] =>
             destruct (Z.ltb_spec n 1); lia end
          || (cbn; lia)|]);
  (split; [|intros H; exfalso; eapply H; reflexivity]);
  intros raw' Hr; injection Hr as <-;
  (split; [reflexivity|]);
  (split; [|intros s Hs; unfold get_or; rewrite Hs; reflexivity]);
  rewrite on_failure_of_downgrade; unfold get_or;
  (destruct (dict_get "on_failure" raw) as [v|];
   [split; intros; congruence|split; discriminate]).
Qed.

End Builtins.


Section Pipeline.
Variable py_float : value -> conversion pyfloat.
Variable py_int : value -> conversion Z.
Variable is_valid_claim_record : json -> bool.
Variable is_valid_evidence_item : json -> bool.

Lemma default_gate_config_config (mode : string) :
  (forall x, py_float (VFloat x) = Converted x) ->
  (forall n, py_int (VInt n) = Converted n) ->
  from_context py_float py_int (default_gate_config mode)
  = inr {| enabled := negb (String.eqb mode "skip");
           on_failure := if String.eqb mode "block" then OnBlock else OnDowngrade;
           min_alignment_score := 18 # 100;
           min_keyword_overlap := 6 # 100;
           enable_entity_overlap := false;
           min_entity_overlap := 20 # 100;
           enable_numeric_consistency := false;
           max_evidence_items_per_claim := 5 |}.
Proof.
  intros Hf Hi. unfold from_context, default_gate_config.
  cbn [dict_get String.eqb Ascii.eqb Bool.eqb].
  unfold get_or. cbn [dict_get String.eqb Ascii.eqb Bool.eqb].
  unfold _as_float, _as_int. rewrite !Hf, Hi. cbn [bind truth].
  f_equal. destruct (String.eqb mode "block"); reflexivity.
Qed.

(** The pipeline's default gate configuration, read by [from_context]: in
    every mode but [skip] the accuracy gate is enabled with the default
    thresholds; it blocks only in mode [block], so that under the default
    mode [warn], and under any mode name that is not [block], an evaluation
    never returns [ok = false] and [enforce_citation_accuracy_gate] never
    raises [CitationAccuracyGateError]: it returns the result, or lets
    through the exception of a loader. *)
Theorem default_mode_never_blocks (mode : string) (w : world) :
  (forall x, py_float (VFloat x) = Converted x) ->
  (forall n, py_int (VInt n) = Converted n) ->
  exists cfg,
    from_context py_float py_int (default_gate_config mode) = inr cfg
    /\ enabled cfg = negb (String.eqb mode "skip")
    /\ (on_failure cfg = OnBlock <-> mode = "block")
    /\ min_alignment_score cfg = min_alignment_score default_config
    /\ min_keyword_overlap cfg = min_keyword_overlap default_config
    /\ enable_entity_overlap cfg = false
    /\ enable_numeric_consistency cfg = false
    /\ max_evidence_items_per_claim cfg = 5
    /\ let enforced := fst (enforce_citation_accuracy_gate is_valid_claim_record
                              is_valid_evidence_item (Some cfg) w) in
       match fst (check_citation_accuracy_gate is_valid_claim_record
                    is_valid_evidence_item (Some cfg) w) with
       | inr r =>
           (mode = "skip" -> res_action r = Disabled)
           /\ (mode <> "block" -> res_ok r = true /\ enforced = Enforced r)
           /\ (mode = "block" ->
                 (res_ok r = false <-> 0 < failed_claims_total r)
                 /\ (enforced = GateError r <-> 0 < failed_claims_total r))
       | inl exc => mode <> "skip" /\ enforced = Propagated exc
       end.
Proof.
  intros Hf Hi. eexists. split; [apply default_gate_config_config; assumption|].
  cbn [enabled on_failure min_alignment_score min_keyword_overlap
       enable_entity_overlap enable_numeric_consistency
       max_evidence_items_per_claim default_config].
  split; [reflexivity|]. split.
  { destruct (String.eqb mode "block") eqn:E.
    - apply String.eqb_eq in E. tauto.
    - apply String.eqb_neq in E. split; [discriminate|contradiction]. }
  do 5 (split; [reflexivity|]).
  set (cfg := {| enabled := _ |}). cbv zeta.
  unfold enforce_citation_accuracy_gate, mbind, M_bind.
  destruct (String.eqb mode "skip") eqn:Eskip.
  - rewrite (gate_disabled is_valid_claim_record is_valid_evidence_item
               (Some cfg) w eq_refl).
    cbn [fst res_action res_ok res_enabled failed_claims_total].
    split; [reflexivity|]. split; [split; reflexivity|].
    intros ->. discriminate.
  - pose proof (gate_enabled is_valid_claim_record is_valid_evidence_item
                  (Some cfg) w eq_refl) as H. cbv zeta in H.
    apply String.eqb_neq in Eskip.
    destruct (gate_raises (w_folder w)) as [exc|].
    { rewrite H. cbn [fst]. split; [exact Eskip|reflexivity]. }
    destruct H as (? & ? & ? & ? & ? & _ & _ & ->).
    cbn [fst res_action res_ok res_enabled failed_claims_total effective].
    split; [intros H; contradiction|].
    unfold verdict. cbn [on_failure cfg].
    set (failed := count_reports failed_report _).
    destruct (String.eqb mode "block") eqn:E.
    + apply String.eqb_eq in E. split; [intros H; contradiction|]. intros _.
      destruct failed; cbn; (split; split); intros; try lia; try discriminate;
        reflexivity.
    + split.
      * intros _. destruct (0 <? failed)%nat; cbn; split; reflexivity.
      * apply String.eqb_neq in E. intros H. contradiction.
Qed.

(** The exit code of [scripts/run_citation_accuracy_gate.py]: 2 exactly
    when [--enabled] is given, [--on-failure] is [block] and some checked
    claim failed; 0 otherwise, in particular always without [--enabled];
    when a loader of the gate lets an exception through, so does [main].
    The thresholds it runs the gate with lie between 0 and 1 whatever floats
    are given, and the maximum is at least 1. *)
Theorem script_exit_code (args : arguments) (w : world) :
  let cfg := cli_config args in
  let out := main is_valid_claim_record is_valid_evidence_item args w in
  match fst (check_citation_accuracy_gate is_valid_claim_record
               is_valid_evidence_item (Some cfg) w) with
  | inr r =>
      (fst out = inr 2%Z <->
         arg_enabled args = true /\ arg_on_failure args = OnBlock
         /\ 0 < failed_claims_total r)
      /\ (fst out = inr 0%Z <-> res_ok r = true)
      /\ (fst out = inr 0%Z \/ fst out = inr 2%Z)
  | inl exc => arg_enabled args = true /\ fst out = inl exc
  end
  /\ snd out = snd (check_citation_accuracy_gate is_valid_claim_record
                      is_valid_evidence_item (Some cfg) w)
  /\ (0 <= min_alignment_score cfg <= 1)%Q
  /\ (0 <= min_keyword_overlap cfg <= 1)%Q
  /\ (0 <= min_entity_overlap cfg <= 1)%Q
  /\ 1 <= max_evidence_items_per_claim cfg.
Proof.
  cbv zeta.
  assert (Hmax : 1 <= max_evidence_items_per_claim (cli_config args)).
  { cbn. unfold at_least_one.
    destruct (Z.ltb_spec 1 (arg_max_evidence_items_per_claim args)); lia. }
  assert (Hb : (0 <= min_alignment_score (cli_config args) <= 1)%Q
               /\ (0 <= min_keyword_overlap (cli_config args) <= 1)%Q
               /\ (0 <= min_entity_overlap (cli_config args) <= 1)%Q).
  { cbn. repeat split; apply clamp_unit_cli_bounds. }
  destruct Hb as (Hb1 & Hb2 & Hb3).
  set (cfg := cli_config args) in *.
  assert (Hcode :
    let out := main is_valid_claim_record is_valid_evidence_item args w in
    match fst (check_citation_accuracy_gate is_valid_claim_record
                 is_valid_evidence_item (Some cfg) w) with
    | inr r =>
        (fst out = inr 2%Z <->
           arg_enabled args = true /\ arg_on_failure args = OnBlock
           /\ 0 < failed_claims_total r)
        /\ (fst out = inr 0%Z <-> res_ok r = true)
        /\ (fst out = inr 0%Z \/ fst out = inr 2%Z)
    | inl exc => arg_enabled args = true /\ fst out = inl exc
    end
    /\ snd out = snd (check_citation_accuracy_gate is_valid_claim_record
                        is_valid_evidence_item (Some cfg) w)).
  { cbv zeta. unfold main, enforce_citation_accuracy_gate, mbind, M_bind.
    fold cfg.
    destruct (arg_enabled args) eqn:Een.
    - pose proof (gate_enabled is_valid_claim_record is_valid_evidence_item
                    (Some cfg) w Een) as H. cbv zeta in H.
      destruct (gate_raises (w_folder w)) as [exc|].
      { rewrite H. cbn [fst snd]. auto. }
      destruct H as (? & ? & ? & ? & ? & _ & _ & ->).
      cbn [fst snd res_enabled res_action res_ok failed_claims_total effective].
      unfold verdict. replace (on_failure cfg) with (arg_on_failure args)
        by reflexivity.
      destruct (count_reports failed_report _) as [|n];
        [|destruct (arg_on_failure args)]; cbn;
        repeat split; intros; try discriminate; try lia; try reflexivity;
        try tauto;
        try match goal with H : _ /\ _ /\ _ |- _ =>
              destruct H as (? & ? & ?); first [discriminate | lia] end.
    - rewrite (gate_disabled is_valid_claim_record is_valid_evidence_item
                 (Some cfg) w Een).
      cbn. repeat split; intros; try discriminate; try reflexivity; try tauto.
      destruct H as (? & _). discriminate. }
  cbv zeta in Hcode. tauto.
Qed.

End Pipeline.

Lemma default_mode_witness :
  (forall x, float_of_number (VFloat x) = Converted x)
  /\ (forall n, int_of_number (VInt n) = Converted n)
  /\ exists cfg r,
       from_context float_of_number int_of_number (default_gate_config "warn")
       = inr cfg
       /\ fst (check_citation_accuracy_gate accept_all accept_all
                 (Some cfg) misaligned_project) = inr r
       /\ res_ok r = true.
Proof.
  assert (H1 : forall x, float_of_number (VFloat x) = Converted x)
    by (intros; reflexivity).
  assert (H2 : forall n, int_of_number (VInt n) = Converted n)
    by (intros; reflexivity).
  split; [exact H1|]. split; [exact H2|].
  destruct (default_mode_never_blocks float_of_number int_of_number
              accept_all accept_all "warn" misaligned_project H1 H2)
    as (cfg & Hcfg & _ & _ & _ & _ & _ & _ & _ & H).
  cbv zeta in H.
  assert (Ecfg : inr cfg = from_context float_of_number int_of_number
                              (default_gate_config "warn")) by (symmetry; exact Hcfg).
  vm_compute in Ecfg. injection Ecfg as ->.
  match type of H with
  | match fst ?g with _ => _ end =>
      assert (E : exists r, fst g = inr r) by (eexists; vm_compute; reflexivity)
  end.
  destruct E as [r E]. rewrite E in H. destruct H as (_ & Hok & _).
  eexists _, r. split; [reflexivity|]. split; [exact E|].
  apply Hok. discriminate.
Defined.

End GateConfigFacts.

(* ===================================================================== *)
(** * Further properties of the literature client *)
(* ===================================================================== *)

Module EdisonMoreFacts.
Import AccuracyGate Edison EdisonSpec Inputs GateFacts EdisonFacts.

(** A call that was submitted and runs to its end with no other call of the
    client in between finds its entry still in the map and stamps it with the
    time of its end, whether it ends with an answer or with an exception; the
    same query is then refused for the next 1800 s, so that a search that
    failed cannot be retried within the window of its failure. In general the
    [finally] block stamps the entry only when it is still in the map: an
    entry that another call has removed in between is not put back. *)
Theorem retry_after_any_outcome_is_blocked (self : EdisonClient)
    (query : string) (context : option string)
    (m : gmap string Q) (t0 : Q) (r : reply) (elapsed t1 : Q)
    (t2 : Q) (r2 : reply) (elapsed2 t3 : Q) :
  _client self = true ->
  reap t0 m !! fingerprint query context = None ->
  (t2 - t1 <= window)%Q ->
  let first := search_literature self query context t0 r elapsed t1 m in
  let second := search_literature self query context t2 r2 elapsed2 t3 (snd first) in
  fst first = search_literature_result query r elapsed
  /\ snd first !! fingerprint query context = Some t1
  /\ fst second = failed_result query (duplicate_error (t2 - t1)) 0
  /\ snd second !! fingerprint query context = Some t1
  /\ (forall (now : Q) (others : gmap string Q),
        search_literature_leave (fingerprint query context) now others
          !! fingerprint query context
        = match others !! fingerprint query context with
          | Some _ => Some now
          | None => None
          end
        /\ (others !! fingerprint query context = None ->
            search_literature_leave (fingerprint query context) now others
            = others)).
Proof.
  intros Hc Hfree Hwin. cbv zeta.
  set (h := fingerprint query context) in *.
  set (m1 := search_literature_leave h t1 (<[h := t0]> (reap t0 m))).
  assert (Hfirst : search_literature self query context t0 r elapsed t1 m
                   = (search_literature_result query r elapsed, m1)).
  { unfold search_literature.
    destruct (enter_cases self query context t0 m Hc) as [(t & Ht & _)|[_ ->]];
      [fold h in Ht; congruence|reflexivity]. }
  rewrite Hfirst. cbn [fst snd].
  assert (Hm1 : m1 !! h = Some t1).
  { unfold m1, search_literature_leave. rewrite lookup_insert_eq.
    apply lookup_insert_eq. }
  assert (Hr : reap t2 m1 !! h = Some t1).
  { apply reap_lookup_Some. split; [exact Hm1|exact Hwin]. }
  split; [reflexivity|]. split; [exact Hm1|].
  unfold search_literature.
  destruct (enter_cases self query context t2 m1 Hc) as [(t & Ht & ->)|[Hn _]];
    [fold h in Ht|fold h in Hn; congruence].
  assert (t = t1) as -> by congruence.
  cbn [fst snd]. split; [reflexivity|]. split; [exact Hr|].
  intros now others. unfold search_literature_leave.
  destruct (others !! h) eqn:E.
  - split; [apply lookup_insert_eq|discriminate].
  - split; [exact E|reflexivity].
Qed.

Lemma reap_size (now : Q) (m : gmap string Q) : size (reap now m) <= size m.
Proof. unfold reap. apply map_subseteq_size, map_filter_subseteq. Qed.

(** What a call does to the map of active requests. An unavailable client
    leaves it alone. On an available client, after the first locked block
    every entry is at most 1800 s old and is either an entry that was there
    or the call's own stamp; entries of other fingerprints that are still
    in the window are kept as they were; the map grows by at most one. *)
Theorem active_requests_after_a_call (self : EdisonClient)
    (query : string) (context : option string) (now : Q) (m : gmap string Q) :
  let h := fingerprint query context in
  let out := search_literature_enter self query context now m in
  (_client self = false ->
     snd out = m
     /\ exists msg, fst out = Returned (failed_result query msg 0)
                    /\ PyStr.nonempty msg = true)
  /\ (_client self = true ->
        (forall k t, snd out !! k = Some t ->
           (now - t <= window)%Q
           /\ (m !! k = Some t \/ (k = h /\ t = now)))
        /\ (forall k t, k <> h -> m !! k = Some t -> (now - t <= window)%Q ->
              snd out !! k = Some t)
        /\ size (snd out) <= S (size m)).
Proof.
  cbv zeta. split.
  - intros Hc. unfold search_literature_enter. rewrite Hc. cbn [negb fst snd].
    split; [reflexivity|].
    destruct (_init_error self) as [e|]; [destruct (PyStr.nonempty e) eqn:E|];
      eexists; (split; [reflexivity|]); [exact E|reflexivity..].
  - intros Hc.
    assert (Hfresh : (now - now <= window)%Q) by (unfold window; lra).
    destruct (enter_cases self query context now m Hc)
      as [(t0 & Ht0 & ->)|[Hn ->]]; cbn [snd].
    + split; [|split].
      * intros k t Hk. apply reap_lookup_Some in Hk as [Hk Hw]. auto.
      * intros k t _ Hk Hw. apply reap_lookup_Some. auto.
      * pose proof (reap_size now m). lia.
    + split; [|split].
      * intros k t Hk. destruct (decide (k = fingerprint query context)) as [->|Hne].
        -- rewrite lookup_insert_eq in Hk. injection Hk as <-. auto.
        -- rewrite lookup_insert_ne in Hk by congruence.
           apply reap_lookup_Some in Hk as [Hk Hw]. auto.
      * intros k t Hne Hk Hw. rewrite lookup_insert_ne by congruence.
        apply reap_lookup_Some. auto.
      * rewrite map_size_insert, Hn. pose proof (reap_size now m). lia.
Qed.

Lemma retry_after_failure_witness :
  _client ready_client = true
  /\ reap 0 ∅ !! fingerprint "Q" None = None
  /\ (100 - 40 <= window)%Q
  /\ fst (search_literature ready_client "Q" None 100 (Answer "late" [] None) 1 101
            (snd (search_literature ready_client "Q" None 0
                    (Failure "provider down") 40 40 ∅)))
     = failed_result "Q" (duplicate_error (100 - 40)) 0.
Proof.
  assert (H1 : _client ready_client = true) by reflexivity.
  assert (H2 : reap 0 ∅ !! fingerprint "Q" None = None).
  { apply reap_lookup_None. left. apply lookup_empty. }
  assert (H3 : (100 - 40 <= window)%Q) by (unfold window, Qle; cbn; lia).
  do 3 (split; [assumption|]).
  apply (retry_after_any_outcome_is_blocked ready_client "Q" None ∅ 0
           (Failure "provider down") 40 40 100 (Answer "late" [] None) 1 101
           H1 H2 H3).
Defined.

End EdisonMoreFacts.

Module BibliographyFacts.
Import Bibliography MoreInputs.

Lemma str_of_Z_nonempty (n : Z) : PyStr.nonempty (PyStr.str_of_Z n) = true.
Proof.
  unfold PyStr.str_of_Z. destruct (Z.to_int n) as [d|d]; [destruct d|]; reflexivity.
Qed.

Lemma nonempty_app_r (a b : string) :
  PyStr.nonempty b = true -> PyStr.nonempty (a ++ b) = true.
Proof. destruct a; cbn; [tauto|reflexivity]. Qed.

Lemma nonempty_app_l (a b : string) :
  PyStr.nonempty a = true -> PyStr.nonempty (a ++ b) = true.
Proof. destruct a; cbn; [discriminate|reflexivity]. Qed.

Lemma append_inj_l (base a b : string) : base ++ a = base ++ b -> a = b.
Proof.
  induction base as [|c base IH]; cbn; [tauto|].
  intros H. injection H as H. exact (IH H).
Qed.

Lemma chr_inj (i j : nat) : i < 256 -> j < 256 -> chr i = chr j -> i = j.
Proof.
  intros Hi Hj H. unfold chr in H. injection H as H.
  rewrite <- (nat_ascii_embedding i), <- (nat_ascii_embedding j) by lia.
  rewrite H. reflexivity.
Qed.

Lemma first_author_outcomes (c : Citation) :
  (exists w, first_author_of c = Returns w)
  \/ first_author_of c = Raises "IndexError".
Proof.
  unfold first_author_of. destruct (authors c) as [|a tl]; [eauto|].
  destruct (last (split a)); eauto.
Qed.

Lemma base_key_outcomes (c : Citation) :
  (exists base, base_key_of c = Returns base /\ PyStr.nonempty base = true)
  \/ (base_key_of c = Raises "IndexError"
      /\ first_author_of c = Raises "IndexError").
Proof.
  unfold base_key_of.
  destruct (first_author_outcomes c) as [[w ->]| ->]; cbn [and_then].
  - left. eexists. split; [reflexivity|]. apply nonempty_app_r, str_of_Z_nonempty.
  - right. split; reflexivity.
Qed.

Lemma next_key_cases (room : nat) (used : gset string) (base : string)
    (suffix : nat) :
  match next_key room used base suffix with
  | Returns key =>
      (key ∉ used) /\ exists n, suffix <= n < suffix + room /\ key = (base ++ chr n)
  | Raises _ => False
  | LeavesAscii => forall j, j < room -> base ++ chr (suffix + j) ∈ used
  end.
Proof.
  revert suffix. induction room as [|room IH]; intros suffix; cbn [next_key].
  - intros j Hj. lia.
  - destruct (decide (base ++ chr suffix ∈ used)) as [Hin|Hout].
    + rewrite bool_decide_eq_true_2 by exact Hin.
      specialize (IH (S suffix)).
      destruct (next_key room used base (S suffix)) as [key|exc|].
      * destruct IH as (Hk & n & Hn & ->). split; [exact Hk|].
        exists n. split; [lia|reflexivity].
      * exact IH.
      * intros j Hj. destruct j as [|j].
        -- rewrite Nat.add_0_r. exact Hin.
        -- replace (suffix + S j) with (S suffix + j) by lia. apply IH. lia.
    + rewrite bool_decide_eq_false_2 by exact Hout.
      split; [exact Hout|]. exists suffix. split; [lia|reflexivity].
Qed.

Lemma free_key_spec (used : gset string) (base : string) :
  size used < 31 ->
  exists key,
    free_key used base = Returns key /\ (key ∉ used)
    /\ (key = base \/ exists n, 97 <= n < 128 /\ key = (base ++ chr n)).
Proof.
  intros Hsize. unfold free_key.
  destruct (decide (base ∈ used)) as [Hin|Hout].
  - rewrite bool_decide_eq_true_2 by exact Hin.
    pose proof (next_key_cases (128 - 97) used base 97) as H.
    destruct (next_key (128 - 97) used base 97) as [key|exc|].
    + destruct H as (Hk & n & Hn & ->). eexists. split; [reflexivity|].
      split; [exact Hk|]. right. exists n. split; [lia|reflexivity].
    + contradiction.
    + exfalso.
      set (l := (fun j => base ++ chr (97 + j)) <$> seq 0 31).
      assert (Hnd : NoDup l).
      { apply NoDup_fmap_2_strong; [|apply NoDup_seq].
        intros i j Hi Hj Heq. apply elem_of_seq in Hi, Hj.
        apply append_inj_l, chr_inj in Heq; lia. }
      assert (Hsub : list_to_set l ⊆ used).
      { intros x Hx. apply elem_of_list_to_set, list_elem_of_fmap in Hx
          as (j & -> & Hj).
        apply elem_of_seq in Hj. apply H. lia. }
      apply subseteq_size in Hsub.
      rewrite size_list_to_set in Hsub by exact Hnd.
      unfold l in Hsub. rewrite length_fmap, length_seq in Hsub. lia.
  - rewrite bool_decide_eq_false_2 by exact Hout.
    exists base. split; [reflexivity|]. split; [exact Hout|]. left. reflexivity.
Qed.

Lemma given_key (c : Citation) (key : string) :
  PyStr.nonempty key = true ->
  Citation_to_bibtex c (Some key) = Returns (bibtex_entry c key).
Proof. intros H. unfold Citation_to_bibtex. cbn [given]. rewrite H. reflexivity. Qed.

Lemma fold_raised (exc : string) (cs : list Citation) :
  foldl add_entry (Raises exc) cs = Raises exc.
Proof. induction cs as [|c tl IH]; [reflexivity|]. cbn. exact IH. Qed.

Lemma fold_add_entry (cs : list Citation) :
  forall (keys : list string) (entries : list string),
    NoDup keys -> length keys + length cs <= 31 ->
    match foldl add_entry (Returns (list_to_set keys, entries)) cs with
    | Returns (_, entries') =>
        exists keys',
          entries' = (entries ++ zip_with bibtex_entry cs keys')%list
          /\ length keys' = length cs /\ NoDup (keys ++ keys')
          /\ Forall2 (fun c key =>
               exists base, base_key_of c = Returns base
                 /\ (key = base
                     \/ exists n, 97 <= n < 128 /\ key = (base ++ chr n)))
               cs keys'
    | Raises exc =>
        exc = "IndexError"
        /\ exists c, c ∈ cs /\ first_author_of c = Raises "IndexError"
    | LeavesAscii => False
    end.
Proof.
  induction cs as [|c tl IH]; intros keys entries Hnd Hlen.
  - cbn. exists []. rewrite !app_nil_r. repeat split; [exact Hnd|constructor].
  - cbn [foldl]. unfold add_entry at 2. cbn [and_then].
    destruct (base_key_outcomes c) as [(base & Hbk & Hbase)|[Hbk Hfa]];
      rewrite Hbk; cbn [and_then].
    + destruct (free_key_spec (list_to_set keys) base) as (key & -> & Hfree & Hshape).
      { pose proof (size_list_to_set (C:=gset string) keys Hnd) as Hs.
        rewrite Hs. cbn [length] in Hlen. lia. }
      cbn [and_then]. rewrite given_key.
      2:{ destruct Hshape as [->|(n & _ & ->)];
            [exact Hbase|apply nonempty_app_l, Hbase]. }
      cbn [and_then].
      assert (Hset : list_to_set keys ∪ {[key]}
                     = (list_to_set (keys ++ [key]) : gset string)).
      { rewrite list_to_set_app_L. cbn. rewrite (right_id_L ∅ (∪)). reflexivity. }
      rewrite Hset.
      assert (Hnd' : NoDup (keys ++ [key])).
      { apply NoDup_app. split; [exact Hnd|]. split.
        - intros x Hx Hx'. apply list_elem_of_singleton in Hx'. subst x.
          apply Hfree. by apply elem_of_list_to_set.
        - apply NoDup_singleton. }
      specialize (IH (keys ++ [key])%list (entries ++ [bibtex_entry c key])%list Hnd').
      rewrite length_app in IH. cbn [length] in IH, Hlen.
      specialize (IH ltac:(lia)).
      destruct (foldl add_entry _ tl) as [[used' entries']|exc|].
      * destruct IH as (keys' & -> & Hl & Hnd'' & Hall).
        exists (key :: keys'). cbn [zip_with length].
        rewrite <- app_assoc in Hnd''. rewrite <- app_assoc. cbn [app] in *.
        repeat split; [lia|exact Hnd''|].
        constructor; [|exact Hall]. exists base. split; [exact Hbk|exact Hshape].
      * destruct IH as (-> & c' & Hc' & Hr). split; [reflexivity|].
        exists c'. split; [by apply list_elem_of_further|exact Hr].
      * exact IH.
    + rewrite fold_raised. split; [reflexivity|].
      exists c. split; [apply list_elem_of_here|exact Hfa].
Qed.

(** [LiteratureResult.to_bibtex] on up to 31 citations. It returns one entry
    per citation, in order, under keys that are pairwise distinct: the key
    of a citation is its base key (the last word of its first author, or
    [Unknown], followed by the year), or that key with one letter from [a]
    on when the base key is taken. It raises [IndexError] exactly when the
    first author of some citation is blank; nothing else goes wrong. *)
Theorem bibtex_keys_are_distinct (cs : list Citation) :
  length cs <= 31 ->
  match to_bibtex cs with
  | Returns text =>
      exists keys,
        text = PyStr.join nl (zip_with bibtex_entry cs keys)
        /\ length keys = length cs /\ NoDup keys
        /\ Forall2 (fun c key =>
             exists base, base_key_of c = Returns base
               /\ (key = base
                   \/ exists n, 97 <= n < 128 /\ key = (base ++ chr n)))
             cs keys
  | Raises exc =>
      exc = "IndexError"
      /\ exists c, c ∈ cs /\ first_author_of c = Raises "IndexError"
  | LeavesAscii => False
  end.
Proof.
  intros Hlen. unfold to_bibtex.
  pose proof (fold_add_entry cs [] [] (NoDup_nil_2)) as H.
  cbn [length list_to_set] in H. specialize (H ltac:(lia)).
  change (list_to_set []) with (∅ : gset string) in H.
  destruct (foldl add_entry (Returns (∅, [])) cs) as [[used entries]|exc|];
    cbn [and_then].
  - destruct H as (keys & -> & Hl & Hnd & Hall). exists keys.
    repeat split; assumption.
  - exact H.
  - exact H.
Qed.

Lemma bibtex_keys_witness :
  length two_smiths <= 31 /\ to_bibtex two_smiths <> LeavesAscii.
Proof.
  assert (H : length two_smiths <= 31) by (cbn; lia).
  split; [exact H|].
  pose proof (bibtex_keys_are_distinct two_smiths H) as K.
  intros E. rewrite E in K. exact K.
Defined.

End BibliographyFacts.

Module CitationTextFacts.
Import Regex Bibliography CitationText CitationTextSpec GateMoreFacts BibliographyFacts MoreInputs.

Lemma extract_entry_cases (st : extraction) (entry : string) :
  extract_entry st entry = extract_entry_by_cases st entry.
Proof.
  unfold extract_entry, extract_entry_by_cases, numbered, entry_citation,
    mark_doi, entry_doi, title_key_of.
  cbv zeta.
  destruct (PyStr.nonempty (PyStr.strip entry)); [|reflexivity].
  destruct (starts_with_digit (PyStr.strip entry)); [|reflexivity].
  cbn [negb orb andb].
  match goal with |- context [given ?d] => destruct (given d) eqn:Hd end;
    cbn [negb andb].
  - match goal with |- context [bool_decide ?P] => destruct (bool_decide P) end;
      [reflexivity|].
    destruct (PyStr.nonempty (cleaned_of (PyStr.strip entry))); [|reflexivity].
    cbn [negb].
    destruct (parts_of (cleaned_of (PyStr.strip entry))) as [|p0 [|p1 rest]];
      reflexivity.
  - destruct (PyStr.nonempty (cleaned_of (PyStr.strip entry))); [|reflexivity].
    cbn [negb].
    destruct (parts_of (cleaned_of (PyStr.strip entry))) as [|p0 [|p1 rest]];
      reflexivity.
Qed.


(** *** Authors *)

Lemma words_from_nonempty (l current : list ascii) :
  current <> [] -> words_from l current <> [].
Proof.
  revert current. induction l as [|c tl IH]; intros current Hc; cbn [words_from].
  - destruct current; [contradiction|discriminate].
  - destruct (PyStr.is_space c).
    + destruct current; [contradiction|discriminate].
    + apply IH. discriminate.
Qed.

Lemma split_of_stripped (x : string) :
  PyStr.nonempty (PyStr.strip x) = true ->
  exists word, last (split (PyStr.strip x)) = Some word.
Proof.
  intros Hne.
  pose proof (strip_no_leading_space x) as Hfix.
  pose proof (lstrip_chars_head (PyStr.chars (PyStr.strip x))) as Hhead.
  rewrite Hfix in Hhead. unfold split.
  destruct (PyStr.strip x) as [|c rest]; [discriminate|].
  cbn [PyStr.chars list_ascii_of_string] in *. cbn [words_from]. rewrite Hhead.
  destruct (last (words_from (list_ascii_of_string rest) [c])) as [w|] eqn:E;
    [eauto|].
  apply last_None in E. exfalso.
  apply (words_from_nonempty (list_ascii_of_string rest) [c]); [discriminate|exact E].
Qed.

Lemma authors_of_stripped (authors_str a : string) :
  a ∈ authors_of authors_str ->
  exists x, a = PyStr.strip x /\ PyStr.nonempty a = true.
Proof.
  unfold authors_of. destruct (PyStr.nonempty authors_str).
  - intros Hin. apply list_elem_of_filter in Hin as [Hp Hin].
    apply list_elem_of_fmap in Hin as (x & -> & _).
    exists x. split; [reflexivity|].
    apply andb_true_iff in Hp as [Hp _]. exact Hp.
  - intros Hin. apply elem_of_nil in Hin. contradiction.
Qed.

Lemma entry_citation_fields (entry : string) (c : Citation) :
  entry_citation entry = Some c ->
  doi c = entry_doi entry
  /\ authors c <> []
  /\ exists word, first_author_of c = Returns word.
Proof.
  unfold entry_citation. cbv zeta.
  destruct (PyStr.nonempty (cleaned_of entry)); cbn [negb]; [|discriminate].
  destruct (parts_of (cleaned_of entry)) as [|p0 [|p1 rest]]; try discriminate.
  intros H. injection H as <-. cbn [doi authors]. split; [reflexivity|].
  unfold first_author_of. cbn [authors].
  destruct (authors_of (PyStr.strip p0)) as [|a tl] eqn:Ha.
  - split; [discriminate|]. exists "Unknown". reflexivity.
  - split; [discriminate|].
    destruct (authors_of_stripped (PyStr.strip p0) a) as (x & -> & Hne).
    { rewrite Ha. apply list_elem_of_here. }
    destruct (split_of_stripped x Hne) as [w ->]. eauto.
Qed.

(** *** The loop *)

Lemma mark_doi_grows (d : option string) (seen : gset string) :
  seen ⊆ mark_doi d seen.
Proof.
  unfold mark_doi. destruct (given d); [|reflexivity].
  intros x Hx. by apply elem_of_union_l.
Qed.

Lemma seen_dois_grow (st : extraction) (entry : string) :
  seen_dois st ⊆ seen_dois (extract_entry st entry).
Proof.
  rewrite extract_entry_cases. unfold extract_entry_by_cases. cbv zeta.
  destruct (negb (numbered (PyStr.strip entry))); [reflexivity|].
  destruct (given _ && bool_decide _); [reflexivity|].
  destruct (entry_citation (PyStr.strip entry)) as [c|];
    [destruct (negb _ && bool_decide _)|]; cbn [seen_dois]; apply mark_doi_grows.
Qed.

Lemma seen_dois_grow_fold (entries : list string) (st : extraction) :
  seen_dois st ⊆ seen_dois (foldl extract_entry st entries).
Proof.
  revert st. induction entries as [|e tl IH]; intros st; [reflexivity|].
  cbn [foldl]. etrans; [apply seen_dois_grow|apply IH].
Qed.

Lemma found_grows_by_one (st : extraction) (entry : string) :
  length (found (extract_entry st entry)) <= S (length (found st)).
Proof.
  rewrite extract_entry_cases. unfold extract_entry_by_cases. cbv zeta.
  destruct (negb (numbered (PyStr.strip entry))); [lia|].
  destruct (given _ && bool_decide _); [lia|].
  destruct (entry_citation (PyStr.strip entry)) as [c|];
    [destruct (negb _ && bool_decide _)|]; cbn [found]; rewrite ?length_app;
    cbn [length]; lia.
Qed.

Lemma found_length_fold (entries : list string) (st : extraction) :
  length (found (foldl extract_entry st entries))
  <= length (found st) + length entries.
Proof.
  revert st. induction entries as [|e tl IH]; intros st; cbn [foldl length]; [lia|].
  specialize (IH (extract_entry st e)).
  pose proof (found_grows_by_one st e). lia.
Qed.

Lemma invariant_step (st : extraction) (entry : string) :
  extraction_invariant st -> extraction_invariant (extract_entry st entry).
Proof.
  intros Hinv. pose proof Hinv as (Hnd & Hseen & Htitles & Hpair & Hauth).
  rewrite extract_entry_cases. unfold extract_entry_by_cases. cbv zeta.
  set (e := PyStr.strip entry).
  destruct (negb (numbered e)); [exact Hinv|].
  destruct (given (entry_doi e) && bool_decide _) eqn:Hdup; [exact Hinv|].
  assert (Hskip : extraction_invariant
                    {| found := found st;
                       seen_dois := mark_doi (entry_doi e) (seen_dois st);
                       seen_titles := seen_titles st |}).
  { unfold extraction_invariant. cbn [found seen_dois seen_titles].
    split; [exact Hnd|]. split; [|split; [exact Htitles|split; assumption]].
    intros c k Hc Hk. apply mark_doi_grows. exact (Hseen c k Hc Hk). }
  destruct (entry_citation e) as [c|] eqn:Hcit; [|exact Hskip].
  destruct (negb (given (entry_doi e)) && bool_decide _) eqn:Htdup; [exact Hskip|].
  destruct (entry_citation_fields e c Hcit) as (Hdoi & Hne & Hfa).
  unfold extraction_invariant. cbn [found seen_dois seen_titles].
  assert (Hkey : forall k, doi_key c = Some k ->
            (k ∉ seen_dois st) /\ k ∈ mark_doi (entry_doi e) (seen_dois st)).
  { intros k Hk. unfold doi_key in Hk. rewrite Hdoi in Hk.
    destruct (given (entry_doi e)) eqn:Hg; [|discriminate].
    injection Hk as <-. cbn [andb] in Hdup.
    apply bool_decide_eq_false_1 in Hdup. split; [exact Hdup|].
    unfold mark_doi. rewrite Hg. apply elem_of_union_r, elem_of_singleton.
    reflexivity. }
  split; [|split; [|split; [|split]]].
  - rewrite omap_app.
    assert (omap doi_key [c]
            = match doi_key c with Some k => [k] | None => [] end) as ->
      by (cbn; destruct (doi_key c); reflexivity).
    destruct (doi_key c) as [k|] eqn:Hk; [|rewrite app_nil_r; exact Hnd].
    apply NoDup_app. split; [exact Hnd|]. split; [|apply NoDup_singleton].
    intros x Hx Hx'. apply list_elem_of_singleton in Hx'. subst x.
    apply list_elem_of_omap in Hx as (c' & Hc' & Hk').
    apply (proj1 (Hkey k eq_refl)). exact (Hseen c' k Hc' Hk').
  - intros c' k Hc' Hk. apply elem_of_app in Hc' as [Hc'|Hc'].
    + apply mark_doi_grows. exact (Hseen c' k Hc' Hk).
    + apply list_elem_of_singleton in Hc'. subst c'. apply (Hkey k Hk).
  - intros c' Hc'. apply elem_of_app in Hc' as [Hc'|Hc'].
    + apply elem_of_union_l. exact (Htitles c' Hc').
    + apply list_elem_of_singleton in Hc'. subst c'.
      apply elem_of_union_r, elem_of_singleton. reflexivity.
  - intros i j ci cj Hij Hi Hj Hg.
    apply lookup_app_Some in Hj as [Hj|[Hlen Hj]].
    + assert (Hi' : found st !! i = Some ci).
      { apply lookup_app_Some in Hi as [Hi|[Hlen _]]; [exact Hi|].
        apply lookup_lt_Some in Hj. lia. }
      exact (Hpair i j ci cj Hij Hi' Hj Hg).
    + destruct (j - length (found st)) as [|n] eqn:Hn; [|discriminate].
      cbn in Hj. injection Hj as <-.
      assert (Hi' : found st !! i = Some ci).
      { apply lookup_app_Some in Hi as [Hi|[Hlen' _]]; [exact Hi|lia]. }
      rewrite Hdoi in Hg. rewrite Hg in Htdup. cbn [negb andb] in Htdup.
      apply bool_decide_eq_false_1 in Htdup. intros Heq. apply Htdup.
      rewrite <- Heq. apply Htitles. eapply list_elem_of_lookup_2. exact Hi'.
  - intros c' Hc'. apply elem_of_app in Hc' as [Hc'|Hc'].
    + exact (Hauth c' Hc').
    + apply list_elem_of_singleton in Hc'. subst c'. split; assumption.
Qed.

Lemma invariant_fold (entries : list string) (st : extraction) :
  extraction_invariant st -> extraction_invariant (foldl extract_entry st entries).
Proof.
  revert st. induction entries as [|e tl IH]; intros st H; [exact H|].
  cbn [foldl]. apply IH, invariant_step, H.
Qed.

Lemma invariant_nothing_seen : extraction_invariant nothing_seen.
Proof.
  unfold extraction_invariant, nothing_seen. cbn [found].
  split; [apply NoDup_nil_2|]. split; [|split; [|split]].
  - intros c k Hc. apply elem_of_nil in Hc. contradiction.
  - intros c Hc. apply elem_of_nil in Hc. contradiction.
  - intros i j ci cj _ Hi. rewrite lookup_nil in Hi. discriminate.
  - intros c Hc. apply elem_of_nil in Hc. contradiction.
Qed.

Lemma extract_as_fold (text : string) :
  _extract_citations_from_text text
  = found (foldl extract_entry nothing_seen (entries_of text)).
Proof.
  unfold _extract_citations_from_text, entries_of.
  destruct (references_end text); reflexivity.
Qed.

(** The citations read from a text are de-duplicated: no two of them have
    the same DOI up to letter case, and a citation without DOI has a title
    key (its title in lower case, cut at 50 characters) that none of the
    citations before it has; there is at most one citation per entry. *)
Theorem extracted_citations_are_deduplicated (text : string) :
  let cs := _extract_citations_from_text text in
  NoDup (omap doi_key cs)
  /\ (forall i j ci cj,
        i < j -> cs !! i = Some ci -> cs !! j = Some cj ->
        given (doi cj) = false -> title_key_of ci <> title_key_of cj)
  /\ length cs <= length (entries_of text).
Proof.
  cbv zeta. rewrite extract_as_fold.
  destruct (invariant_fold (entries_of text) nothing_seen invariant_nothing_seen)
    as (Hnd & _ & _ & Hpair & _).
  split; [exact Hnd|]. split; [exact Hpair|].
  pose proof (found_length_fold (entries_of text) nothing_seen) as H.
  cbn in H. exact H.
Qed.

(** Every citation read from a text has an author whose name has a last
    word (the parsed authors are stripped and longer than one character;
    [Unknown] stands in when there is none), so that, for up to 31
    citations, [LiteratureResult.to_bibtex] on them returns and does not
    raise [IndexError]. *)
Theorem extracted_citations_export_to_bibtex (text : string) :
  let cs := _extract_citations_from_text text in
  (forall c, c ∈ cs ->
     authors c <> [] /\ exists word, first_author_of c = Returns word)
  /\ (length cs <= 31 -> exists bib, to_bibtex cs = Returns bib).
Proof.
  cbv zeta. rewrite extract_as_fold.
  destruct (invariant_fold (entries_of text) nothing_seen invariant_nothing_seen)
    as (_ & _ & _ & _ & Hauth).
  split; [exact Hauth|].
  set (cs := found _) in *. intros Hlen. unfold to_bibtex.
  pose proof (fold_add_entry cs [] [] NoDup_nil_2) as H.
  cbn [length list_to_set] in H. specialize (H ltac:(lia)).
  change (list_to_set []) with (∅ : gset string) in H.
  destruct (foldl add_entry (Returns (∅, [])) cs) as [[used entries]|exc|];
    cbn [and_then].
  - eauto.
  - destruct H as (_ & c & Hc & Hr). destruct (Hauth c Hc) as (_ & w & Hw).
    congruence.
  - contradiction.
Qed.

(** A DOI is marked as seen when its entry is gone into, before the entry
    is parsed: once a numbered entry with a DOI has been met, a later entry
    with the same DOI up to letter case changes nothing and gives no
    citation, whether or not the first entry gave one. *)
Theorem doi_is_seen_before_the_entry_is_parsed (st : extraction)
    (first : string) (between : list string) (later : string) :
  numbered (PyStr.strip first) = true ->
  given (entry_doi (PyStr.strip first)) = true ->
  given (entry_doi (PyStr.strip later)) = true ->
  PyStr.lower (default "" (entry_doi (PyStr.strip later)))
  = PyStr.lower (default "" (entry_doi (PyStr.strip first))) ->
  let before := foldl extract_entry st (first :: between) in
  extract_entry before later = before.
Proof.
  intros Hnum Hg1 Hg2 Hsame. cbv zeta.
  set (k := PyStr.lower (default "" (entry_doi (PyStr.strip first)))) in *.
  assert (H1 : k ∈ seen_dois (extract_entry st first)).
  { rewrite extract_entry_cases. unfold extract_entry_by_cases. cbv zeta.
    rewrite Hnum, Hg1. cbn [negb andb]. fold k.
    destruct (bool_decide (k ∈ seen_dois st)) eqn:Hin.
    - apply bool_decide_eq_true_1 in Hin. exact Hin.
    - assert (Hm : k ∈ mark_doi (entry_doi (PyStr.strip first)) (seen_dois st)).
      { unfold mark_doi. rewrite Hg1. apply elem_of_union_r, elem_of_singleton.
        reflexivity. }
      destruct (entry_citation (PyStr.strip first)) as [c|]; exact Hm. }
  cbn [foldl].
  assert (H2 : k ∈ seen_dois (foldl extract_entry (extract_entry st first) between)).
  { apply (seen_dois_grow_fold between). exact H1. }
  set (before := foldl extract_entry (extract_entry st first) between) in *.
  rewrite extract_entry_cases. unfold extract_entry_by_cases. cbv zeta.
  destruct (negb (numbered (PyStr.strip later))); [reflexivity|].
  rewrite Hg2, Hsame. rewrite bool_decide_eq_true_2 by exact H2. reflexivity.
Qed.

Lemma doi_seen_witness :
  numbered (PyStr.strip unparsed_entry) = true
  /\ given (entry_doi (PyStr.strip unparsed_entry)) = true
  /\ given (entry_doi (PyStr.strip later_entry)) = true
  /\ PyStr.lower (default "" (entry_doi (PyStr.strip later_entry)))
     = PyStr.lower (default "" (entry_doi (PyStr.strip unparsed_entry)))
  /\ found (extract_entry nothing_seen unparsed_entry) = []
  /\ length (found (extract_entry nothing_seen later_entry)) = 1
  /\ found (foldl extract_entry nothing_seen [unparsed_entry; later_entry]) = [].
Proof.
  assert (H1 : numbered (PyStr.strip unparsed_entry) = true)
    by (vm_compute; reflexivity).
  assert (H2 : given (entry_doi (PyStr.strip unparsed_entry)) = true)
    by (vm_compute; reflexivity).
  assert (H3 : given (entry_doi (PyStr.strip later_entry)) = true)
    by (vm_compute; reflexivity).
  assert (H4 : PyStr.lower (default "" (entry_doi (PyStr.strip later_entry)))
               = PyStr.lower (default "" (entry_doi (PyStr.strip unparsed_entry))))
    by (vm_compute; reflexivity).
  assert (H5 : found (extract_entry nothing_seen unparsed_entry) = [])
    by (vm_compute; reflexivity).
  do 5 (split; [assumption|]). split; [vm_compute; reflexivity|].
  change (foldl extract_entry nothing_seen [unparsed_entry; later_entry])
    with (extract_entry (foldl extract_entry nothing_seen [unparsed_entry])
                        later_entry).
  rewrite (doi_is_seen_before_the_entry_is_parsed nothing_seen unparsed_entry []
             later_entry H1 H2 H3 H4).
  exact H5.
Defined.

(** The method on an answer in the provider's format, as Python returns. *)
Example sample_references_extracted :
  map (fun c => (title c, authors c, year c, doi c))
      (_extract_citations_from_text sample_answer)
  = [ ("Time-variation of dual-class premia",
       ["John Paul Broussard"; "Mika Vaihekoski"], 2019%Z,
       Some "10.2139/ssrn.3342202");
      ("Voting rights and firm value",
       ["John P. Smith"; "A. B. Jones"], 2020%Z, None) ].
Proof. vm_compute. reflexivity. Qed.

End CitationTextFacts.

(* ===================================================================== *)
(** * Further properties of the autonomous runner *)
(* ===================================================================== *)

Module RunnerMoreFacts.
Import PyExc Runner RunnerSpec Inputs RunnerFacts.

Lemma stream_counts (phase_id : string) (output : list string) (logger : DualLogger) :
  let after := stream_subprocess_output output logger phase_id in
  let mentions kw :=
    length (filter (fun l => PyStr.contains kw (PyStr.upper l) = true) output) in
  log_error_count after = log_error_count logger + mentions "ERROR"
  /\ log_warning_count after = log_warning_count logger + mentions "WARNING"
  /\ log_critical_count after = log_critical_count logger + mentions "CRITICAL".
Proof.
  cbv zeta. unfold stream_subprocess_output. revert logger.
  induction output as [|l tl IH]; intros logger.
  - cbn. repeat split; lia.
  - cbn [foldl]. destruct (IH (process_output_line phase_id logger l)) as (He & Hw & Hc).
    rewrite He, Hw, Hc. rewrite !filter_cons.
    unfold process_output_line.
    cbn [log_error_count log_warning_count log_critical_count].
    repeat split.
    + destruct (PyStr.contains "ERROR" (PyStr.upper l)) eqn:E.
      * rewrite decide_True by reflexivity. cbn [length]. lia.
      * rewrite decide_False by discriminate. lia.
    + destruct (PyStr.contains "WARNING" (PyStr.upper l)) eqn:E.
      * rewrite decide_True by reflexivity. cbn [length]. lia.
      * rewrite decide_False by discriminate. lia.
    + destruct (PyStr.contains "CRITICAL" (PyStr.upper l)) eqn:E.
      * rewrite decide_True by reflexivity. cbn [length]. lia.
      * rewrite decide_False by discriminate. lia.
Qed.

(** The counters of a phase whose child exits are those of its own output:
    the number of lines in which ERROR, WARNING or CRITICAL occurs, in any
    letter case and anywhere in the line, whatever the logger counted in
    earlier phases. *)
Theorem phase_counters_count_lines (c : child) (code : Z)
    (phase_id phase_name : string) (logger : DualLogger)
    (folder : gmap string content) :
  let r := fst (fst (execute_phase (Exited c code) phase_id phase_name
                       logger folder)) in
  let mentions kw :=
    length (filter (fun l => PyStr.contains kw (PyStr.upper l) = true) (lines c)) in
  error_count r = mentions "ERROR"
  /\ warning_count r = mentions "WARNING"
  /\ critical_count r = mentions "CRITICAL"
  /\ exit_code r = code /\ execution_time r = elapsed c.
Proof.
  cbv zeta. cbn [execute_phase fst error_count warning_count critical_count
                 exit_code execution_time].
  destruct (stream_counts phase_id (lines c) (reset_counts logger)) as (He & Hw & Hc).
  cbv zeta in He, Hw, Hc. rewrite He, Hw, Hc. cbn. repeat split.
Qed.

Lemma execute_phase_names (outcome : launch) (phase_id_ phase_name_ : string)
    (logger : DualLogger) (folder : gmap string content) :
  let r := fst (fst (execute_phase outcome phase_id_ phase_name_ logger folder)) in
  phase_id r = phase_id_ /\ phase_name r = phase_name_.
Proof. destruct outcome; cbn; split; reflexivity. Qed.

Lemma run_phases_trace (env : environment)
    (table : list (string * string * string * bool)) (st : progress) :
  exists results,
    p_phases (run_phases env table st) = (p_phases st ++ results)%list
    /\ p_degradation_summary (run_phases env table st)
       = (p_degradation_summary st ++ concat (map degradation_reasons results))%list
    /\ map phase_id results `prefix_of` map (fun ph => snd (fst (fst ph))) table
    /\ map phase_name results `prefix_of` map (fun ph => snd (fst ph)) table.
Proof.
  revert st. induction table as [|[[[script id] name] critical] tl IH]; intros st.
  - exists []. cbn. rewrite !app_nil_r. repeat split; reflexivity.
  - rewrite run_phases_cons.
    pose proof (execute_phase_names (started env script) id name
                  (p_logger st) (p_folder st)) as Hn.
    destruct (execute_phase (started env script) id name (p_logger st) (p_folder st))
      as [[pr logger] folder]. cbv zeta in Hn. cbn [fst] in Hn. destruct Hn as [Hid Hname].
    cbv zeta.
    destruct (negb (success pr) && critical).
    + exists [pr]. cbn. rewrite app_nil_r, Hid, Hname.
      repeat split; apply prefix_cons, prefix_nil.
    + match goal with |- context [run_phases env tl ?s] =>
        destruct (IH s) as (results & Hp & Hs & Hi & Hnm) end.
      exists (pr :: results). rewrite Hp, Hs. cbn.
      rewrite <- !app_assoc, Hid, Hname. cbn.
      repeat split; try reflexivity; apply prefix_cons; assumption.
Qed.

(** The run report lists the phases that ran in the order of the table,
    under the table's ids and names; phases are missing only after a failed
    [phase_1], on a dry run or when the folder does not exist; and the
    degradation summary is the reasons of the listed phases, phase by
    phase. *)
Theorem run_report_follows_the_table (env : environment) (project_folder_ : string)
    (skip_purge dry_run : bool) (folder : gmap string content)
    (r : PipelineResult) :
  fst (run_autonomous_pipeline env project_folder_ skip_purge dry_run folder)
  = inr r ->
  degradation_summary r = concat (map degradation_reasons (phases r))
  /\ map phase_id (phases r)
     `prefix_of` ["phase_1"; "phase_2"; "phase_3"; "phase_4"; "phase_5a"; "phase_5b"]
  /\ map phase_name (phases r)
     `prefix_of` map (fun ph => snd (fst ph)) PIPELINE_PHASES
  /\ (length (phases r) < 6 ->
        folder_exists env = false \/ dry_run = true
        \/ exists p1, phases r = [p1] /\ success p1 = false).
Proof.
  destruct (folder_exists env) eqn:Hex.
  2:{ unfold run_autonomous_pipeline. rewrite Hex. cbn [negb fst].
      intros Hr. injection Hr as <-. cbn.
      repeat split; try apply prefix_nil. auto. }
  destruct dry_run.
  { unfold run_autonomous_pipeline. rewrite Hex. cbn [negb].
    destruct (if negb skip_purge then run_environment_purge env folder
              else (folder, None)) as [purged [exc|]]; cbn [fst];
      [discriminate|].
    intros Hr. injection Hr as <-. cbn.
    repeat split; try apply prefix_nil. auto. }
  rewrite (run_outcome env project_folder_ skip_purge folder Hex). cbv zeta.
  match goal with |- context [run_phases env PIPELINE_PHASES ?s] =>
    destruct (run_phases_trace env PIPELINE_PHASES s) as (results & Hp & Hs & Hi & Hn);
    destruct (pipeline_phases env s eq_refl) as (p1 & rest & Hp1 & Hfail & Hok);
    set (st' := run_phases env PIPELINE_PHASES s) in *
  end.
  cbv zeta in Hp1, Hfail, Hok. cbn [p_phases p_degradation_summary app] in Hp, Hs.
  destruct (snd _) as [exc|]; [discriminate|].
  destruct (count_evidence_items env _) as [exc|n]; [discriminate|].
  destruct (get_readiness_score env _) as [exc|x]; [discriminate|].
  cbn [fst]. intros Hr. injection Hr as <-.
  cbn [phases degradation_summary].
  rewrite Hs, Hp.
  split; [reflexivity|]. split; [exact Hi|]. split; [exact Hn|].
  intros Hlen. right. right. exists p1.
  rewrite Hp in Hp1. rewrite Hp1 in *.
  destruct (success p1) eqn:E.
  - specialize (Hok eq_refl). cbn [length] in Hlen. lia.
  - destruct (Hfail eq_refl) as [-> _]. auto.
Qed.

Lemma run_report_witness :
  exists r,
    fst (run_autonomous_pipeline one_phase_fails "/project" true false ∅) = inr r
    /\ map phase_id (phases r)
       = ["phase_1"; "phase_2"; "phase_3"; "phase_4"; "phase_5a"; "phase_5b"]
    /\ degradation_summary r = concat (map degradation_reasons (phases r)).
Proof.
  assert (E : exists r, fst (run_autonomous_pipeline one_phase_fails "/project"
                               true false ∅) = inr r).
  { eexists. vm_compute. reflexivity. }
  destruct E as [r E]. exists r. split; [exact E|].
  destruct (run_report_follows_the_table one_phase_fails "/project" true false
              ∅ r E) as (Hs & _).
  split; [|exact Hs].
  vm_compute in E. injection E as <-. reflexivity.
Defined.

End RunnerMoreFacts.

Module RunnerHelpersFacts.
Import Json PyExc AccuracyGate GateSpec GateConfig RunnerHelpers RunnerSpec
       GateFacts.

Lemma copy_allowed_lookup (os_environ env0 : gmap string string)
    (keys : list string) (k : string) :
  foldl (fun (env : gmap string string) key =>
           match os_environ !! key with
           | Some value => <[key := value]> env
           | None => env
           end) env0 keys !! k
  = if bool_decide (k ∈ keys)
    then match os_environ !! k with Some v => Some v | None => env0 !! k end
    else env0 !! k.
Proof.
  revert env0. induction keys as [|key tl IH]; intros env0; [reflexivity|].
  cbn [foldl]. rewrite IH.
  destruct (decide (k = key)) as [->|Hne].
  - rewrite (bool_decide_eq_true_2 (key ∈ key :: tl)) by apply list_elem_of_here.
    destruct (os_environ !! key) as [v|] eqn:E.
    + rewrite lookup_insert_eq. destruct (bool_decide (key ∈ tl)); reflexivity.
    + destruct (bool_decide (key ∈ tl)); reflexivity.
  - assert (Hiff : bool_decide (k ∈ key :: tl) = bool_decide (k ∈ tl)).
    { apply bool_decide_ext. rewrite elem_of_cons. tauto. }
    rewrite Hiff.
    destruct (os_environ !! key) as [v|]; [|reflexivity].
    rewrite lookup_insert_ne by congruence. reflexivity.
Qed.

(** The environment of a phase's child holds the allow-listed variables of
    the parent with their values, the two Python switches set to 1 whatever
    the parent has for them, and nothing else: no other variable of the
    parent reaches the child. *)
Theorem child_environment_is_allow_listed (os_environ : gmap string string)
    (k : string) :
  let env := _build_subprocess_env os_environ in
  (k = "PYTHONDONTWRITEBYTECODE" \/ k = "PYTHONNOUSERSITE" ->
     env !! k = Some "1")
  /\ (k ∈ base_allowlist -> env !! k = os_environ !! k)
  /\ (k ∉ base_allowlist -> k <> "PYTHONDONTWRITEBYTECODE" ->
      k <> "PYTHONNOUSERSITE" -> env !! k = None).
Proof.
  cbv zeta. unfold _build_subprocess_env. split; [|split].
  - intros [->| ->].
    + rewrite lookup_insert_ne by discriminate. apply lookup_insert_eq.
    + apply lookup_insert_eq.
  - intros Hin.
    assert (Hne : k <> "PYTHONDONTWRITEBYTECODE" /\ k <> "PYTHONNOUSERSITE").
    { unfold base_allowlist in Hin.
      repeat (apply elem_of_cons in Hin as [->|Hin]; [split; discriminate|]).
      apply elem_of_nil in Hin. contradiction. }
    destruct Hne as [H1 H2].
    rewrite !lookup_insert_ne by congruence.
    rewrite copy_allowed_lookup, bool_decide_eq_true_2 by exact Hin.
    rewrite lookup_empty. destruct (os_environ !! k); reflexivity.
  - intros Hout H1 H2. rewrite !lookup_insert_ne by congruence.
    rewrite copy_allowed_lookup, bool_decide_eq_false_2 by exact Hout.
    apply lookup_empty.
Qed.

(** *** The evidence count *)

Section Count.
Variable is_valid_evidence_item : json -> bool.

Lemma add_evidence_item_size (st : gmap string json * nat) (item : json) :
  let st' := add_evidence_item is_valid_evidence_item st item in
  size (fst st') + snd st' <= S (size (fst st) + snd st).
Proof.
  destruct st as [by_id invalid]. cbv zeta. unfold add_evidence_item.
  destruct (negb (is_dict item) || negb (is_valid_evidence_item item));
    cbn [fst snd]; [lia|].
  destruct (get "evidence_id" item); cbn [fst snd]; try lia.
  destruct (PyStr.nonempty (PyStr.strip s)); cbn [fst snd]; [|lia].
  rewrite map_size_insert. destruct (by_id !! PyStr.strip s); cbn; lia.
Qed.

Lemma add_evidence_items_size (payload : list json) (st : gmap string json * nat) :
  let st' := foldl (add_evidence_item is_valid_evidence_item) st payload in
  size (fst st') + snd st' <= size (fst st) + snd st + length payload.
Proof.
  revert st. induction payload as [|item tl IH]; intros st; cbn [foldl length].
  - cbv zeta. lia.
  - cbv zeta. specialize (IH (add_evidence_item is_valid_evidence_item st item)).
    pose proof (add_evidence_item_size st item). cbv zeta in *. lia.
Qed.

(** What [count_evidence_items] catches, [_load_json_list] catches. *)
Lemma count_errors_are_load_errors (err : string) :
  caught_by count_errors err = true -> caught_by load_errors err = true.
Proof.
  unfold caught_by, count_errors, load_errors. cbn [existsb].
  destruct (isinstance err "OSError"), (isinstance err "JSONDecodeError");
    cbn; try reflexivity. discriminate.
Qed.

Lemma add_evidence_file_cases (pf : gmap string file)
    (by_id : gmap string json) (invalid scanned : nat) (p : string) :
  add_evidence_file is_valid_evidence_item pf (by_id, invalid, scanned) p
  = match pf !! p with
    | Some (Data (JList l)) =>
        inr (foldl (add_evidence_item is_valid_evidence_item) (by_id, invalid) l,
             S scanned)
    | Some (Data _) => inr (by_id, invalid, S scanned)
    | Some (Corrupt err) =>
        if caught_by load_errors err then inr (by_id, invalid, S scanned)
        else inl err
    | Some Dir | None => inr (by_id, invalid, scanned)
    end.
Proof.
  unfold add_evidence_file, path_is_file, _load_json_list.
  destruct (pf !! p) as [[|err|payload]|] eqn:Hp; cbn [negb]; try reflexivity.
  - rewrite (path_exists_lookup _ _ _ Hp). cbn [negb].
    destruct (caught_by load_errors err); reflexivity.
  - rewrite (path_exists_lookup _ _ _ Hp). cbn [negb].
    destruct payload; try reflexivity. cbn [bind].
    destruct (foldl _ _ l). reflexivity.
Qed.

Lemma count_and_load (pf : gmap string file) (paths : list string)
    (st : gmap string json * nat * nat) (total n : nat) :
  size (fst (fst st)) + snd (fst st) <= total ->
  for_each paths total (count_evidence_file pf) = inr n ->
  exists st',
    for_each paths st (add_evidence_file is_valid_evidence_item pf) = inr st'
    /\ size (fst (fst st')) + snd (fst st') <= n.
Proof.
  revert st total. induction paths as [|p tl IH]; intros st total Hle Hn.
  - injection Hn as <-. exists st. split; [reflexivity|exact Hle].
  - rewrite for_each_cons in Hn. rewrite for_each_cons.
    destruct st as [[by_id invalid] scanned]. cbn [fst snd] in Hle.
    unfold count_evidence_file in Hn at 1.
    rewrite add_evidence_file_cases.
    destruct (pf !! p) as [[|err|payload]|] eqn:Hp; cbn [bind] in *.
    + apply (IH _ total); [exact Hle|exact Hn].
    + destruct (caught_by count_errors err) eqn:Hc; cbn [bind] in Hn;
        [|discriminate].
      rewrite (count_errors_are_load_errors _ Hc). cbn [bind].
      apply (IH _ total); [exact Hle|exact Hn].
    + destruct payload as [| | | |l|]; cbn [bind] in *;
        try (apply (IH _ total); [exact Hle|exact Hn]).
      pose proof (add_evidence_items_size l (by_id, invalid)) as Hsz.
      cbv zeta in Hsz. cbn [fst snd] in Hsz.
      apply (IH _ (total + length l)); [cbn [fst snd] in *; lia|exact Hn].
    + apply (IH _ total); [exact Hle|exact Hn].
Qed.

Lemma count_raises (pf : gmap string file) (paths : list string)
    (total : nat) (exc : string) :
  for_each paths total (count_evidence_file pf) = inl exc ->
  caught_by count_errors exc = false
  /\ exists p, p ∈ paths /\ pf !! p = Some (Corrupt exc).
Proof.
  revert total. induction paths as [|p tl IH]; intros total; [discriminate|].
  rewrite for_each_cons.
  destruct (count_evidence_file pf total p) as [e|total'] eqn:E; cbn [bind].
  - intros H. injection H as ->. unfold count_evidence_file in E.
    destruct (pf !! p) as [[|err|[| | | |l|]]|] eqn:Hp; try discriminate.
    destruct (caught_by count_errors err) eqn:Hc; [discriminate|].
    injection E as ->. split; [exact Hc|].
    exists p. split; [apply list_elem_of_here|exact Hp].
  - intros H. destruct (IH _ H) as (Hc & q & Hq & Hf).
    split; [exact Hc|]. exists q. split; [by apply list_elem_of_further|exact Hf].
Qed.

Lemma count_returns (pf : gmap string file) (paths : list string)
    (total n : nat) :
  for_each paths total (count_evidence_file pf) = inr n ->
  forall p err, p ∈ paths -> pf !! p = Some (Corrupt err) ->
    caught_by count_errors err = true.
Proof.
  revert total. induction paths as [|p tl IH]; intros total Hn q err Hq Hf.
  - apply elem_of_nil in Hq. contradiction.
  - rewrite for_each_cons in Hn.
    destruct (count_evidence_file pf total p) as [e|total'] eqn:E;
      cbn [bind] in Hn; [discriminate|].
    apply elem_of_cons in Hq as [->|Hq]; [|exact (IH _ Hn q err Hq Hf)].
    unfold count_evidence_file in E. rewrite Hf in E.
    destruct (caught_by count_errors err); [reflexivity|discriminate].
Qed.

(** The evidence count of the run report bounds what the accuracy gate can
    use. When [count_evidence_items] returns, no evidence file raised an
    exception outside [OSError] and [JSONDecodeError], the gate's loader
    returns too, and the entries of its evidence map and the items it
    counts invalid are together no more than the count (items without an id
    and repeated ids make the difference). It raises exactly what the
    reading of an evidence file raises outside those two classes:
    [UnicodeDecodeError], which the gate's loader catches, but also
    [RecursionError] or a plain [ValueError]. *)
Theorem evidence_count_bounds_the_gate (pf : gmap string file) :
  match count_evidence_items pf with
  | inr n =>
      (forall p err, p ∈ _iter_evidence_files pf ->
         pf !! p = Some (Corrupt err) -> caught_by count_errors err = true)
      /\ exists by_id invalid scanned,
           _load_evidence_map is_valid_evidence_item pf
           = inr (by_id, invalid, scanned)
           /\ size by_id + invalid <= n
  | inl exc =>
      caught_by count_errors exc = false
      /\ (exc = "UnicodeDecodeError" \/ caught_by load_errors exc = false)
      /\ exists p, p ∈ _iter_evidence_files pf /\ pf !! p = Some (Corrupt exc)
  end.
Proof.
  unfold count_evidence_items, _load_evidence_map.
  destruct (path_exists pf "sources") eqn:Hs; cbn [negb].
  - destruct (for_each (_iter_evidence_files pf) 0 (count_evidence_file pf))
      as [exc|n] eqn:Hc.
    + destruct (count_raises _ _ _ _ Hc) as (Hcaught & p & Hp & Hf).
      split; [exact Hcaught|]. split; [|eauto].
      unfold caught_by, count_errors, load_errors in *. cbn [existsb] in *.
      destruct (isinstance exc "OSError"), (isinstance exc "JSONDecodeError");
        try discriminate. cbn [orb].
      unfold isinstance, subclasses. cbn [String.eqb Ascii.eqb Bool.eqb existsb].
      destruct (String.eqb_spec exc "UnicodeDecodeError") as [->|Hne]; auto.
    + split; [exact (count_returns pf (_iter_evidence_files pf) 0 n Hc)|].
      destruct (count_and_load pf (_iter_evidence_files pf) (∅, 0, 0) 0 n)
        as ([[by_id invalid] scanned] & E & Hle);
        [cbn [fst snd]; rewrite map_size_empty; lia|exact Hc|].
      exists by_id, invalid, scanned. split; [exact E|exact Hle].
  - unfold _iter_evidence_files. rewrite Hs. cbn [negb].
    split; [intros p err Hp; apply elem_of_nil in Hp; contradiction|].
    exists ∅, 0, 0. split; [reflexivity|]. rewrite map_size_empty. lia.
Qed.

End Count.

(** *** The readiness score *)

Section Float.
Variable py_float : value -> conversion pyfloat.

Lemma return_float_crash (score : option value) (otherwise : attempt) (exc : string) :
  return_float py_float score otherwise = Crash exc ->
  otherwise = Crash exc \/ exists v, py_float v = Raised exc.
Proof.
  unfold return_float. destruct score as [v|]; [|auto].
  destruct v; auto;
    match goal with |- context [py_float ?v] =>
      destruct (py_float v) as [?| |exc'] eqn:E; intros H; try discriminate;
      destruct (caught_by readiness_errors exc'); try discriminate;
      injection H as <-; right; eexists; exact E end.
Qed.

Lemma report_score_crash (data : value) (exc : string) :
  report_score py_float data = Crash exc ->
  exc = "AttributeError" \/ exists v, py_float v = Raised exc.
Proof.
  unfold report_score. destruct data; try (intros H; injection H as <-; auto).
  destruct (get_or "readiness" (VDict []) kv);
    try (intros H; injection H as <-; auto).
  intros H. apply return_float_crash in H as [H|H]; [discriminate|auto].
Qed.

Lemma scan_crash (items : list (string * value)) (exc : string) :
  scan_phase_results py_float items = Crash exc ->
  exc = "AttributeError" \/ exists v, py_float v = Raised exc.
Proof.
  induction items as [|[key phase_data] tl IH]; [discriminate|].
  cbn [scan_phase_results]. destruct phase_data; try exact IH.
  destruct (get_or "agents" (VDict []) kv);
    try (intros H; injection H as <-; auto).
  destruct (get_or "readiness_assessment" (VDict []) kv0); try exact IH.
  destruct (get_or "structured_data" (VDict []) kv1);
    try (intros H; injection H as <-; auto).
  intros H. apply return_float_crash in H as [H|H]; auto.
Qed.

Lemma context_score_crash (data : value) (exc : string) :
  context_score py_float data = Crash exc ->
  exc = "AttributeError" \/ exists v, py_float v = Raised exc.
Proof.
  unfold context_score. destruct data; try (intros H; injection H as <-; auto).
  destruct (get_or "phase_results" (VDict []) kv);
    try (intros H; injection H as <-; auto).
  apply scan_crash.
Qed.

(** [get_readiness_score] at its edges. Without a readable report the score
    is 0.0. The first report that holds a score which [float] accepts
    decides, [readiness_report.json] before [assessment_report.json]; a
    score that [float] refuses sends the search on to the next report. A
    report whose document is not an object, or whose [readiness] entry is
    not one, makes the call raise [AttributeError], which no clause
    catches; so does a report whose reading raises an exception outside
    [OSError], [TypeError] and [ValueError] ([RecursionError] for brackets
    nested too deep); nothing else is raised but what [float] raises
    besides [TypeError] and [ValueError]. *)
Theorem readiness_score_edges
    (readiness_report assessment_report full_pipeline_context : report_file) :
  let score := get_readiness_score py_float in
  (forall a b c, passed_over a -> passed_over b -> passed_over c ->
                 score a b c = inr (Finite 0))
  /\ (forall kv readiness v x,
        readiness_report = Parsed (VDict kv) ->
        dict_get "readiness" kv = Some (VDict readiness) ->
        dict_get "overall_score" readiness = Some v -> v <> VNone ->
        py_float v = Converted x ->
        score readiness_report assessment_report full_pipeline_context = inr x)
  /\ (forall kv readiness v,
        readiness_report = Parsed (VDict kv) ->
        dict_get "readiness" kv = Some (VDict readiness) ->
        dict_get "overall_score" readiness = Some v -> v <> VNone ->
        py_float v = Refused ->
        score readiness_report assessment_report full_pipeline_context
        = score Absent assessment_report full_pipeline_context)
  /\ (forall data,
        readiness_report = Parsed data ->
        (forall kv, data <> VDict kv) ->
        score readiness_report assessment_report full_pipeline_context
        = inl "AttributeError")
  /\ (forall kv v,
        readiness_report = Parsed (VDict kv) ->
        dict_get "readiness" kv = Some v -> (forall r, v <> VDict r) ->
        score readiness_report assessment_report full_pipeline_context
        = inl "AttributeError")
  /\ (forall exc,
        readiness_report = Unreadable exc ->
        score readiness_report assessment_report full_pipeline_context
        = if caught_by readiness_errors exc
          then score Absent assessment_report full_pipeline_context
          else inl exc)
  /\ (forall exc,
        score readiness_report assessment_report full_pipeline_context = inl exc ->
        exc = "AttributeError" \/ (exists v, py_float v = Raised exc)
        \/ (caught_by readiness_errors exc = false
            /\ (readiness_report = Unreadable exc
                \/ assessment_report = Unreadable exc
                \/ full_pipeline_context = Unreadable exc))).
Proof.
  cbv zeta. split; [|split; [|split; [|split; [|split; [|split]]]]].
  - intros a b c [->|(e1 & -> & H1)] [->|(e2 & -> & H2)] [->|(e3 & -> & H3)];
      unfold get_readiness_score; cbn [try_report];
      rewrite ?H1, ?H2, ?H3; reflexivity.
  - intros kv readiness v x -> Hr Hs Hv Hf.
    unfold get_readiness_score. cbn [try_report report_score].
    unfold get_or. rewrite Hr. unfold return_float. rewrite Hs.
    destruct v; try contradiction; rewrite Hf; reflexivity.
  - intros kv readiness v -> Hr Hs Hv Hf.
    unfold get_readiness_score. cbn [try_report report_score].
    unfold get_or. rewrite Hr. unfold return_float. rewrite Hs.
    destruct v; try contradiction; rewrite Hf; reflexivity.
  - intros data -> Hnd. unfold get_readiness_score. cbn [try_report].
    destruct data; try reflexivity. exfalso. eapply Hnd. reflexivity.
  - intros kv v -> Hr Hnd. unfold get_readiness_score. cbn [try_report report_score].
    unfold get_or. rewrite Hr.
    destruct v; try reflexivity. exfalso. eapply Hnd. reflexivity.
  - intros exc ->. unfold get_readiness_score. cbn [try_report].
    destruct (caught_by readiness_errors exc); reflexivity.
  - assert (Htry : forall f score_of e,
              try_report f score_of = Crash e ->
              (exists data, f = Parsed data /\ score_of data = Crash e)
              \/ (f = Unreadable e /\ caught_by readiness_errors e = false)).
    { intros f score_of e. destruct f as [|e'|data]; cbn [try_report].
      - discriminate.
      - destruct (caught_by readiness_errors e') eqn:Hc; [discriminate|].
        intros H. injection H as ->. auto.
      - eauto. }
    intros exc. unfold get_readiness_score.
    destruct (try_report readiness_report (report_score py_float)) eqn:E1.
    + discriminate.
    + destruct (try_report assessment_report (report_score py_float)) eqn:E2.
      * discriminate.
      * destruct (try_report full_pipeline_context (context_score py_float)) eqn:E3;
          try discriminate.
        intros H. injection H as <-.
        destruct (Htry _ _ _ E3) as [(data & -> & Hd)|[-> Hc]]; [|auto 6].
        destruct (context_score_crash _ _ Hd); auto.
      * intros H. injection H as <-.
        destruct (Htry _ _ _ E2) as [(data & -> & Hd)|[-> Hc]]; [|auto 6].
        destruct (report_score_crash _ _ Hd); auto.
    + intros H. injection H as <-.
      destruct (Htry _ _ _ E1) as [(data & -> & Hd)|[-> Hc]]; [|auto 6].
      destruct (report_score_crash _ _ Hd); auto.
Qed.

End Float.

End RunnerHelpersFacts.
